(** * Trade_bot: a shallow embedding of the risk, sizing, volume-profile
      and decision layers, with the properties of its specification.

    Numeric model.  The Python sources compute on [float] and [int].  Here a
    [float] is an exact rational ([Q], compared with [==]) and an [int] is a
    [Z]; rounding, infinities and NaN are outside the model, so a law stated
    in the specification "within floating tolerance" is exact here.  Python
    raises [ZeroDivisionError] when a float is divided by zero: every division
    by a run-time quantity goes through [pydiv], which raises in that case.
    A [datetime] is a number of microseconds ([Z]). *)

From Stdlib Require Import ZArith QArith Qabs Qround Lia Lqa List String Bool.
From Stdlib Require Import Sorting.Permutation Sorting.Sorted.
From stdpp Require Import base option gmap strings.
Import ListNotations.

Local Open Scope Z_scope.
Local Open Scope Q_scope.
Local Open Scope string_scope.
Local Open Scope list_scope.

(* ------------------------------------------------------------------ *)
(** ** Exceptions *)

Inductive PyError : Type :=
  | ZeroDivisionError
  | ValueError
  | KeyError
  | IndexError.

(** The outcome of a call: a value, or an exception.  [OutOfFuel] is not a
    behaviour of the program: it marks that the bound of a bounded loop of
    this model was reached with the loop still running. *)
Inductive Result (A : Type) : Type :=
  | Ok (a : A)
  | Raise (e : PyError)
  | OutOfFuel.

Arguments Ok {A} a.
Arguments Raise {A} e.
Arguments OutOfFuel {A}.

#[global] Instance result_ret : MRet Result := fun _ a => Ok a.

#[global] Instance result_bind : MBind Result :=
  fun _ _ f m =>
    match m with Ok a => f a | Raise e => Raise e | OutOfFuel => OutOfFuel end.

(* ------------------------------------------------------------------ *)
(** ** Arithmetic of the sources *)

(** [x < y] on floats, as a boolean. *)
Definition Qltb (x y : Q) : bool := negb (Qle_bool y x).

(** [x / y] on floats. *)
Definition pydiv (x y : Q) : Result Q :=
  if Qeq_bool y 0 then Raise ZeroDivisionError else Ok (x / y).

(** [int(x)]: truncation toward zero. *)
Definition pyint (x : Q) : Z := Z.quot (Qnum x) (Zpos (Qden x)).

(** [max(0, x)]: Python keeps the first argument unless a later one is
    strictly greater. *)
Definition pymax0 (x : Q) : Q := if Qltb 0 x then x else 0.

(** [sum(xs)]: left to right from 0. *)
Definition pysum (xs : list Q) : Q := fold_left Qplus xs 0.

(* ------------------------------------------------------------------ *)
(** ** config.py *)

Record BotConfig : Type := {
  VP_LOOKBACK_HOURS : Z;
  VP_PRICE_BINS : Z;
  VP_VALUE_AREA_PERCENT : Q;
  POSITION_SIZING_METHOD : string;
  RISK_PER_TRADE_PERCENT : Q;
  FIXED_POSITION_SIZE_USDT : Q;
  KELLY_WIN_RATE : Q;
  KELLY_RISK_REWARD : Q;
  KELLY_FRACTION : Q;
  MAX_ACCOUNT_RISK_PERCENT : Q;
  MAX_DAILY_LOSS_PERCENT : Q;
  MAX_POSITIONS : Z;
  STOP_LOSS_PERCENT : Q;
  TAKE_PROFIT_PERCENT : Q;
  TRAILING_STOP_ENABLED : bool;
  TRAILING_STOP_PERCENT : Q;
  MIN_VOLUME_24H_USDT : Q;
  MAX_SPREAD_BIPS : Q;
  MIN_SIGNAL_STRENGTH : Z;
  REQUIRE_TREND_CONFIRMATION : bool;
  ENABLE_TRADING : bool;
  EMERGENCY_STOP : bool
}.

(** The defaults of the dataclass. *)
Definition default_config : BotConfig := {|
  VP_LOOKBACK_HOURS := 24;
  VP_PRICE_BINS := 100;
  VP_VALUE_AREA_PERCENT := 70;
  POSITION_SIZING_METHOD := "fixed_percent";
  RISK_PER_TRADE_PERCENT := 1;
  FIXED_POSITION_SIZE_USDT := 50;
  KELLY_WIN_RATE := 55 # 100;
  KELLY_RISK_REWARD := 2;
  KELLY_FRACTION := 25 # 100;
  MAX_ACCOUNT_RISK_PERCENT := 5;
  MAX_DAILY_LOSS_PERCENT := 3;
  MAX_POSITIONS := 3;
  STOP_LOSS_PERCENT := 2;
  TAKE_PROFIT_PERCENT := 4;
  TRAILING_STOP_ENABLED := true;
  TRAILING_STOP_PERCENT := 15 # 10;
  MIN_VOLUME_24H_USDT := 1000000000;
  MAX_SPREAD_BIPS := 50;
  MIN_SIGNAL_STRENGTH := 60;
  REQUIRE_TREND_CONFIRMATION := true;
  ENABLE_TRADING := true;
  EMERGENCY_STOP := false
|}.

(* ------------------------------------------------------------------ *)
(** ** data_collector.py: the state the other components read *)

(** A trade print, as [stream_trades] stores it. *)
Record Trade : Type := {
  timestamp : Z;
  price : Q;
  quantity : Q;
  is_buyer_maker : bool;
  trade_id : Z
}.

(** An open position as the exchange reports it; the numeric fields are the
    values [float(position[...])] yields. *)
Record Position : Type := {
  symbol : string;
  positionSide : string;
  entryPrice : Q;
  positionAmt : Q;
  unRealizedProfit : Q
}.

Record EnhancedDataCollector : Type := {
  trades : list Trade;
  current_price : Q;
  account_balance : Q;
  open_positions : list Position;
  daily_pnl : Q;
  daily_trades : Z
}.

(* ------------------------------------------------------------------ *)
(** ** position_sizer.py *)

Module PositionSizer.

(** The dict a sizing method returns; the two diagnostic keys are present
    only for the method that sets them. *)
Record PositionSize : Type := {
  quantity_btc : Q;
  notional_usdt : Q;
  risk_usdt : Q;
  method : string;
  risk_percent : option Q;
  kelly_percent : option Q
}.

(** Why [check_risk_limits] answered as it did (the source formats these
    into a message). *)
Inductive RiskVerdict : Type :=
  | RiskExceedsMax (risk max_risk : Q)
  | DailyLossLimitReached (daily_loss_percent : Q)
  | MaximumPositionsReached (max_positions : Z)
  | PositionSizeValid.

Section WithConfig.
Variable config : BotConfig.

Definition _fixed_percent_sizing (balance entry_price risk_per_btc : Q)
  : Result PositionSize :=
  let risk_amount := balance * (RISK_PER_TRADE_PERCENT config / 100) in
  quantity_btc ← pydiv risk_amount risk_per_btc;
  let notional_usdt := quantity_btc * entry_price in
  mret {| quantity_btc := quantity_btc;
          notional_usdt := notional_usdt;
          risk_usdt := risk_amount;
          method := "fixed_percent";
          risk_percent := Some (RISK_PER_TRADE_PERCENT config);
          kelly_percent := None |}.

Definition _fixed_dollar_sizing (entry_price risk_per_btc : Q)
  : Result PositionSize :=
  let notional_usdt := FIXED_POSITION_SIZE_USDT config in
  quantity_btc ← pydiv notional_usdt entry_price;
  let risk_amount := quantity_btc * risk_per_btc in
  mret {| quantity_btc := quantity_btc;
          notional_usdt := notional_usdt;
          risk_usdt := risk_amount;
          method := "fixed_dollar";
          risk_percent := None;
          kelly_percent := None |}.

Definition _kelly_sizing (balance entry_price risk_per_btc : Q)
    (signal_strength : Z) : Result PositionSize :=
  let win_rate := KELLY_WIN_RATE config in
  let risk_reward := KELLY_RISK_REWARD config in
  kelly_percent ← pydiv ((win_rate * risk_reward) - (1 - win_rate)) risk_reward;
  let kelly_percent := pymax0 kelly_percent in
  let kelly_percent := kelly_percent * KELLY_FRACTION config in
  let confidence_factor := inject_Z signal_strength / 100 in
  let kelly_percent := kelly_percent * confidence_factor in
  let risk_amount := balance * kelly_percent in
  quantity_btc ← pydiv risk_amount risk_per_btc;
  let notional_usdt := quantity_btc * entry_price in
  mret {| quantity_btc := quantity_btc;
          notional_usdt := notional_usdt;
          risk_usdt := risk_amount;
          method := "kelly";
          risk_percent := None;
          kelly_percent := Some (kelly_percent * 100) |}.

Definition calculate_position_size (dc : EnhancedDataCollector)
    (entry_price stop_loss_price : Q) (signal_strength : Z)
  : Result PositionSize :=
  let account_balance := account_balance dc in
  if Qle_bool account_balance 0 then
    mret {| quantity_btc := 0; notional_usdt := 0; risk_usdt := 0;
            method := "no_balance";
            risk_percent := None; kelly_percent := None |}
  else
    let risk_per_btc := Qabs (entry_price - stop_loss_price) in
    risk_percent ← pydiv risk_per_btc entry_price;
    if String.eqb (POSITION_SIZING_METHOD config) "fixed_percent" then
      _fixed_percent_sizing account_balance entry_price risk_per_btc
    else if String.eqb (POSITION_SIZING_METHOD config) "fixed_dollar" then
      _fixed_dollar_sizing entry_price risk_per_btc
    else if String.eqb (POSITION_SIZING_METHOD config) "kelly" then
      _kelly_sizing account_balance entry_price risk_per_btc signal_strength
    else
      _fixed_percent_sizing account_balance entry_price risk_per_btc.

Definition check_risk_limits (dc : EnhancedDataCollector)
    (position_size : PositionSize) : Result (bool * RiskVerdict) :=
  let balance := account_balance dc in
  let max_risk := balance * (MAX_ACCOUNT_RISK_PERCENT config / 100) in
  let check_maximum_positions : Result (bool * RiskVerdict) :=
    if (MAX_POSITIONS config <=? Z.of_nat (length (open_positions dc)))%Z
    then mret (false, MaximumPositionsReached (MAX_POSITIONS config))
    else mret (true, PositionSizeValid) in
  if Qltb max_risk (risk_usdt position_size) then
    mret (false, RiskExceedsMax (risk_usdt position_size) max_risk)
  else if Qltb (daily_pnl dc) 0 then
    ratio ← pydiv (Qabs (daily_pnl dc)) balance;
    let daily_loss_percent := ratio * 100 in
    if Qle_bool (MAX_DAILY_LOSS_PERCENT config) daily_loss_percent
    then mret (false, DailyLossLimitReached daily_loss_percent)
    else check_maximum_positions
  else check_maximum_positions.

End WithConfig.

(** The method tags on which [calculate_position_size] takes the
    fixed-percent policy: its own name, and any tag that names no policy. *)
Definition selects_fixed_percent (m : string) : Prop :=
  m = "fixed_percent" \/ (m <> "fixed_dollar" /\ m <> "kelly").

End PositionSizer.

(* ------------------------------------------------------------------ *)
(** ** risk_manager.py *)

Module RiskManager.

(** [active_stops] maps a position id to its tracked stop. *)
Record t : Type := {
  active_stops : gmap string Q;
  daily_reset_time : Z
}.

Inductive DailyVerdict : Type :=
  | DailyLossLimitHit (loss_percent : Q)
  | DailyLimitsOK.

Definition microseconds_per_day : Z := 86400000000.

(** [dt.replace(hour=0, minute=0, second=0)]: the date and the microsecond
    field are kept. *)
Definition replace_hms_zero (dt : Z) : Z :=
  (dt - dt mod microseconds_per_day + dt mod 1000000)%Z.

Definition position_id (position : Position) : string :=
  symbol position +:+ "_" +:+ positionSide position.

Section WithConfig.
Variable config : BotConfig.

Definition _update_trailing_stop (self : t) (position : Position)
    (current_price unrealized_pnl : Q) : t :=
  let position_id := position_id position in
  let position_amt := positionAmt position in
  let is_long := Qltb 0 position_amt in
  let track (new_stop : Q) : t :=
    {| active_stops := <[position_id := new_stop]> (active_stops self);
       daily_reset_time := daily_reset_time self |} in
  if Qle_bool unrealized_pnl 0 then self
  else if is_long then
    let new_stop :=
      current_price * (1 - TRAILING_STOP_PERCENT config / 100) in
    match active_stops self !! position_id with
    | None => track new_stop
    | Some stop => if Qltb stop new_stop then track new_stop else self
    end
  else
    let new_stop :=
      current_price * (1 + TRAILING_STOP_PERCENT config / 100) in
    match active_stops self !! position_id with
    | None => track new_stop
    | Some stop => if Qltb new_stop stop then track new_stop else self
    end.

(** The stop [_update_trailing_stop] proposes at a price, for a long and
    for a short position. *)
Definition long_stop (current_price : Q) : Q :=
  current_price * (1 - TRAILING_STOP_PERCENT config / 100).

Definition short_stop (current_price : Q) : Q :=
  current_price * (1 + TRAILING_STOP_PERCENT config / 100).

(** One call of [_update_trailing_stop], by its arguments, and a run of
    successive calls on the same object. *)
Record TrailingCall : Type := {
  call_position : Position;
  call_price : Q;
  call_pnl : Q
}.

Definition update_trailing_stops (self : t) (calls : list TrailingCall) : t :=
  fold_left
    (fun self c =>
       _update_trailing_stop self (call_position c) (call_price c)
         (call_pnl c))
    calls self.

(** The body of the loop of [monitor_positions] for one position.  The
    stop is updated before the PnL percentage is computed for the log line,
    so the update stays when that division raises. *)
Definition monitor_position (dc : EnhancedDataCollector) (self : t)
    (position : Position) : Result unit * t :=
  let entry_price := entryPrice position in
  let current_price := current_price dc in
  let unrealized_pnl := unRealizedProfit position in
  let self :=
    if TRAILING_STOP_ENABLED config
    then _update_trailing_stop self position current_price unrealized_pnl
    else self in
  (ratio ← pydiv unrealized_pnl (entry_price * Qabs (positionAmt position));
   let pnl_percent := ratio * 100 in
   Ok tt,
   self).

(** The [for] loop of [monitor_positions]: an exception ends it. *)
Fixpoint monitor_loop (dc : EnhancedDataCollector) (self : t)
    (positions : list Position) : Result unit * t :=
  match positions with
  | [] => (Ok tt, self)
  | position :: rest =>
      match monitor_position dc self position with
      | (Ok _, self) => monitor_loop dc self rest
      | (Raise e, self) => (Raise e, self)
      | (OutOfFuel, self) => (OutOfFuel, self)
      end
  end.

Definition monitor_positions (dc : EnhancedDataCollector) (self : t)
  : Result unit * t :=
  monitor_loop dc self (open_positions dc).

(** The calls of [_update_trailing_stop] one monitoring cycle makes. *)
Definition monitoring_calls (dc : EnhancedDataCollector)
  : list TrailingCall :=
  map (fun position =>
         {| call_position := position;
            call_price := current_price dc;
            call_pnl := unRealizedProfit position |})
    (open_positions dc).

(** [check_daily_limits] writes the collector's daily counters and its own
    reset time, so both states are returned. *)
Definition check_daily_limits (dc : EnhancedDataCollector) (self : t)
    (now : Z)
  : Result (bool * DailyVerdict * EnhancedDataCollector * t) :=
  let '(dc, self) :=
    if (daily_reset_time self + microseconds_per_day <? now)%Z then
      ({| trades := trades dc; current_price := current_price dc;
          account_balance := account_balance dc;
          open_positions := open_positions dc;
          daily_pnl := 0; daily_trades := 0 |},
       {| active_stops := active_stops self;
          daily_reset_time := replace_hms_zero now |})
    else (dc, self) in
  if Qltb (daily_pnl dc) 0 then
    ratio ← pydiv (Qabs (daily_pnl dc)) (account_balance dc);
    let loss_percent := ratio * 100 in
    if Qle_bool (MAX_DAILY_LOSS_PERCENT config) loss_percent
    then mret (false, DailyLossLimitHit loss_percent, dc, self)
    else mret (true, DailyLimitsOK, dc, self)
  else mret (true, DailyLimitsOK, dc, self).

End WithConfig.
End RiskManager.

(* ------------------------------------------------------------------ *)
(** ** volume_profile.py *)

Module VolumeProfile.

(** A Python dict from bin price to volume: the pairs in insertion order,
    keys pairwise different as floats. *)
Definition Profile : Type := list (Q * Q).

(** The attributes of a [VolumeProfile] object. *)
Record t : Type := {
  profile : Profile;
  poc : Q;
  value_area_high : Q;
  value_area_low : Q
}.

(** [__init__]. *)
Definition init : t :=
  {| profile := []; poc := 0; value_area_high := 0; value_area_low := 0 |}.

(** What [build_profile] returns: [{}] on an empty window, the five-key dict
    otherwise. *)
Inductive BuildResult : Type :=
  | EmptyDict
  | ProfileData (profile : Profile)
      (poc value_area_high value_area_low total_volume : Q).

(** [d.get(k)]. *)
Fixpoint dict_get (d : Profile) (k : Q) : option Q :=
  match d with
  | [] => None
  | (k', v) :: d' => if Qeq_bool k' k then Some v else dict_get d' k
  end.

(** [if k not in d: d[k] = 0] followed by [d[k] += q]: a new key goes to the
    end, a known key keeps its place. *)
Fixpoint dict_add (d : Profile) (k q : Q) : Profile :=
  match d with
  | [] => [(k, 0 + q)]
  | (k', v) :: d' =>
      if Qeq_bool k' k then (k', v + q) :: d' else (k', v) :: dict_add d' k q
  end.

(** [min(xs)] and [max(xs)] on a non-empty list [x :: xs]: the first
    extremal element. *)
Definition pymin (x : Q) (xs : list Q) : Q :=
  fold_left (fun m y => if Qltb y m then y else m) xs x.

Definition pymax (x : Q) (xs : list Q) : Q :=
  fold_left (fun m y => if Qltb m y then y else m) xs x.

(** [max(d, key=d.get)]: the keys are visited in insertion order and the
    candidate changes only for a strictly greater value. *)
Fixpoint argmax_from (best : Q * Q) (d : Profile) : Q * Q :=
  match d with
  | [] => best
  | kv :: d' => argmax_from (if Qltb (snd best) (snd kv) then kv else best) d'
  end.

Definition dict_argmax (d : Profile) : option Q :=
  match d with
  | [] => None
  | kv :: d' => Some (fst (argmax_from kv d'))
  end.

(** [sorted(xs)], ascending and stable. *)
Fixpoint insert_sorted (x : Q) (l : list Q) : list Q :=
  match l with
  | [] => [x]
  | y :: l' => if Qle_bool x y then x :: y :: l' else y :: insert_sorted x l'
  end.

Definition sorted (l : list Q) : list Q := fold_right insert_sorted [] l.

(** [l.index(x)]. *)
Fixpoint list_index (x : Q) (l : list Q) : Result nat :=
  match l with
  | [] => Raise ValueError
  | y :: l' =>
      if Qeq_bool y x then Ok O else i ← list_index x l'; Ok (S i)
  end.

(** [l[i]] for an index that is not negative. *)
Definition list_item (l : list Q) (i : nat) : Result Q :=
  match nth_error l i with
  | Some x => Ok x
  | None => Raise IndexError
  end.

(** [d[k]]. *)
Definition dict_item (d : Profile) (k : Q) : Result Q :=
  match dict_get d k with
  | Some v => Ok v
  | None => Raise KeyError
  end.

(** [d[l[i]]]. *)
Definition volume_at (d : Profile) (l : list Q) (i : nat) : Result Q :=
  p ← list_item l i; dict_item d p.

(** The state of the expansion loop of [_calculate_value_area]. *)
Record Band : Type := {
  va_volume : Q;
  low_index : nat;
  high_index : nat
}.

(** One pass through the body of [while va_volume < target_volume]; [None]
    is the [break]. *)
Definition expand_once (prof : Profile) (sorted_prices : list Q) (b : Band)
  : Result (option Band) :=
  low_vol ←
    (if (0 <? low_index b)%nat
     then volume_at prof sorted_prices (low_index b - 1)
     else Ok 0);
  high_vol ←
    (if (high_index b <? length sorted_prices - 1)%nat
     then volume_at prof sorted_prices (high_index b + 1)
     else Ok 0);
  if Qltb high_vol low_vol && (0 <? low_index b)%nat then
    Ok (Some {| va_volume := va_volume b + low_vol;
                low_index := (low_index b - 1)%nat;
                high_index := high_index b |})
  else if (high_index b <? length sorted_prices - 1)%nat then
    Ok (Some {| va_volume := va_volume b + high_vol;
                low_index := low_index b;
                high_index := (high_index b + 1)%nat |})
  else Ok None.

(** The [while] loop, bounded by [fuel] passes. *)
Fixpoint expand (fuel : nat) (prof : Profile) (sorted_prices : list Q)
    (target_volume : Q) (b : Band) : Result Band :=
  if Qltb (va_volume b) target_volume then
    match fuel with
    | O => OutOfFuel
    | S fuel' =>
        step ← expand_once prof sorted_prices b;
        match step with
        | None => Ok b
        | Some b' => expand fuel' prof sorted_prices target_volume b'
        end
    end
  else Ok b.

(** The loop of [build_profile]: each trade's quantity goes to its bin. *)
Fixpoint bin_trades (min_price bin_size : Q) (recent_trades : list Trade)
    (volume_by_price : Profile) : Result Profile :=
  match recent_trades with
  | [] => Ok volume_by_price
  | trade :: rest =>
      ratio ← pydiv (price trade - min_price) bin_size;
      let bin_index := pyint ratio in
      let bin_price := min_price + inject_Z bin_index * bin_size in
      bin_trades min_price bin_size rest
        (dict_add volume_by_price bin_price (quantity trade))
  end.

(** [sorted(xs, reverse=True)]. *)
Fixpoint insert_sorted_desc (x : Q) (l : list Q) : list Q :=
  match l with
  | [] => [x]
  | y :: l' =>
      if Qle_bool y x then x :: y :: l' else y :: insert_sorted_desc x l'
  end.

Definition sorted_desc (l : list Q) : list Q :=
  fold_right insert_sorted_desc [] l.

Definition microseconds_per_hour : Z := 3600000000.

(** The bin key of a trade, as the loop of [build_profile] computes it.
    The index is the integer part of the exact quotient; the program takes
    the integer part of the rounded quotient, which can be the neighbouring
    index when the price lies on a bin boundary.  The properties proved of
    the profile are about the order, the volumes and the band of the bins,
    not about the key computed for a given price. *)
Definition bin_price (min_price bin_size : Q) (trade : Trade) : Q :=
  min_price + inject_Z (pyint ((price trade - min_price) / bin_size)) * bin_size.

(** The keys of a dict filled in the order [ks], starting from a dict with
    keys [seen]: a key already there keeps its place, a new one goes to the
    end. *)
Fixpoint insertion_order (seen ks : list Q) : list Q :=
  match ks with
  | [] => seen
  | k :: ks' =>
      insertion_order
        (if existsb (fun k' => Qeq_bool k' k) seen then seen else seen ++ [k])
        ks'
  end.

(** The trades of the lookback window: [t['timestamp'] > cutoff_time]. *)
Definition recent_trades (dc : EnhancedDataCollector) (now : Z)
    (lookback_hours : Z) : list Trade :=
  let cutoff_time := (now - lookback_hours * microseconds_per_hour)%Z in
  List.filter (fun t => (cutoff_time <? timestamp t)%Z) (trades dc).

Section WithConfig.
Variable config : BotConfig.

(** Every pass of the loop moves one of the two indices outward, so as many
    passes as there are bins are enough (lemma [expand_enough_fuel]). *)
Definition _calculate_value_area (self : t) : Result t :=
  match profile self with
  | [] => Ok self
  | _ :: _ =>
      let total_volume := pysum (map snd (profile self)) in
      let target_volume :=
        total_volume * (VP_VALUE_AREA_PERCENT config / 100) in
      let sorted_prices := sorted (map fst (profile self)) in
      poc_index ← list_index (poc self) sorted_prices;
      va_volume ← dict_item (profile self) (poc self);
      b ← expand (length sorted_prices) (profile self) sorted_prices
             target_volume
             {| va_volume := va_volume;
                low_index := poc_index;
                high_index := poc_index |};
      low ← list_item sorted_prices (low_index b);
      high ← list_item sorted_prices (high_index b);
      Ok {| profile := profile self;
            poc := poc self;
            value_area_high := high;
            value_area_low := low |}
  end.

(** [build_profile] returns its dict and leaves the object updated.  It
    raises only before it has written to the object. *)
Definition build_profile (dc : EnhancedDataCollector) (now : Z)
    (lookback_hours : Z) (self : t) : Result (BuildResult * t) :=
  let recent_trades := recent_trades dc now lookback_hours in
  match recent_trades with
  | [] => Ok (EmptyDict, self)
  | first :: rest =>
      let min_price := pymin (price first) (map price rest) in
      let max_price := pymax (price first) (map price rest) in
      bin_size ←
        pydiv (max_price - min_price) (inject_Z (VP_PRICE_BINS config));
      volume_by_price ← bin_trades min_price bin_size recent_trades [];
      let self :=
        {| profile := volume_by_price;
           poc := match dict_argmax volume_by_price with
                  | Some k => k
                  | None => poc self
                  end;
           value_area_high := value_area_high self;
           value_area_low := value_area_low self |} in
      self ← _calculate_value_area self;
      Ok (ProfileData (profile self) (poc self) (value_area_high self)
            (value_area_low self) (pysum (map snd volume_by_price)),
          self)
  end.

(** The bin keys of the trades of a window, in window order. *)
Definition window_bin_prices (window : list Trade) : list Q :=
  match window with
  | [] => []
  | first :: rest =>
      let min_price := pymin (price first) (map price rest) in
      let max_price := pymax (price first) (map price rest) in
      map (bin_price min_price
             ((max_price - min_price) / inject_Z (VP_PRICE_BINS config)))
        window
  end.

(** [get_support_resistance]: the pair (support, resistance). *)
Definition get_support_resistance (dc : EnhancedDataCollector) (self : t)
  : list Q * list Q :=
  match profile self with
  | [] => ([], [])
  | _ :: _ =>
      let current_price := current_price dc in
      let avg_volume :=
        pysum (map snd (profile self))
        / inject_Z (Z.of_nat (length (profile self))) in
      let threshold := avg_volume * (15 # 10) in
      let significant_nodes :=
        map fst
          (List.filter (fun kv => Qle_bool threshold (snd kv))
             (profile self)) in
      let support :=
        List.filter (fun p => Qltb p current_price) significant_nodes in
      let resistance :=
        List.filter (fun p => Qltb current_price p) significant_nodes in
      (firstn 3 (sorted_desc support), firstn 3 (sorted resistance))
  end.

(** [is_price_in_value_area]. *)
Definition is_price_in_value_area (self : t) (price : Q) : bool :=
  Qle_bool (value_area_low self) price
  && Qle_bool price (value_area_high self).

End WithConfig.

(** The band after one more bin is taken on the low side, and on the high
    side. *)
Definition band_down (b : Band) (low_vol : Q) : Band :=
  {| va_volume := va_volume b + low_vol;
     low_index := (low_index b - 1)%nat;
     high_index := high_index b |}.

Definition band_up (b : Band) (high_vol : Q) : Band :=
  {| va_volume := va_volume b + high_vol;
     low_index := low_index b;
     high_index := (high_index b + 1)%nat |}.

(** The expansion rule of the specification at a band with a bin on either
    side: the greater neighbour is taken, and the lower one on a tie. *)
Definition takes_greater_ties_down (prof : Profile) (sorted_prices : list Q)
    (b : Band) : Prop :=
  forall low_vol high_vol,
    (0 < low_index b)%nat ->
    (high_index b < length sorted_prices - 1)%nat ->
    volume_at prof sorted_prices (low_index b - 1) = Ok low_vol ->
    volume_at prof sorted_prices (high_index b + 1) = Ok high_vol ->
    (high_vol < low_vol ->
     expand_once prof sorted_prices b = Ok (Some (band_down b low_vol)))
    /\ (low_vol < high_vol ->
        expand_once prof sorted_prices b = Ok (Some (band_up b high_vol)))
    /\ (low_vol == high_vol ->
        expand_once prof sorted_prices b = Ok (Some (band_down b low_vol))).

(** The volume of the bins of a profile whose price lies in [low, high]. *)
Definition band_volume (prof : Profile) (low high : Q) : Q :=
  pysum
    (map snd
       (List.filter
          (fun kv => Qle_bool low (fst kv) && Qle_bool (fst kv) high) prof)).

(** The tie-break of the specification for the POC: a bin of maximal volume
    and, among the bins of that volume, the one of lowest price. *)
Definition poc_lowest_of_maxima (prof : Profile) (p : Q) : Prop :=
  exists v,
    In (p, v) prof
    /\ (forall kv, In kv prof -> snd kv <= v)
    /\ (forall kv, In kv prof -> snd kv == v -> p <= fst kv).

(** Prices pairwise different as floats, as the keys of a Python dict
    are. *)
Fixpoint distinct (ks : list Q) : Prop :=
  match ks with
  | [] => True
  | k :: ks' => (forall k', In k' ks' -> ~ k' == k) /\ distinct ks'
  end.

(** The volume a profile holds for a price: 0 where it has no bin. *)
Definition bin_volume (prof : Profile) (p : Q) : Q :=
  match dict_get prof p with
  | Some v => v
  | None => 0
  end.

(** The elements of a list at the positions [lo] to [hi]. *)
Definition segment {A : Type} (lo hi : nat) (l : list A) : list A :=
  firstn (hi + 1 - lo) (skipn lo l).

(** A band of the expansion loop that lies inside the sorted bins of a
    profile and whose volume is the volume of the bins it spans. *)
Definition band_ok (prof : Profile) (b : Band) : Prop :=
  (low_index b <= high_index b < length (sorted (map fst prof)))%nat
  /\ va_volume b
     == pysum (map (bin_volume prof)
                 (segment (low_index b) (high_index b)
                    (sorted (map fst prof)))).

End VolumeProfile.


(* ------------------------------------------------------------------ *)
(** ** market_conditions.py *)

Module MarketConditionAnalyzer.

(** The attributes [analyze_conditions] leaves behind for
    [should_trade_in_current_conditions]. *)
Record t : Type := {
  current_regime : string;
  volatility_state : string;
  liquidity_state : string
}.

(** [__init__]. *)
Definition init : t :=
  {| current_regime := "unknown";
     volatility_state := "normal";
     liquidity_state := "good" |}.

(** What the four private helpers of [analyze_conditions] return in one
    cycle: they read candles, the order book and the exchange ticker. *)
Record Readings : Type := {
  detected_regime : string;
  measured_volatility : string;
  calculated_spread : Q;
  fetched_volume_24h : Q
}.

(** The entries of [conditions['warnings']] (formatted text in the
    source). *)
Inductive Warning : Type :=
  | SpreadTooWide (spread : Q)
  | Low24hVolume (volume_24h : Q)
  | ExtremeVolatility
  | LowVolatility.

Record Conditions : Type := {
  regime : string;
  volatility : string;
  spread_bips : Q;
  volume_24h : Q;
  is_tradeable : bool;
  warnings : list Warning
}.

Section WithConfig.
Variable config : BotConfig.

Definition analyze_conditions (self : t) (r : Readings) : Conditions * t :=
  let regime := detected_regime r in
  let volatility := measured_volatility r in
  let self :=
    {| current_regime := regime;
       volatility_state := volatility;
       liquidity_state := liquidity_state self |} in
  let spread := calculated_spread r in
  let spread_wide := Qltb (MAX_SPREAD_BIPS config) spread in
  let volume_24h := fetched_volume_24h r in
  let volume_low := Qltb volume_24h (MIN_VOLUME_24H_USDT config) in
  ({| regime := regime;
      volatility := volatility;
      spread_bips := spread;
      volume_24h := volume_24h;
      is_tradeable := negb spread_wide && negb volume_low;
      warnings :=
        (if spread_wide then [SpreadTooWide spread] else [])
        ++ (if volume_low then [Low24hVolume volume_24h] else [])
        ++ (if String.eqb volatility "extreme" then [ExtremeVolatility]
            else if String.eqb volatility "low" then [LowVolatility]
            else []) |},
   self).

Definition should_trade_in_current_conditions (self : t)
    (signal_bias : string) : bool * string :=
  if String.eqb (current_regime self) "ranging" then
    (false, "Market is ranging - avoid directional trades")
  else if REQUIRE_TREND_CONFIRMATION config
          && String.eqb signal_bias "bullish"
          && String.eqb (current_regime self) "trending_down" then
    (false, "Bullish signal against downtrend")
  else if REQUIRE_TREND_CONFIRMATION config
          && String.eqb signal_bias "bearish"
          && String.eqb (current_regime self) "trending_up" then
    (false, "Bearish signal against uptrend")
  else if String.eqb (volatility_state self) "extreme" then
    (false, "Volatility too high - risk of whipsaw")
  else (true, "Market conditions favorable").

End WithConfig.
End MarketConditionAnalyzer.

(* ------------------------------------------------------------------ *)
(** ** The signal dict of enhanced_strategy.py *)

Module Signal.

(** An entry of [signal['reasons']].  The source appends formatted text;
    each constructor is one of its formats with the values it prints. *)
Inductive Reason : Type :=
  | MarketNotTradeable (warnings : list MarketConditionAnalyzer.Warning)
  | MovingAverages (description : string)
  | PriceAtMajorSupport (level : Q)
  | PriceAtMajorResistance (level : Q)
  | DeltaDivergence (description : string)
  | OrderFlow (text : string)
  | ConditionsRejected (reason : string).

(** The dict without its ['components'] entry, which keeps a copy of each
    analyzer's answer for display. *)
Record t : Type := {
  timestamp : Z;
  bias : string;
  strength : Z;
  reasons : list Reason;
  action : string;
  entry_price : Q;
  stop_loss : Q;
  take_profit : Q
}.

End Signal.

(* ------------------------------------------------------------------ *)
(** ** enhanced_strategy.py *)

Module EnhancedOrderFlowStrategy.

(** The dict [_analyze_moving_averages] returns. *)
Record MovingAverageSignal : Type := {
  ma_signal : string;
  ma_strength : Z;
  ma_description : string
}.

(** The dict [detect_divergence] returns. *)
Record Divergence : Type := {
  divergence_type : string;
  divergence_strength : Z;
  divergence_description : string
}.

(** The dict [_analyze_orderflow] returns. *)
Record OrderFlowSignal : Type := {
  orderflow_bias : string;
  orderflow_strength : Z;
  orderflow_reasons : list string
}.

(** What the collaborators of one analysis cycle answer: the market
    condition helpers, the moving-average analysis, the divergence detector
    and the order-flow analysis (heat map, footprint and institutional
    detector). *)
Record Readings : Type := {
  market : MarketConditionAnalyzer.Readings;
  moving_averages : MovingAverageSignal;
  delta_divergence : Divergence;
  orderflow : OrderFlowSignal
}.

(** The objects [analyze_market] writes to. *)
Record t : Type := {
  market_conditions : MarketConditionAnalyzer.t;
  volume_profile : VolumeProfile.t;
  last_signal : option Signal.t
}.

Definition add_strength (n : Z) (s : Signal.t) : Signal.t :=
  {| Signal.timestamp := Signal.timestamp s;
     Signal.bias := Signal.bias s;
     Signal.strength := (Signal.strength s + n)%Z;
     Signal.reasons := Signal.reasons s;
     Signal.action := Signal.action s;
     Signal.entry_price := Signal.entry_price s;
     Signal.stop_loss := Signal.stop_loss s;
     Signal.take_profit := Signal.take_profit s |}.

Definition add_reasons (rs : list Signal.Reason) (s : Signal.t) : Signal.t :=
  {| Signal.timestamp := Signal.timestamp s;
     Signal.bias := Signal.bias s;
     Signal.strength := Signal.strength s;
     Signal.reasons := Signal.reasons s ++ rs;
     Signal.action := Signal.action s;
     Signal.entry_price := Signal.entry_price s;
     Signal.stop_loss := Signal.stop_loss s;
     Signal.take_profit := Signal.take_profit s |}.

Definition set_bias (b : string) (s : Signal.t) : Signal.t :=
  {| Signal.timestamp := Signal.timestamp s;
     Signal.bias := b;
     Signal.strength := Signal.strength s;
     Signal.reasons := Signal.reasons s;
     Signal.action := Signal.action s;
     Signal.entry_price := Signal.entry_price s;
     Signal.stop_loss := Signal.stop_loss s;
     Signal.take_profit := Signal.take_profit s |}.

(** [if signal['bias'] == 'neutral': signal['bias'] = b]. *)
Definition set_bias_if_neutral (b : string) (s : Signal.t) : Signal.t :=
  if String.eqb (Signal.bias s) "neutral" then set_bias b s else s.

Definition set_action (a : string) (s : Signal.t) : Signal.t :=
  {| Signal.timestamp := Signal.timestamp s;
     Signal.bias := Signal.bias s;
     Signal.strength := Signal.strength s;
     Signal.reasons := Signal.reasons s;
     Signal.action := a;
     Signal.entry_price := Signal.entry_price s;
     Signal.stop_loss := Signal.stop_loss s;
     Signal.take_profit := Signal.take_profit s |}.

Definition set_prices (entry stop target : Q) (s : Signal.t) : Signal.t :=
  {| Signal.timestamp := Signal.timestamp s;
     Signal.bias := Signal.bias s;
     Signal.strength := Signal.strength s;
     Signal.reasons := Signal.reasons s;
     Signal.action := Signal.action s;
     Signal.entry_price := entry;
     Signal.stop_loss := stop;
     Signal.take_profit := target |}.

(** The dict [analyze_market] starts from. *)
Definition initial_signal (now : Z) : Signal.t :=
  {| Signal.timestamp := now;
     Signal.bias := "neutral";
     Signal.strength := 0;
     Signal.reasons := [];
     Signal.action := "wait";
     Signal.entry_price := 0;
     Signal.stop_loss := 0;
     Signal.take_profit := 0 |}.

Section WithConfig.
Variable config : BotConfig.

(** STEP 2. *)
Definition step_moving_averages (ma : MovingAverageSignal) (s : Signal.t)
  : Signal.t :=
  if negb (String.eqb (ma_signal ma) "none") then
    set_bias_if_neutral (ma_signal ma)
      (add_reasons [Signal.MovingAverages (ma_description ma)]
         (add_strength (ma_strength ma) s))
  else s.

(** STEP 3, after the profile is built: one of the two level checks.
    [near] is [abs(current_price - level) / current_price < 0.005], computed
    only when the list of levels is not empty. *)
Definition step_level (levels : list Q) (current_price : Q)
    (reason : Q -> Signal.Reason) (b : string) (s : Signal.t)
  : Result Signal.t :=
  match levels with
  | [] => Ok s
  | level :: _ =>
      ratio ← pydiv (Qabs (current_price - level)) current_price;
      if Qltb ratio (5 # 1000) then
        Ok (set_bias_if_neutral b
              (add_reasons [reason level] (add_strength 15 s)))
      else Ok s
  end.

(** STEP 4. *)
Definition step_divergence (d : Divergence) (s : Signal.t) : Signal.t :=
  if negb (String.eqb (divergence_type d) "none") then
    set_bias_if_neutral (divergence_type d)
      (add_reasons [Signal.DeltaDivergence (divergence_description d)]
         (add_strength (divergence_strength d / 2)%Z s))
  else s.

(** STEP 5. *)
Definition step_orderflow (o : OrderFlowSignal) (s : Signal.t) : Signal.t :=
  let s := add_strength (orderflow_strength o) s in
  let s := add_reasons (map Signal.OrderFlow (orderflow_reasons o)) s in
  if String.eqb (Signal.bias s) "neutral"
     && negb (String.eqb (orderflow_bias o) "neutral")
  then set_bias (orderflow_bias o) s
  else s.

(** STEP 6, the final decision. *)
Definition final_decision (mc : MarketConditionAnalyzer.t)
    (current_price : Q) (s : Signal.t) : Signal.t :=
  if (MIN_SIGNAL_STRENGTH config <=? Signal.strength s)%Z then
    let '(should_trade, reason) :=
      MarketConditionAnalyzer.should_trade_in_current_conditions config mc
        (Signal.bias s) in
    if should_trade then
      let s :=
        if String.eqb (Signal.bias s) "bullish" then set_action "buy" s
        else if String.eqb (Signal.bias s) "bearish" then set_action "sell" s
        else s in
      if String.eqb (Signal.action s) "buy" then
        set_prices current_price
          (current_price * (1 - STOP_LOSS_PERCENT config / 100))
          (current_price * (1 + TAKE_PROFIT_PERCENT config / 100)) s
      else
        set_prices current_price
          (current_price * (1 + STOP_LOSS_PERCENT config / 100))
          (current_price * (1 - TAKE_PROFIT_PERCENT config / 100)) s
    else add_reasons [Signal.ConditionsRejected reason] s
  else s.

(** STEPS 2 to 5 on the dict of STEP 1: the signal the final decision
    starts from (or the exception that ends the cycle), and the volume
    profile object as these steps leave it. *)
Definition accumulate (dc : EnhancedDataCollector) (now : Z)
    (vp : VolumeProfile.t) (r : Readings) (s : Signal.t)
  : Result Signal.t * VolumeProfile.t :=
  let s := step_moving_averages (moving_averages r) s in
  match
    VolumeProfile.build_profile config dc now (VP_LOOKBACK_HOURS config) vp
  with
  | Raise e => (Raise e, vp)
  | OutOfFuel => (OutOfFuel, vp)
  | Ok (vp_data, vp) =>
      let current_price := current_price dc in
      let '(support, resistance) :=
        VolumeProfile.get_support_resistance dc vp in
      (s ← step_level support current_price Signal.PriceAtMajorSupport
             "bullish" s;
       s ← step_level resistance current_price
             Signal.PriceAtMajorResistance "bearish" s;
       let s := step_divergence (delta_divergence r) s in
       let s := step_orderflow (orderflow r) s in
       Ok s,
       vp)
  end.

(** [analyze_market]: what the call yields (a signal or an exception) and
    the objects as the call leaves them.  The condition analyzer is written
    in STEP 1, before anything can raise; [last_signal] only on the normal
    path through STEP 6. *)
Definition analyze_market (dc : EnhancedDataCollector) (now : Z)
    (r : Readings) (self : t) : Result Signal.t * t :=
  let signal := initial_signal now in
  let '(conditions, mc) :=
    MarketConditionAnalyzer.analyze_conditions config
      (market_conditions self) (market r) in
  if negb (MarketConditionAnalyzer.is_tradeable conditions) then
    (Ok (add_reasons
           [Signal.MarketNotTradeable
              (MarketConditionAnalyzer.warnings conditions)] signal),
     {| market_conditions := mc;
        volume_profile := volume_profile self;
        last_signal := last_signal self |})
  else
    match accumulate dc now (volume_profile self) r signal with
    | (Ok signal, vp) =>
        let signal := final_decision mc (current_price dc) signal in
        (Ok signal,
         {| market_conditions := mc;
            volume_profile := vp;
            last_signal := Some signal |})
    | (Raise e, vp) =>
        (Raise e,
         {| market_conditions := mc;
            volume_profile := vp;
            last_signal := last_signal self |})
    | (OutOfFuel, vp) =>
        (OutOfFuel,
         {| market_conditions := mc;
            volume_profile := vp;
            last_signal := last_signal self |})
    end.

(** Whether the market condition gate approves a bias. *)
Definition approves (mc : MarketConditionAnalyzer.t) (b : string) : bool :=
  fst (MarketConditionAnalyzer.should_trade_in_current_conditions config mc b).

(** The final decision as the specification words it, for the signal [s] a
    cycle returns with the condition analyzer left as [mc]: buy or sell only
    above the minimum strength and with the gate's approval; otherwise wait,
    with a rejection reason as the last entry of the reasons. *)
Definition decides_as_specified (mc : MarketConditionAnalyzer.t)
    (s : Signal.t) : Prop :=
  let passes :=
    (MIN_SIGNAL_STRENGTH config <= Signal.strength s)%Z
    /\ approves mc (Signal.bias s) = true in
  (Signal.action s = "buy" \/ Signal.action s = "sell" -> passes)
  /\ (~ passes ->
      Signal.action s = "wait"
      /\ exists earlier r,
           Signal.reasons s = (earlier ++ [r])%list
           /\ match r with
              | Signal.MarketNotTradeable _ | Signal.ConditionsRejected _ =>
                  True
              | _ => False
              end).

End WithConfig.
End EnhancedOrderFlowStrategy.

(* ------------------------------------------------------------------ *)
(** ** order_executor.py *)

Module OrderExecutor.

(** How [execute_signal] ends: at one of its four [return]s, or with the
    call of [_place_market_order], where the order goes to the exchange
    client. *)
Inductive Outcome : Type :=
  | TradingDisabled
  | EmergencyStopActive
  | DailyLimitsBreached (reason : RiskManager.DailyVerdict)
  | PositionRejected (validation_msg : PositionSizer.RiskVerdict)
  | PlaceMarketOrder (signal : Signal.t)
      (position_size : PositionSizer.PositionSize).

Section WithConfig.
Variable config : BotConfig.

(** [execute_signal]: how the call ends (or the exception that leaves it)
    and the collector and risk manager as the call leaves them. *)
Definition execute_signal (dc : EnhancedDataCollector) (rm : RiskManager.t)
    (now : Z) (signal : Signal.t)
  : Result Outcome * EnhancedDataCollector * RiskManager.t :=
  if negb (ENABLE_TRADING config) then (Ok TradingDisabled, dc, rm)
  else if EMERGENCY_STOP config then (Ok EmergencyStopActive, dc, rm)
  else
    match RiskManager.check_daily_limits config dc rm now with
    | Raise e => (Raise e, dc, rm)
    | OutOfFuel => (OutOfFuel, dc, rm)
    | Ok (can_trade, reason, dc, rm) =>
        if negb can_trade then (Ok (DailyLimitsBreached reason), dc, rm)
        else
          let outcome :=
            position_size ←
              PositionSizer.calculate_position_size config dc
                (Signal.entry_price signal) (Signal.stop_loss signal)
                (Signal.strength signal);
            '(is_valid, validation_msg) ←
              PositionSizer.check_risk_limits config dc position_size;
            if negb is_valid then Ok (PositionRejected validation_msg)
            else Ok (PlaceMarketOrder signal position_size) in
          (outcome, dc, rm)
    end.

End WithConfig.
End OrderExecutor.

(* ------------------------------------------------------------------ *)
(** ** Concrete market data used in examples *)

Module Examples.

Definition trade_at (p q : Q) : Trade :=
  {| timestamp := 1000; price := p; quantity := q;
     is_buyer_maker := false; trade_id := 0 |}.

(** A collector that has seen the trades [ts] and holds [balance]. *)
Definition collector (ts : list Trade) (balance : Q) : EnhancedDataCollector :=
  {| trades := ts; current_price := 0; account_balance := balance;
     open_positions := []; daily_pnl := 0; daily_trades := 0 |}.

(** Two trades of equal size, the higher price first. *)
Definition tie_window : list Trade := [trade_at 100 1; trade_at 50 1].

(** A window made of three trades at 100, 101, 102, with given sizes. *)
Definition three_bins (q100 q101 q102 : Q) : list Trade :=
  [trade_at 100 q100; trade_at 101 q101; trade_at 102 q102].

(** A profile with the POC in the middle and two equal neighbours. *)
Definition tied_neighbours : VolumeProfile.Profile :=
  [(100, 3); (101, 10); (102, 3)].

(** A cycle on a liquid, trending market in which no analyzer fires. *)
Definition quiet_readings : EnhancedOrderFlowStrategy.Readings :=
  {| EnhancedOrderFlowStrategy.market :=
       {| MarketConditionAnalyzer.detected_regime := "trending_up";
          MarketConditionAnalyzer.measured_volatility := "normal";
          MarketConditionAnalyzer.calculated_spread := 1;
          MarketConditionAnalyzer.fetched_volume_24h := 2000000000 |};
     EnhancedOrderFlowStrategy.moving_averages :=
       {| EnhancedOrderFlowStrategy.ma_signal := "none";
          EnhancedOrderFlowStrategy.ma_strength := 0;
          EnhancedOrderFlowStrategy.ma_description := "" |};
     EnhancedOrderFlowStrategy.delta_divergence :=
       {| EnhancedOrderFlowStrategy.divergence_type := "none";
          EnhancedOrderFlowStrategy.divergence_strength := 0;
          EnhancedOrderFlowStrategy.divergence_description := "" |};
     EnhancedOrderFlowStrategy.orderflow :=
       {| EnhancedOrderFlowStrategy.orderflow_bias := "neutral";
          EnhancedOrderFlowStrategy.orderflow_strength := 0;
          EnhancedOrderFlowStrategy.orderflow_reasons := [] |} |}.

(** The strategy's objects as their constructors leave them. *)
Definition fresh_strategy : EnhancedOrderFlowStrategy.t :=
  {| EnhancedOrderFlowStrategy.market_conditions :=
       MarketConditionAnalyzer.init;
     EnhancedOrderFlowStrategy.volume_profile := VolumeProfile.init;
     EnhancedOrderFlowStrategy.last_signal := None |}.

(** A cycle in which the moving averages give a bullish signal of
    strength 65. *)
Definition bullish_readings : EnhancedOrderFlowStrategy.Readings :=
  {| EnhancedOrderFlowStrategy.market :=
       EnhancedOrderFlowStrategy.market quiet_readings;
     EnhancedOrderFlowStrategy.moving_averages :=
       {| EnhancedOrderFlowStrategy.ma_signal := "bullish";
          EnhancedOrderFlowStrategy.ma_strength := 65;
          EnhancedOrderFlowStrategy.ma_description :=
            "All EMAs aligned bullish" |};
     EnhancedOrderFlowStrategy.delta_divergence :=
       EnhancedOrderFlowStrategy.delta_divergence quiet_readings;
     EnhancedOrderFlowStrategy.orderflow :=
       EnhancedOrderFlowStrategy.orderflow quiet_readings |}.

(** A collector with a balance of 1000 and the price at 50000. *)
Definition funded : EnhancedDataCollector :=
  {| trades := []; current_price := 50000; account_balance := 1000;
     open_positions := []; daily_pnl := 0; daily_trades := 0 |}.

(** A buy at 50000 with the stop at 49000 and the target at 52000. *)
Definition buy_signal : Signal.t :=
  {| Signal.timestamp := 2000;
     Signal.bias := "bullish";
     Signal.strength := 65;
     Signal.reasons := [];
     Signal.action := "buy";
     Signal.entry_price := 50000;
     Signal.stop_loss := 49000;
     Signal.take_profit := 52000 |}.

(** A long and a short position on the same symbol, in hedge mode. *)
Definition long_position : Position :=
  {| symbol := "BTCUSDT"; positionSide := "LONG"; entryPrice := 50000;
     positionAmt := 1 # 100; unRealizedProfit := 5 |}.

Definition short_position : Position :=
  {| symbol := "BTCUSDT"; positionSide := "SHORT"; entryPrice := 50000;
     positionAmt := - (1 # 100); unRealizedProfit := 5 |}.

(** A risk manager that tracks a stop of 49000 for the long position. *)
Definition tracking : RiskManager.t :=
  {| RiskManager.active_stops := {[ "BTCUSDT_LONG" := 49000 ]};
     RiskManager.daily_reset_time := 0 |}.

(** Three calls for the long position: in profit at 51000, at a loss at
    48000, in profit at 50500. *)
Definition long_calls : list RiskManager.TrailingCall :=
  [ {| RiskManager.call_position := long_position;
       RiskManager.call_price := 51000; RiskManager.call_pnl := 10 |};
    {| RiskManager.call_position := long_position;
       RiskManager.call_price := 48000; RiskManager.call_pnl := -20 |};
    {| RiskManager.call_position := long_position;
       RiskManager.call_price := 50500; RiskManager.call_pnl := 5 |} ].

End Examples.

(* ------------------------------------------------------------------ *)
(** ** technical_indicators.py *)

Module TechnicalIndicators.

(** The recurrence of both EMA functions:
    [ema = (price * multiplier) + (ema * (1 - multiplier))], in exact
    arithmetic.  The program rounds each of its operations, so the value it
    returns can differ from this one in the last places; the properties
    proved of the EMA functions are about how they end and how they relate,
    not about bounds on the value. *)
Definition ema_step (multiplier ema price : Q) : Q :=
  price * multiplier + ema * (1 - multiplier).

(** [calculate_ema]: 0.0 stands for "not enough prices". *)
Definition calculate_ema (prices : list Q) (period : Z) : Result Q :=
  if (Z.of_nat (length prices) <? period)%Z then Ok 0
  else
    multiplier ← pydiv 2 (inject_Z (period + 1));
    match prices with
    | [] => Raise IndexError
    | first :: rest => Ok (fold_left (ema_step multiplier) rest first)
    end.

(** The loop of [calculate_ema_series]: the values [emas[1:]], given
    [emas[0]]. *)
Fixpoint ema_scan (multiplier previous : Q) (prices : list Q) : list Q :=
  match prices with
  | [] => []
  | price :: rest =>
      let ema := ema_step multiplier previous price in
      ema :: ema_scan multiplier ema rest
  end.

(** [calculate_ema_series]: the first price is read before the multiplier
    is computed. *)
Definition calculate_ema_series (prices : list Q) (period : Z)
  : Result (list Q) :=
  if (Z.of_nat (length prices) <? period)%Z then Ok []
  else
    match prices with
    | [] => Raise IndexError
    | first :: rest =>
        multiplier ← pydiv 2 (inject_Z (period + 1));
        Ok (first :: ema_scan multiplier first rest)
    end.

Definition detect_ema_crossover (fast_ema slow_ema prev_fast prev_slow : Q)
  : string :=
  if Qle_bool prev_fast prev_slow && Qltb slow_ema fast_ema then "bullish"
  else if Qle_bool prev_slow prev_fast && Qltb fast_ema slow_ema
  then "bearish"
  else "none".

End TechnicalIndicators.

(* ------------------------------------------------------------------ *)
(** ** Python sequences *)

(** [l[-n:]]: the last [n] items for a positive [n], the whole list for
    [n = 0], the items from position [-n] on for a negative [n]. *)
Definition last_items {A : Type} (l : list A) (n : Z) : list A :=
  if (0 <? n)%Z then skipn (length l - Z.to_nat n) l
  else skipn (Z.to_nat (- n)) l.

(** [d.append(x)] on a [deque(maxlen=maxlen)]: the oldest item leaves when
    the deque is full. *)
Definition deque_append {A : Type} (maxlen : nat) (l : list A) (x : A)
  : list A :=
  skipn (length l + 1 - maxlen) (l ++ [x]).

(* ------------------------------------------------------------------ *)
(** ** config.py: further fields *)

(** Fields of the [BotConfig] dataclass read by the analyzers below. *)
Record AnalyzerConfig : Type := {
  TRADE_STREAM_BUFFER : Z;
  EMA_FAST : Z;
  EMA_MEDIUM : Z;
  EMA_SLOW : Z;
  EMA_TREND : Z;
  DELTA_DIVERGENCE_PERIODS : Z;
  DELTA_DIVERGENCE_THRESHOLD : Q
}.

(** Their defaults. *)
Definition default_analyzer_config : AnalyzerConfig := {|
  TRADE_STREAM_BUFFER := 2000;
  EMA_FAST := 9;
  EMA_MEDIUM := 21;
  EMA_SLOW := 50;
  EMA_TREND := 200;
  DELTA_DIVERGENCE_PERIODS := 14;
  DELTA_DIVERGENCE_THRESHOLD := 3 # 10
|}.

(* ------------------------------------------------------------------ *)
(** ** data_collector.py: the stream handlers and [get_closes] *)

Module DataCollector.

(** One side of the order book: a dict from price to quantity. *)
Definition Side : Type := list (Q * Q).

(** [d[k] = v]: a known key keeps its place, a new one goes to the end. *)
Fixpoint dict_set (d : Side) (k v : Q) : Side :=
  match d with
  | [] => [(k, v)]
  | (k', v') :: d' =>
      if Qeq_bool k' k then (k', v) :: d' else (k', v') :: dict_set d' k v
  end.

(** [d.pop(k, None)]. *)
Fixpoint dict_pop (d : Side) (k : Q) : Side :=
  match d with
  | [] => []
  | (k', v') :: d' =>
      if Qeq_bool k' k then d' else (k', v') :: dict_pop d' k
  end.

(** The body of the two loops of [stream_orderbook] for one level
    [(price, qty)] of a message. *)
Definition apply_level (d : Side) (level : Q * Q) : Side :=
  let '(price, qty) := level in
  if Qeq_bool qty 0 then dict_pop d price else dict_set d price qty.

Record OrderBook : Type := {
  bids : Side;
  asks : Side
}.

(** A depth message: the levels of [msg['b']] and [msg['a']], as floats. *)
Record DepthMessage : Type := {
  depth_b : list (Q * Q);
  depth_a : list (Q * Q)
}.

(** The order book after one depth message. *)
Definition on_depth_message (orderbook : OrderBook) (msg : DepthMessage)
  : OrderBook :=
  {| bids := fold_left apply_level (depth_b msg) (bids orderbook);
     asks := fold_left apply_level (depth_a msg) (asks orderbook) |}.

(** A side without stale levels: prices pairwise different and no level of
    quantity zero. *)
Definition clean (d : Side) : Prop :=
  VolumeProfile.distinct (map fst d) /\ forall kv, In kv d -> ~ snd kv == 0.

Section WithConfig.
Variable settings : AnalyzerConfig.

(** The collector after one trade message of [stream_trades]. *)
Definition on_trade (dc : EnhancedDataCollector) (trade : Trade)
  : EnhancedDataCollector :=
  {| trades :=
       deque_append (Z.to_nat (TRADE_STREAM_BUFFER settings)) (trades dc)
         trade;
     current_price := price trade;
     account_balance := account_balance dc;
     open_positions := open_positions dc;
     daily_pnl := daily_pnl dc;
     daily_trades := daily_trades dc |}.

End WithConfig.

(** A candle, as [stream_klines] builds it. *)
Record Candle : Type := {
  candle_timestamp : Z;
  open : Q;
  high : Q;
  low : Q;
  close : Q;
  volume : Q;
  is_closed : bool
}.

(** [self.klines]: a deque of at most 500 closed candles per interval. *)
Definition Klines : Type := gmap string (list Candle).

(** [klines] after one message of [stream_klines(interval)]. *)
Definition on_kline (klines : gmap string (list Candle)) (interval : string)
    (candle : Candle) : Result (gmap string (list Candle)) :=
  if is_closed candle then
    match klines !! interval with
    | Some history =>
        Ok (<[interval := deque_append 500 history candle]> klines)
    | None => Raise KeyError
    end
  else Ok klines.

(** [get_closes]. *)
Definition get_closes (klines : gmap string (list Candle))
    (interval : string) (periods : Z) : list Q :=
  match klines !! interval with
  | None => []
  | Some history =>
      if (Z.of_nat (length history) <? periods)%Z then []
      else map close (last_items history periods)
  end.

End DataCollector.

(* ------------------------------------------------------------------ *)
(** ** market_conditions.py: the spread *)

Module Spread.

(** [_calculate_spread], on the collector's order book: 1000 basis points
    stand for "no data". *)
Definition _calculate_spread (orderbook : DataCollector.OrderBook)
  : Result Q :=
  match map fst (DataCollector.bids orderbook),
        map fst (DataCollector.asks orderbook) with
  | bid :: bids, ask :: asks =>
      let best_bid := VolumeProfile.pymax bid bids in
      let best_ask := VolumeProfile.pymin ask asks in
      ratio ← pydiv (best_ask - best_bid) best_bid;
      Ok (ratio * 10000)
  | _, _ => Ok 1000
  end.

End Spread.

(* ------------------------------------------------------------------ *)
(** ** delta_divergence.py *)

Module DeltaDivergenceDetector.

(** An entry of [delta_history]. *)
Record DeltaPoint : Type := {
  point_timestamp : Z;
  point_delta : Q;
  point_price : Q
}.

(** The dict [detect_divergence] returns; its description is formatted
    from the two changes. *)
Record Report : Type := {
  report_type : string;
  report_strength : Z;
  report_changes : option (Q * Q)
}.

Definition no_divergence : Report :=
  {| report_type := "none"; report_strength := 0; report_changes := None |}.

Section WithConfig.
Variable settings : AnalyzerConfig.

Definition detect_divergence (delta_history : list DeltaPoint)
  : Result Report :=
  if (Z.of_nat (length delta_history) <? DELTA_DIVERGENCE_PERIODS settings)%Z
  then Ok no_divergence
  else
    let recent_data :=
      last_items delta_history (DELTA_DIVERGENCE_PERIODS settings) in
    match recent_data with
    | [] => Raise IndexError
    | first :: _ =>
        let newest := List.last recent_data first in
        price_change ←
          pydiv (point_price newest - point_price first) (point_price first);
        let delta_change :=
          (point_delta newest - point_delta first)
          / (Qabs (point_delta first) + 1) in
        let divergence_strength := Qabs (price_change - delta_change) in
        if Qltb price_change (- (1 # 100)) && Qltb (1 # 100) delta_change
           && Qltb (DELTA_DIVERGENCE_THRESHOLD settings) divergence_strength
        then
          Ok {| report_type := "bullish";
                report_strength :=
                  Z.min 100 (pyint (divergence_strength * 200));
                report_changes := Some (price_change, delta_change) |}
        else if Qltb (1 # 100) price_change
                && Qltb delta_change (- (1 # 100))
                && Qltb (DELTA_DIVERGENCE_THRESHOLD settings)
                     divergence_strength
        then
          Ok {| report_type := "bearish";
                report_strength :=
                  Z.min 100 (pyint (divergence_strength * 200));
                report_changes := Some (price_change, delta_change) |}
        else Ok no_divergence
    end.

End WithConfig.
End DeltaDivergenceDetector.
(* ------------------------------------------------------------------ *)
(** ** Further concrete data *)

Module Scenarios.

(** Five closing prices. *)
Definition closes5 : list Q := [100; 102; 101; 105; 104].

(** The default configuration with another sizing policy and another
    share of the balance risked per trade. *)
Definition configured (sizing_method : string) (risk_per_trade : Q)
  : BotConfig :=
  {| VP_LOOKBACK_HOURS := VP_LOOKBACK_HOURS default_config;
     VP_PRICE_BINS := VP_PRICE_BINS default_config;
     VP_VALUE_AREA_PERCENT := VP_VALUE_AREA_PERCENT default_config;
     POSITION_SIZING_METHOD := sizing_method;
     RISK_PER_TRADE_PERCENT := risk_per_trade;
     FIXED_POSITION_SIZE_USDT := FIXED_POSITION_SIZE_USDT default_config;
     KELLY_WIN_RATE := KELLY_WIN_RATE default_config;
     KELLY_RISK_REWARD := KELLY_RISK_REWARD default_config;
     KELLY_FRACTION := KELLY_FRACTION default_config;
     MAX_ACCOUNT_RISK_PERCENT := MAX_ACCOUNT_RISK_PERCENT default_config;
     MAX_DAILY_LOSS_PERCENT := MAX_DAILY_LOSS_PERCENT default_config;
     MAX_POSITIONS := MAX_POSITIONS default_config;
     STOP_LOSS_PERCENT := STOP_LOSS_PERCENT default_config;
     TAKE_PROFIT_PERCENT := TAKE_PROFIT_PERCENT default_config;
     TRAILING_STOP_ENABLED := TRAILING_STOP_ENABLED default_config;
     TRAILING_STOP_PERCENT := TRAILING_STOP_PERCENT default_config;
     MIN_VOLUME_24H_USDT := MIN_VOLUME_24H_USDT default_config;
     MAX_SPREAD_BIPS := MAX_SPREAD_BIPS default_config;
     MIN_SIGNAL_STRENGTH := MIN_SIGNAL_STRENGTH default_config;
     REQUIRE_TREND_CONFIRMATION := REQUIRE_TREND_CONFIRMATION default_config;
     ENABLE_TRADING := ENABLE_TRADING default_config;
     EMERGENCY_STOP := EMERGENCY_STOP default_config |}.

(** A collector with a balance of 1000, the price at 51000, one open long
    position and a loss of 10 on the day. *)
Definition losing : EnhancedDataCollector :=
  {| trades := []; current_price := 51000; account_balance := 1000;
     open_positions := [Examples.long_position]; daily_pnl := -10;
     daily_trades := 2 |}.

(** A collector with as many open positions as MAX_POSITIONS allows. *)
Definition crowded : EnhancedDataCollector :=
  {| trades := []; current_price := 50000; account_balance := 1000;
     open_positions :=
       [Examples.long_position; Examples.short_position;
        Examples.long_position];
     daily_pnl := 0; daily_trades := 3 |}.

(** A size that risks 10 USDT. *)
Definition small_size : PositionSizer.PositionSize :=
  {| PositionSizer.quantity_btc := 1 # 100;
     PositionSizer.notional_usdt := 500;
     PositionSizer.risk_usdt := 10;
     PositionSizer.method := "fixed_percent";
     PositionSizer.risk_percent := Some 1;
     PositionSizer.kelly_percent := None |}.

(** A cycle on a market whose spread is the 1000 basis points of an empty
    order book. *)
Definition wide_readings : EnhancedOrderFlowStrategy.Readings :=
  {| EnhancedOrderFlowStrategy.market :=
       {| MarketConditionAnalyzer.detected_regime := "trending_up";
          MarketConditionAnalyzer.measured_volatility := "normal";
          MarketConditionAnalyzer.calculated_spread := 1000;
          MarketConditionAnalyzer.fetched_volume_24h := 2000000000 |};
     EnhancedOrderFlowStrategy.moving_averages :=
       EnhancedOrderFlowStrategy.moving_averages Examples.bullish_readings;
     EnhancedOrderFlowStrategy.delta_divergence :=
       EnhancedOrderFlowStrategy.delta_divergence Examples.quiet_readings;
     EnhancedOrderFlowStrategy.orderflow :=
       EnhancedOrderFlowStrategy.orderflow Examples.quiet_readings |}.

(** A volume profile object holding five bins. *)
Definition five_bins : VolumeProfile.t :=
  {| VolumeProfile.profile :=
       [(100, 1); (101, 20); (102, 1); (103, 1); (104, 20)];
     VolumeProfile.poc := 101;
     VolumeProfile.value_area_high := 104;
     VolumeProfile.value_area_low := 101 |}.

(** A volume profile object holding the bins of trades of 5 at 100, 2 at
    101 and 10 at 102, with the POC at 102 and no value area yet. *)
Definition three_bin_profile : VolumeProfile.t :=
  {| VolumeProfile.profile := [(100, 5); (101, 2); (102, 10)];
     VolumeProfile.poc := 102;
     VolumeProfile.value_area_high := 0;
     VolumeProfile.value_area_low := 0 |}.

(** A collector whose price stands at 102. *)
Definition at_102 : EnhancedDataCollector :=
  {| trades := []; current_price := 102; account_balance := 1000;
     open_positions := []; daily_pnl := 0; daily_trades := 0 |}.

(** One side of an order book with two levels. *)
Definition two_levels : DataCollector.Side := [(100, 1); (101, 2)].

(** An order book and a depth message that removes the best bid and adds
    an ask. *)
Definition book : DataCollector.OrderBook :=
  {| DataCollector.bids := two_levels;
     DataCollector.asks := [(102, 3)] |}.

Definition depth_update : DataCollector.DepthMessage :=
  {| DataCollector.depth_b := [(101, 0)];
     DataCollector.depth_a := [(103, 4)] |}.

Definition empty_book : DataCollector.OrderBook :=
  {| DataCollector.bids := []; DataCollector.asks := [] |}.

(** The analyzer settings with a divergence window of two points. *)
Definition two_point_window : AnalyzerConfig :=
  {| TRADE_STREAM_BUFFER := TRADE_STREAM_BUFFER default_analyzer_config;
     EMA_FAST := EMA_FAST default_analyzer_config;
     EMA_MEDIUM := EMA_MEDIUM default_analyzer_config;
     EMA_SLOW := EMA_SLOW default_analyzer_config;
     EMA_TREND := EMA_TREND default_analyzer_config;
     DELTA_DIVERGENCE_PERIODS := 2;
     DELTA_DIVERGENCE_THRESHOLD :=
       DELTA_DIVERGENCE_THRESHOLD default_analyzer_config |}.

Definition delta_point (delta price : Q)
  : DeltaDivergenceDetector.DeltaPoint :=
  {| DeltaDivergenceDetector.point_timestamp := 1000;
     DeltaDivergenceDetector.point_delta := delta;
     DeltaDivergenceDetector.point_price := price |}.

(** The price falls from 100 to 90 while the delta rises from 0 to 5. *)
Definition falling_price_rising_delta
  : list DeltaDivergenceDetector.DeltaPoint :=
  [delta_point 0 100; delta_point 5 90].

(** A history whose oldest price is zero. *)
Definition zero_first_price : list DeltaDivergenceDetector.DeltaPoint :=
  [delta_point 0 0; delta_point 5 90].

End Scenarios.

(* ================================================================== *)
(** * Properties *)

(** ** Arithmetic and exceptions *)

Lemma Qltb_lt (x y : Q) : Qltb x y = true <-> x < y.
Proof.
  unfold Qltb. rewrite negb_true_iff, <- not_true_iff_false, Qle_bool_iff.
  split; [apply Qnot_le_lt | apply Qlt_not_le].
Qed.

Lemma Qltb_ge (x y : Q) : Qltb x y = false <-> y <= x.
Proof.
  unfold Qltb. rewrite negb_false_iff. apply Qle_bool_iff.
Qed.

Lemma Qle_bool_gt (x y : Q) : Qle_bool x y = false <-> y < x.
Proof.
  rewrite <- not_true_iff_false, Qle_bool_iff.
  split; [apply Qnot_le_lt | apply Qlt_not_le].
Qed.

Lemma pydiv_ok (x y : Q) : ~ y == 0 -> pydiv x y = Ok (x / y).
Proof.
  intros Hy. unfold pydiv.
  destruct (Qeq_bool y 0) eqn:E; [|reflexivity].
  apply Qeq_bool_iff in E. contradiction.
Qed.

Lemma pydiv_zero (x y : Q) : y == 0 -> pydiv x y = Raise ZeroDivisionError.
Proof.
  intros Hy. unfold pydiv. apply Qeq_bool_iff in Hy. now rewrite Hy.
Qed.

Lemma pydiv_cases (x y : Q) :
  (y == 0 /\ pydiv x y = Raise ZeroDivisionError)
  \/ (~ y == 0 /\ pydiv x y = Ok (x / y)).
Proof.
  destruct (Qeq_dec y 0) as [H|H]; [left|right]; split; trivial.
  - now apply pydiv_zero.
  - now apply pydiv_ok.
Qed.

Lemma bind_Ok {A B : Type} (a : A) (f : A -> Result B) :
  (Ok a ≫= f) = f a.
Proof. reflexivity. Qed.

Lemma bind_Raise {A B : Type} (e : PyError) (f : A -> Result B) :
  (Raise e ≫= f) = Raise e.
Proof. reflexivity. Qed.

Lemma Qabs_sub_zero (a b : Q) : Qabs (a - b) == 0 <-> a == b.
Proof.
  split; intros H.
  - revert H. apply Qabs_case; intros; lra.
  - apply Qabs_case; intros; lra.
Qed.

(** ** position_sizer.py *)

Section PositionSizerProperties.
Import PositionSizer.
Variable config : BotConfig.

Lemma balance_gate_open (dc : EnhancedDataCollector) :
  0 < account_balance dc -> Qle_bool (account_balance dc) 0 = false.
Proof. intros H. now apply Qle_bool_gt. Qed.

Lemma fixed_percent_sizing_ok (balance entry risk_per_btc : Q) :
  ~ risk_per_btc == 0 ->
  _fixed_percent_sizing config balance entry risk_per_btc =
    Ok {| quantity_btc :=
            balance * (RISK_PER_TRADE_PERCENT config / 100) / risk_per_btc;
          notional_usdt :=
            balance * (RISK_PER_TRADE_PERCENT config / 100) / risk_per_btc
            * entry;
          risk_usdt := balance * (RISK_PER_TRADE_PERCENT config / 100);
          method := "fixed_percent";
          risk_percent := Some (RISK_PER_TRADE_PERCENT config);
          kelly_percent := None |}.
Proof.
  intros H. unfold _fixed_percent_sizing. now rewrite pydiv_ok.
Qed.

Lemma calculate_fixed_percent (dc : EnhancedDataCollector)
    (entry stop : Q) (strength : Z) :
  0 < account_balance dc ->
  ~ entry == 0 ->
  selects_fixed_percent (POSITION_SIZING_METHOD config) ->
  calculate_position_size config dc entry stop strength =
    _fixed_percent_sizing config (account_balance dc) entry
      (Qabs (entry - stop)).
Proof.
  intros Hb He Hm. unfold calculate_position_size.
  rewrite balance_gate_open by assumption.
  rewrite pydiv_ok, bind_Ok by assumption.
  destruct Hm as [-> | [Hd Hk]]; [reflexivity|].
  apply String.eqb_neq in Hd, Hk. rewrite Hd, Hk.
  now destruct (POSITION_SIZING_METHOD config =? "fixed_percent")%string.
Qed.


(** C4.  With a positive balance and entry different from stop, the
    fixed-percent sizing returns a result whose quantity times the distance
    from entry to stop is the configured percent of the balance; it is the
    result of [calculate_position_size] whenever that call selects the
    fixed-percent policy and returns, which it does for a non-zero entry. *)
Theorem fixed_percent_risks_configured_percent
    (dc : EnhancedDataCollector) (entry stop : Q) (strength : Z) :
  0 < account_balance dc ->
  ~ entry == stop ->
  exists r,
    _fixed_percent_sizing config (account_balance dc) entry
      (Qabs (entry - stop)) = Ok r
    /\ method r = "fixed_percent"
    /\ quantity_btc r * Qabs (entry - stop)
       == account_balance dc * RISK_PER_TRADE_PERCENT config / 100
    /\ risk_usdt r
       == account_balance dc * RISK_PER_TRADE_PERCENT config / 100
    /\ (selects_fixed_percent (POSITION_SIZING_METHOD config) ->
        (~ entry == 0 ->
         calculate_position_size config dc entry stop strength = Ok r)
        /\ (forall r',
              calculate_position_size config dc entry stop strength = Ok r' ->
              r' = r)).
Proof.
  intros Hb Hes.
  assert (Hr : ~ Qabs (entry - stop) == 0) by now rewrite Qabs_sub_zero.
  eexists. split; [now apply fixed_percent_sizing_ok|].
  cbn [method quantity_btc risk_usdt].
  split; [reflexivity|]. split; [field; exact Hr|]. split; [field|].
  intros Hm. split.
  - intros He. rewrite calculate_fixed_percent by assumption.
    now apply fixed_percent_sizing_ok.
  - intros r' Hr'.
    destruct (Qeq_dec entry 0) as [He|He].
    + unfold calculate_position_size in Hr'.
      rewrite balance_gate_open, (pydiv_zero _ _ He) in Hr' by assumption.
      discriminate.
    + rewrite calculate_fixed_percent, fixed_percent_sizing_ok in Hr'
        by assumption.
      now injection Hr' as <-.
Qed.

(** C9.  With a zero or negative balance [calculate_position_size] returns
    the "no_balance" result, all amounts zero, whatever the prices are. *)
Theorem no_balance_returns_zero_size
    (dc : EnhancedDataCollector) (entry stop : Q) (strength : Z) :
  account_balance dc <= 0 ->
  calculate_position_size config dc entry stop strength =
    Ok {| quantity_btc := 0; notional_usdt := 0; risk_usdt := 0;
          method := "no_balance";
          risk_percent := None; kelly_percent := None |}.
Proof.
  intros Hb. unfold calculate_position_size.
  apply Qle_bool_iff in Hb. now rewrite Hb.
Qed.

Lemma kelly_sizing_zero_risk (balance entry risk_per_btc : Q) (strength : Z) :
  risk_per_btc == 0 ->
  _kelly_sizing config balance entry risk_per_btc strength =
    Raise ZeroDivisionError.
Proof.
  intros Hr. unfold _kelly_sizing.
  destruct (pydiv_cases
              (KELLY_WIN_RATE config * KELLY_RISK_REWARD config
               - (1 - KELLY_WIN_RATE config)) (KELLY_RISK_REWARD config))
    as [[_ ->] | [_ ->]]; [reflexivity|].
  now rewrite bind_Ok, (pydiv_zero _ _ Hr).
Qed.

(** C10.  With a positive balance the call raises at degenerate prices:
    entry equal to stop on every path that divides by the risk per unit
    (all but fixed_dollar), and entry zero on every path. *)
Theorem positive_balance_raises_at_degenerate_prices
    (dc : EnhancedDataCollector) (entry stop : Q) (strength : Z) :
  0 < account_balance dc ->
  (entry == stop ->
   POSITION_SIZING_METHOD config <> "fixed_dollar" ->
   calculate_position_size config dc entry stop strength =
     Raise ZeroDivisionError)
  /\ (entry == 0 ->
      calculate_position_size config dc entry stop strength =
        Raise ZeroDivisionError).
Proof.
  intros Hb. unfold calculate_position_size.
  rewrite balance_gate_open by assumption. split.
  - intros Hes Hm. apply Qabs_sub_zero in Hes.
    destruct (pydiv_cases (Qabs (entry - stop)) entry)
      as [[_ ->] | [_ ->]]; [reflexivity|].
    rewrite bind_Ok. apply String.eqb_neq in Hm. rewrite Hm.
    assert (Hfp : _fixed_percent_sizing config (account_balance dc) entry
                    (Qabs (entry - stop)) = Raise ZeroDivisionError).
    { unfold _fixed_percent_sizing. now rewrite (pydiv_zero _ _ Hes). }
    rewrite Hfp, kelly_sizing_zero_risk by assumption.
    now repeat destruct (_ =? _)%string.
  - intros He. now rewrite (pydiv_zero _ _ He).
Qed.

End PositionSizerProperties.

(** ** risk_manager.py *)

Section RiskManagerProperties.
Import RiskManager.
Variable config : BotConfig.

Lemma update_not_in_profit (self : t) (p : Position) (cp pnl : Q) :
  pnl <= 0 -> _update_trailing_stop config self p cp pnl = self.
Proof.
  intros H. unfold _update_trailing_stop.
  apply Qle_bool_iff in H. now rewrite H.
Qed.

Lemma update_other_id (self : t) (p : Position) (cp pnl : Q) (pid : string) :
  position_id p <> pid ->
  active_stops (_update_trailing_stop config self p cp pnl) !! pid
  = active_stops self !! pid.
Proof.
  intros Hne. unfold _update_trailing_stop.
  destruct (Qle_bool pnl 0); [reflexivity|].
  destruct (Qltb 0 (positionAmt p));
    destruct (active_stops self !! position_id p) as [s|];
    try destruct (Qltb _ _); cbn [active_stops];
    try reflexivity; now rewrite lookup_insert_ne.
Qed.

Lemma update_long (self : t) (p : Position) (cp pnl stop : Q) :
  0 < positionAmt p -> 0 < pnl ->
  active_stops self !! position_id p = Some stop ->
  (stop < long_stop config cp ->
   active_stops (_update_trailing_stop config self p cp pnl)
   = <[position_id p := long_stop config cp]> (active_stops self))
  /\ (long_stop config cp <= stop ->
      _update_trailing_stop config self p cp pnl = self).
Proof.
  intros Hlong Hpnl Hs. unfold _update_trailing_stop.
  apply Qle_bool_gt in Hpnl. apply Qltb_lt in Hlong.
  rewrite Hpnl, Hlong, Hs. fold (long_stop config cp). split; intros H.
  - apply Qltb_lt in H. now rewrite H.
  - apply Qltb_ge in H. now rewrite H.
Qed.

Lemma update_short (self : t) (p : Position) (cp pnl stop : Q) :
  positionAmt p < 0 -> 0 < pnl ->
  active_stops self !! position_id p = Some stop ->
  (short_stop config cp < stop ->
   active_stops (_update_trailing_stop config self p cp pnl)
   = <[position_id p := short_stop config cp]> (active_stops self))
  /\ (stop <= short_stop config cp ->
      _update_trailing_stop config self p cp pnl = self).
Proof.
  intros Hshort Hpnl Hs. unfold _update_trailing_stop.
  apply Qle_bool_gt in Hpnl.
  assert (Hl : Qltb 0 (positionAmt p) = false) by (apply Qltb_ge; lra).
  rewrite Hpnl, Hl, Hs. fold (short_stop config cp). split; intros H.
  - apply Qltb_lt in H. now rewrite H.
  - apply Qltb_ge in H. now rewrite H.
Qed.

(** One call on a tracked id: the stop stays tracked, and does not fall
    when the call is for a long position. *)
Lemma update_long_step (self : t) (p : Position) (cp pnl : Q)
    (pid : string) (stop : Q) :
  (position_id p = pid -> 0 < positionAmt p) ->
  active_stops self !! pid = Some stop ->
  exists stop',
    active_stops (_update_trailing_stop config self p cp pnl) !! pid
    = Some stop' /\ stop <= stop'.
Proof.
  intros Hlong Hs.
  destruct (String.string_dec (position_id p) pid) as [Heq|Hne].
  - subst pid. specialize (Hlong eq_refl).
    destruct (Qlt_le_dec 0 pnl) as [Hpnl|Hpnl].
    + destruct (update_long self p cp pnl stop Hlong Hpnl Hs) as [Hup Hkeep].
      destruct (Qlt_le_dec stop (long_stop config cp)) as [H|H].
      * exists (long_stop config cp). rewrite (Hup H), lookup_insert_eq.
        split; [reflexivity | lra].
      * exists stop. rewrite (Hkeep H). split; [assumption | lra].
    + exists stop. rewrite update_not_in_profit by assumption.
      split; [assumption | lra].
  - exists stop. rewrite update_other_id by assumption.
    split; [assumption | lra].
Qed.

Lemma update_short_step (self : t) (p : Position) (cp pnl : Q)
    (pid : string) (stop : Q) :
  (position_id p = pid -> positionAmt p < 0) ->
  active_stops self !! pid = Some stop ->
  exists stop',
    active_stops (_update_trailing_stop config self p cp pnl) !! pid
    = Some stop' /\ stop' <= stop.
Proof.
  intros Hshort Hs.
  destruct (String.string_dec (position_id p) pid) as [Heq|Hne].
  - subst pid. specialize (Hshort eq_refl).
    destruct (Qlt_le_dec 0 pnl) as [Hpnl|Hpnl].
    + destruct (update_short self p cp pnl stop Hshort Hpnl Hs)
        as [Hup Hkeep].
      destruct (Qlt_le_dec (short_stop config cp) stop) as [H|H].
      * exists (short_stop config cp). rewrite (Hup H), lookup_insert_eq.
        split; [reflexivity | lra].
      * exists stop. rewrite (Hkeep H). split; [assumption | lra].
    + exists stop. rewrite update_not_in_profit by assumption.
      split; [assumption | lra].
  - exists stop. rewrite update_other_id by assumption.
    split; [assumption | lra].
Qed.

(** C2.  Over any run of successive calls, the stop tracked for a position
    id does not fall while the calls for that id are for a long position,
    does not rise while they are for a short one, and the object is left as
    it was by calls whose unrealized PnL is not positive.  A call in profit
    on a tracked long replaces the stop exactly when the proposed stop is
    strictly higher (strictly lower for a short). *)
Theorem trailing_stop_is_monotone
    (calls : list TrailingCall) (self : t) (pid : string) (stop : Q) :
  active_stops self !! pid = Some stop ->
  (Forall (fun c => position_id (call_position c) = pid ->
                    0 < positionAmt (call_position c)) calls ->
   exists stop',
     active_stops (update_trailing_stops config self calls) !! pid
     = Some stop' /\ stop <= stop')
  /\ (Forall (fun c => position_id (call_position c) = pid ->
                       positionAmt (call_position c) < 0) calls ->
      exists stop',
        active_stops (update_trailing_stops config self calls) !! pid
        = Some stop' /\ stop' <= stop)
  /\ (Forall (fun c => call_pnl c <= 0) calls ->
      update_trailing_stops config self calls = self)
  /\ (forall p cp pnl,
        position_id p = pid -> 0 < pnl ->
        let self' := _update_trailing_stop config self p cp pnl in
        (0 < positionAmt p ->
         active_stops self' !! pid
         = Some (if Qltb stop (long_stop config cp) then long_stop config cp else stop))
        /\ (positionAmt p < 0 ->
            active_stops self' !! pid
            = Some (if Qltb (short_stop config cp) stop
                    then short_stop config cp else stop))).
Proof.
  intros Hs. repeat split.
  - revert self stop Hs.
    induction calls as [|c cs IH]; intros self stop Hs Hall; cbn.
    + exists stop. split; [assumption | lra].
    + inversion Hall as [|? ? Hc Hcs]; subst.
      destruct (update_long_step self (call_position c) (call_price c)
                  (call_pnl c) pid stop Hc Hs) as (s1 & Hs1 & Hle1).
      destruct (IH _ _ Hs1 Hcs) as (s2 & Hs2 & Hle2).
      exists s2. split; [exact Hs2 | lra].
  - revert self stop Hs.
    induction calls as [|c cs IH]; intros self stop Hs Hall; cbn.
    + exists stop. split; [assumption | lra].
    + inversion Hall as [|? ? Hc Hcs]; subst.
      destruct (update_short_step self (call_position c) (call_price c)
                  (call_pnl c) pid stop Hc Hs) as (s1 & Hs1 & Hle1).
      destruct (IH _ _ Hs1 Hcs) as (s2 & Hs2 & Hle2).
      exists s2. split; [exact Hs2 | lra].
  - intros Hall. induction Hall as [|c cs Hc _ IH]; cbn; [reflexivity|].
    now rewrite update_not_in_profit.
  - intros Hlong. subst pid.
    destruct (update_long self p cp pnl stop Hlong H0 Hs) as [Hup Hkeep].
    destruct (Qltb stop (long_stop config cp)) eqn:E.
    + apply Qltb_lt in E. now rewrite (Hup E), lookup_insert_eq.
    + apply Qltb_ge in E. now rewrite (Hkeep E).
  - intros Hshort. subst pid.
    destruct (update_short self p cp pnl stop Hshort H0 Hs) as [Hup Hkeep].
    destruct (Qltb (short_stop config cp) stop) eqn:E.
    + apply Qltb_lt in E. now rewrite (Hup E), lookup_insert_eq.
    + apply Qltb_ge in E. now rewrite (Hkeep E).
Qed.

End RiskManagerProperties.

(** ** order_executor.py *)

Section OrderExecutorProperties.
Import OrderExecutor.
Variable config : BotConfig.

(** [check_daily_limits] raises only when it has not reset the counters:
    the objects are then as they were. *)
Lemma check_daily_limits_raises_unchanged
    (dc : EnhancedDataCollector) (rm : RiskManager.t) (now : Z) (e : PyError) :
  RiskManager.check_daily_limits config dc rm now = Raise e ->
  (RiskManager.daily_reset_time rm + RiskManager.microseconds_per_day <? now)%Z
  = false.
Proof.
  unfold RiskManager.check_daily_limits.
  destruct (_ <? _)%Z; [|reflexivity].
  cbn. discriminate.
Qed.

(** C1.  [execute_signal] reaches [_place_market_order] exactly when the
    four gates pass in order, with the position size the sizer computed;
    a gate that fails ends the call there, with the objects as the gates
    before it left them. *)
Theorem execute_signal_places_order_only_through_gates
    (dc : EnhancedDataCollector) (rm : RiskManager.t) (now : Z)
    (signal : Signal.t) :
  (ENABLE_TRADING config = false ->
   execute_signal config dc rm now signal = (Ok TradingDisabled, dc, rm))
  /\ (ENABLE_TRADING config = true -> EMERGENCY_STOP config = true ->
      execute_signal config dc rm now signal
      = (Ok EmergencyStopActive, dc, rm))
  /\ (forall reason dc' rm',
        ENABLE_TRADING config = true -> EMERGENCY_STOP config = false ->
        RiskManager.check_daily_limits config dc rm now
        = Ok (false, reason, dc', rm') ->
        execute_signal config dc rm now signal
        = (Ok (DailyLimitsBreached reason), dc', rm'))
  /\ (forall reason dc' rm' position_size validation_msg,
        ENABLE_TRADING config = true -> EMERGENCY_STOP config = false ->
        RiskManager.check_daily_limits config dc rm now
        = Ok (true, reason, dc', rm') ->
        PositionSizer.calculate_position_size config dc'
          (Signal.entry_price signal) (Signal.stop_loss signal)
          (Signal.strength signal) = Ok position_size ->
        PositionSizer.check_risk_limits config dc' position_size
        = Ok (false, validation_msg) ->
        execute_signal config dc rm now signal
        = (Ok (PositionRejected validation_msg), dc', rm'))
  /\ (forall placed position_size dc' rm',
        execute_signal config dc rm now signal
        = (Ok (PlaceMarketOrder placed position_size), dc', rm')
        <->
        placed = signal
        /\ ENABLE_TRADING config = true
        /\ EMERGENCY_STOP config = false
        /\ (exists reason,
              RiskManager.check_daily_limits config dc rm now
              = Ok (true, reason, dc', rm'))
        /\ PositionSizer.calculate_position_size config dc'
             (Signal.entry_price signal) (Signal.stop_loss signal)
             (Signal.strength signal) = Ok position_size
        /\ (exists validation_msg,
              PositionSizer.check_risk_limits config dc' position_size
              = Ok (true, validation_msg))).
Proof.
  unfold execute_signal. repeat apply conj.
  - now intros ->.
  - now intros -> ->.
  - now intros reason dc' rm' -> -> ->.
  - intros reason dc' rm' ps msg -> -> -> Hps Hrisk. cbn [negb].
    now rewrite Hps, bind_Ok, Hrisk.
  - intros placed ps dc' rm'. split.
    + destruct (ENABLE_TRADING config); cbn [negb]; [|discriminate].
      destruct (EMERGENCY_STOP config); [discriminate|].
      destruct (RiskManager.check_daily_limits config dc rm now)
        as [[[[can_trade reason] dc1] rm1] | e |]; [|discriminate..].
      destruct can_trade; cbn [negb]; [|discriminate].
      destruct (PositionSizer.calculate_position_size config dc1 _ _ _)
        as [ps1 | e |] eqn:Hps; [|discriminate..].
      rewrite bind_Ok.
      destruct (PositionSizer.check_risk_limits config dc1 ps1)
        as [[is_valid msg] | e |] eqn:Hrisk; [|discriminate..].
      rewrite bind_Ok. destruct is_valid; cbn [negb]; [|discriminate].
      intros [= <- <- <- <-].
      repeat split; try reflexivity; try assumption; eexists; eassumption
        || reflexivity.
    + intros (-> & -> & -> & [reason ->] & Hps & [msg Hrisk]). cbn [negb].
      now rewrite Hps, bind_Ok, Hrisk.
Qed.

End OrderExecutorProperties.

(** ** volume_profile.py *)

Section VolumeProfileProperties.
Import VolumeProfile.

(** *** Sums *)

Lemma fold_left_Qplus_acc (l : list Q) (a : Q) :
  fold_left Qplus l a == a + pysum l.
Proof.
  unfold pysum. revert a.
  induction l as [|x l IH]; intros a; cbn [fold_left].
  - lra.
  - rewrite (IH (a + x)), (IH (0 + x)). lra.
Qed.

Lemma pysum_cons (x : Q) (l : list Q) : pysum (x :: l) == x + pysum l.
Proof.
  unfold pysum at 1. cbn [fold_left]. rewrite fold_left_Qplus_acc. lra.
Qed.

Lemma pysum_nil : pysum [] == 0.
Proof. reflexivity. Qed.

(** *** The dict *)

Lemma dict_add_sum (d : Profile) (k q : Q) :
  pysum (map snd (dict_add d k q)) == pysum (map snd d) + q.
Proof.
  induction d as [|[k' v] d IH]; cbn [dict_add map snd].
  - rewrite pysum_cons, pysum_nil. lra.
  - destruct (Qeq_bool k' k); cbn [map snd]; rewrite !pysum_cons.
    + lra.
    + rewrite IH. lra.
Qed.

Lemma dict_add_nonempty (d : Profile) (k q : Q) : dict_add d k q <> [].
Proof.
  destruct d as [|[k' v] d]; cbn; [discriminate|].
  destruct (Qeq_bool k' k); discriminate.
Qed.

Lemma bin_trades_sum (min_price bin_size : Q) (ts : list Trade)
    (acc prof : Profile) :
  bin_trades min_price bin_size ts acc = Ok prof ->
  pysum (map snd prof) == pysum (map snd acc) + pysum (map quantity ts).
Proof.
  revert acc. induction ts as [|t ts IH]; intros acc; cbn [bin_trades map].
  - intros [= ->]. rewrite pysum_nil. lra.
  - destruct (pydiv (price t - min_price) bin_size) as [ratio| |];
      [|discriminate..].
    rewrite bind_Ok. intros H. apply IH in H.
    rewrite H, dict_add_sum, pysum_cons. lra.
Qed.

Lemma bin_trades_nonempty (min_price bin_size : Q) (ts : list Trade)
    (acc prof : Profile) :
  acc <> [] -> bin_trades min_price bin_size ts acc = Ok prof -> prof <> [].
Proof.
  revert acc. induction ts as [|t ts IH]; intros acc Hacc; cbn [bin_trades].
  - now intros [= <-].
  - destruct (pydiv _ _); [|discriminate..]. rewrite bind_Ok.
    apply IH, dict_add_nonempty.
Qed.

Lemma bin_trades_ok (min_price bin_size : Q) (ts : list Trade)
    (acc : Profile) :
  ~ bin_size == 0 ->
  exists prof, bin_trades min_price bin_size ts acc = Ok prof
               /\ (ts <> [] \/ acc <> [] -> prof <> []).
Proof.
  intros Hb. revert acc.
  induction ts as [|t ts IH]; intros acc; cbn [bin_trades].
  - exists acc. split; [reflexivity|]. intros [H|H]; congruence.
  - rewrite pydiv_ok, bind_Ok by assumption.
    destruct (IH (dict_add acc
                    (min_price
                     + inject_Z (pyint ((price t - min_price) / bin_size))
                       * bin_size) (quantity t))) as (prof & Hp & Hne).
    exists prof. split; [exact Hp|]. intros _. apply Hne. right.
    apply dict_add_nonempty.
Qed.

Lemma dict_get_key (d : Profile) (k : Q) :
  In k (map fst d) -> exists v, dict_get d k = Some v.
Proof.
  induction d as [|[k' v] d IH]; cbn [map fst In dict_get]; [tauto|].
  intros [-> | H].
  - rewrite Qeq_bool_refl. eauto.
  - destruct (Qeq_bool k' k); eauto.
Qed.

Lemma argmax_from_In (d : Profile) (best : Q * Q) :
  In (argmax_from best d) (best :: d).
Proof.
  revert best. induction d as [|kv d IH]; intros best; cbn [argmax_from].
  - now left.
  - specialize (IH (if Qltb (snd best) (snd kv) then kv else best)).
    destruct (Qltb (snd best) (snd kv)); cbn [In] in *; tauto.
Qed.

Lemma dict_argmax_key (d : Profile) (k : Q) :
  dict_argmax d = Some k -> In k (map fst d).
Proof.
  destruct d as [|kv d]; cbn [dict_argmax]; [discriminate|].
  intros [= <-]. apply in_map, argmax_from_In.
Qed.

(** [max(d, key=d.get)] stops at the first pair of maximal value: the pairs
    before it are strictly smaller, the pairs after it are not greater. *)
Lemma argmax_from_first_maximum (d : Profile) (best : Q * Q) :
  exists before after,
    best :: d = before ++ argmax_from best d :: after
    /\ (forall kv, In kv before -> snd kv < snd (argmax_from best d))
    /\ (forall kv, In kv after -> snd kv <= snd (argmax_from best d)).
Proof.
  revert best. induction d as [|kv d IH]; intros best; cbn [argmax_from].
  - exists [], []. repeat split; intros ? [].
  - destruct (Qltb (snd best) (snd kv)) eqn:E.
    + apply Qltb_lt in E.
      destruct (IH kv) as (before & after & Heq & Hb & Ha).
      assert (Hkv : snd kv <= snd (argmax_from kv d)).
      { assert (Hin : In kv (before ++ argmax_from kv d :: after))
          by (rewrite <- Heq; now left).
        apply in_app_or in Hin as [H | [H | H]].
        - apply Qlt_le_weak. now apply Hb.
        - rewrite H. apply Qle_refl.
        - now apply Ha. }
      exists (best :: before), after.
      split; [cbn [app]; f_equal; exact Heq|]. split; [|exact Ha].
      intros x [Hx | Hx]; [subst x; lra | now apply Hb].
    + apply Qltb_ge in E.
      destruct (IH best) as (before & after & Heq & Hb & Ha).
      destruct before as [|b0 before]; cbn [app] in Heq.
      * injection Heq as Hbest Hd. exists [], (kv :: after).
        split; [cbn [app]; rewrite <- Hbest; do 2 f_equal; exact Hd|].
        split; [intros ? []|].
        intros x [Hx | Hx]; [subst x; rewrite <- Hbest; exact E|].
        now apply Ha.
      * injection Heq as Hb0 Hd. subst b0.
        exists (best :: kv :: before), after.
        split; [cbn [app]; do 2 f_equal; exact Hd|]. split; [|exact Ha].
        assert (Hbest : snd best < snd (argmax_from best d))
          by (apply Hb; now left).
        intros x [Hx | [Hx | Hx]]; [subst x; exact Hbest | subst x; lra |].
        apply Hb. now right.
Qed.

Lemma dict_add_keys (d : Profile) (k q : Q) :
  map fst (dict_add d k q)
  = if existsb (fun k' => Qeq_bool k' k) (map fst d)
    then map fst d else map fst d ++ [k].
Proof.
  induction d as [|[k' v] d IH]; cbn [dict_add map fst existsb app];
    [reflexivity|].
  destruct (Qeq_bool k' k); cbn [orb map fst]; [reflexivity|].
  rewrite IH. now destruct (existsb _ _).
Qed.

Lemma bin_trades_keys (min_price bin_size : Q) (ts : list Trade)
    (acc prof : Profile) :
  bin_trades min_price bin_size ts acc = Ok prof ->
  map fst prof
  = insertion_order (map fst acc) (map (bin_price min_price bin_size) ts).
Proof.
  revert acc.
  induction ts as [|t ts IH]; intros acc; cbn [bin_trades map insertion_order].
  - now intros [= ->].
  - unfold pydiv. destruct (Qeq_bool bin_size 0); [discriminate|].
    rewrite bind_Ok. intros H. apply IH in H.
    now rewrite H, dict_add_keys.
Qed.

(** *** Sorting and indexing *)

Lemma insert_sorted_In (x a : Q) (l : list Q) :
  In x (insert_sorted a l) <-> x = a \/ In x l.
Proof.
  induction l as [|y l IH]; cbn [insert_sorted In]; [intuition|].
  destruct (Qle_bool a y); cbn [In]; rewrite ?IH; intuition.
Qed.

Lemma sorted_In (x : Q) (l : list Q) : In x (sorted l) <-> In x l.
Proof.
  induction l as [|a l IH]; cbn [sorted fold_right In]; [tauto|].
  fold (sorted l). rewrite insert_sorted_In, IH. intuition.
Qed.

Lemma insert_sorted_length (a : Q) (l : list Q) :
  length (insert_sorted a l) = S (length l).
Proof.
  induction l as [|y l IH]; cbn [insert_sorted]; [reflexivity|].
  destruct (Qle_bool a y); cbn [length]; [reflexivity | now rewrite IH].
Qed.

Lemma sorted_length (l : list Q) : length (sorted l) = length l.
Proof.
  induction l as [|a l IH]; cbn [sorted fold_right]; [reflexivity|].
  fold (sorted l). now rewrite insert_sorted_length, IH.
Qed.

Lemma list_index_In (x : Q) (l : list Q) :
  In x l -> exists i, list_index x l = Ok i /\ (i < length l)%nat.
Proof.
  induction l as [|y l IH]; cbn [In list_index length]; [tauto|].
  intros H. destruct (Qeq_bool y x) eqn:E.
  - exists O. split; [reflexivity | lia].
  - destruct H as [-> | H]; [now rewrite Qeq_bool_refl in E|].
    destruct (IH H) as (i & -> & Hi). exists (S i).
    split; [reflexivity | lia].
Qed.

Lemma list_index_bound (x : Q) (l : list Q) (i : nat) :
  list_index x l = Ok i -> (i < length l)%nat.
Proof.
  revert i. induction l as [|y l IH]; intros i; cbn [list_index length];
    [discriminate|].
  destruct (Qeq_bool y x).
  - intros [= <-]. lia.
  - destruct (list_index x l) as [j| |]; [|discriminate..].
    rewrite bind_Ok. intros [= <-]. specialize (IH j eq_refl). lia.
Qed.

Lemma list_item_ok (l : list Q) (i : nat) :
  (i < length l)%nat -> exists x, list_item l i = Ok x /\ In x l.
Proof.
  intros Hi. unfold list_item.
  destruct (nth_error l i) as [x|] eqn:E.
  - exists x. split; [reflexivity|]. eapply nth_error_In, E.
  - apply nth_error_None in E. lia.
Qed.

(** *** The expansion loop *)

Section Expansion.
Variables (prof : Profile) (sorted_prices : list Q).
Hypothesis sorted_are_keys :
  forall p, In p sorted_prices -> In p (map fst prof).

Lemma neighbour_volume_ok (i : nat) :
  (i < length sorted_prices)%nat ->
  exists v, volume_at prof sorted_prices i = Ok v.
Proof.
  intros Hi. unfold volume_at.
  destruct (list_item_ok _ _ Hi) as (p & -> & Hp).
  rewrite bind_Ok. unfold dict_item.
  destruct (dict_get_key prof p (sorted_are_keys p Hp)) as [v ->]. eauto.
Qed.

(** A pass of the loop on a band inside the list of bins breaks, or moves
    one index outward by one and stays inside. *)
Lemma expand_once_ok (b : Band) :
  (low_index b <= high_index b < length sorted_prices)%nat ->
  expand_once prof sorted_prices b = Ok None
  \/ exists b',
       expand_once prof sorted_prices b = Ok (Some b')
       /\ (low_index b' <= low_index b)%nat
       /\ (high_index b <= high_index b')%nat
       /\ (low_index b' <= high_index b' < length sorted_prices)%nat
       /\ (S (low_index b' + (length sorted_prices - 1 - high_index b'))
           = low_index b + (length sorted_prices - 1 - high_index b))%nat.
Proof.
  intros Hb. unfold expand_once.
  assert (Hlow : exists v,
             (if (0 <? low_index b)%nat
              then volume_at prof sorted_prices (low_index b - 1)
              else Ok 0) = Ok v).
  { destruct (0 <? low_index b)%nat; [|eauto].
    apply neighbour_volume_ok. lia. }
  destruct Hlow as [low_vol ->]. rewrite bind_Ok.
  destruct (high_index b <? length sorted_prices - 1)%nat eqn:Hh.
  - apply Nat.ltb_lt in Hh.
    destruct (neighbour_volume_ok (high_index b + 1)) as [high_vol ->];
      [lia|].
    rewrite bind_Ok. right.
    destruct (Qltb high_vol low_vol && (0 <? low_index b)%nat) eqn:Hc.
    + apply andb_true_iff in Hc as [_ Hl%Nat.ltb_lt].
      eexists. split; [reflexivity|]. cbn [low_index high_index]. lia.
    + eexists. split; [reflexivity|]. cbn [low_index high_index]. lia.
  - rewrite bind_Ok.
    destruct (Qltb 0 low_vol && (0 <? low_index b)%nat) eqn:Hc.
    + apply andb_true_iff in Hc as [_ Hl%Nat.ltb_lt]. right.
      eexists. split; [reflexivity|]. cbn [low_index high_index]. lia.
    + now left.
Qed.

(** With more passes allowed than there are bins outside the band, the
    loop ends by itself; it only widens the band. *)
Lemma expand_enough_fuel (target_volume : Q) (fuel : nat) (b : Band) :
  (low_index b <= high_index b < length sorted_prices)%nat ->
  (low_index b + (length sorted_prices - 1 - high_index b) < fuel)%nat ->
  exists b',
    expand fuel prof sorted_prices target_volume b = Ok b'
    /\ (low_index b' <= low_index b)%nat
    /\ (high_index b <= high_index b')%nat
    /\ (low_index b' <= high_index b' < length sorted_prices)%nat.
Proof.
  revert b. induction fuel as [|fuel IH]; intros b Hb Hfuel; [lia|].
  cbn [expand]. destruct (Qltb (va_volume b) target_volume).
  - destruct (expand_once_ok b Hb) as [-> | (b1 & -> & Hl & Hh & Hb1 & Hm)];
      rewrite bind_Ok.
    + exists b. repeat split; lia.
    + destruct (IH b1 Hb1) as (b' & -> & Hl' & Hh' & Hb'); [lia|].
      exists b'. repeat split; lia.
  - exists b. repeat split; lia.
Qed.

(** C7, as the code has it.  A pass of the loop at a band with a bin on
    either side takes the lower bin when its volume is strictly greater,
    and the higher bin otherwise: when it is greater, and also on a tie. *)
Theorem expansion_takes_greater_ties_up (b : Band) (low_vol high_vol : Q) :
  (0 < low_index b)%nat ->
  (high_index b < length sorted_prices - 1)%nat ->
  volume_at prof sorted_prices (low_index b - 1) = Ok low_vol ->
  volume_at prof sorted_prices (high_index b + 1) = Ok high_vol ->
  (high_vol < low_vol ->
   expand_once prof sorted_prices b = Ok (Some (band_down b low_vol)))
  /\ (low_vol < high_vol ->
      expand_once prof sorted_prices b = Ok (Some (band_up b high_vol)))
  /\ (low_vol == high_vol ->
      expand_once prof sorted_prices b = Ok (Some (band_up b high_vol))).
Proof.
  intros Hl Hh Hlow Hhigh. unfold expand_once.
  apply Nat.ltb_lt in Hl, Hh. rewrite Hl, Hh, Hlow, Hhigh, !bind_Ok.
  rewrite andb_true_r.
  repeat split; intros H.
  - apply Qltb_lt in H. now rewrite H.
  - assert (E : Qltb high_vol low_vol = false) by (apply Qltb_ge; lra).
    now rewrite E.
  - assert (E : Qltb high_vol low_vol = false) by (apply Qltb_ge; lra).
    now rewrite E.
Qed.

End Expansion.

(** *** [_calculate_value_area] and [build_profile] return *)

Section WithConfig.
Variable config : BotConfig.

(** On an object whose POC is a bin of its profile the call returns: the
    loop ends within its bound and every lookup finds its key.  The band it
    leaves runs between two positions of the sorted bins that enclose the
    position of the POC. *)
Lemma calculate_value_area_ok (self : t) :
  In (poc self) (map fst (profile self)) ->
  exists self' poc_index low high,
    _calculate_value_area config self = Ok self'
    /\ profile self' = profile self
    /\ poc self' = poc self
    /\ list_index (poc self) (sorted (map fst (profile self))) = Ok poc_index
    /\ (low <= poc_index <= high)%nat
    /\ nth_error (sorted (map fst (profile self))) low
       = Some (value_area_low self')
    /\ nth_error (sorted (map fst (profile self))) high
       = Some (value_area_high self').
Proof.
  intros Hpoc. unfold _calculate_value_area.
  destruct (profile self) as [|kv d] eqn:Hprof; [destruct Hpoc|].
  set (sp := sorted (map fst (kv :: d))).
  assert (Hkeys : forall p, In p sp -> In p (map fst (kv :: d)))
    by (intros p; apply sorted_In).
  destruct (list_index_In (poc self) sp) as (i & Hi & Hlt);
    [now apply sorted_In|].
  rewrite Hi, bind_Ok. unfold dict_item at 1.
  destruct (dict_get_key _ _ Hpoc) as [v ->]. rewrite bind_Ok.
  destruct (expand_enough_fuel (kv :: d) sp Hkeys
              (pysum (map snd (kv :: d))
               * (VP_VALUE_AREA_PERCENT config / 100))
              (length sp)
              {| va_volume := v; low_index := i; high_index := i |})
    as (b & -> & Hl & Hh & Hb); cbn [low_index high_index] in *; [lia..|].
  rewrite bind_Ok. unfold list_item.
  destruct (nth_error sp (low_index b)) as [lo|] eqn:Elo;
    [|apply nth_error_None in Elo; lia].
  destruct (nth_error sp (high_index b)) as [hi|] eqn:Ehi;
    [|apply nth_error_None in Ehi; lia].
  rewrite !bind_Ok.
  eexists _, i, (low_index b), (high_index b).
  split; [reflexivity|]. cbn [profile poc value_area_low value_area_high].
  repeat split; (assumption || lia).
Qed.

(** *** Price range of a window *)

Lemma pymin_le (x : Q) (xs : list Q) (y : Q) :
  In y (x :: xs) -> pymin x xs <= y.
Proof.
  unfold pymin. revert x y.
  induction xs as [|a xs IH]; intros x y; cbn [fold_left In].
  - intros [<- | []]. lra.
  - assert (Hm : (if Qltb a x then a else x) <= x
                 /\ (if Qltb a x then a else x) <= a).
    { destruct (Qltb a x) eqn:E;
        [apply Qltb_lt in E | apply Qltb_ge in E]; split; lra. }
    destruct Hm as [Hx Ha]. intros [Hy | [Hy | Hy]].
    + subst y. eapply Qle_trans; [apply IH; now left | exact Hx].
    + subst y. eapply Qle_trans; [apply IH; now left | exact Ha].
    + apply IH. now right.
Qed.

Lemma pymax_ge (x : Q) (xs : list Q) (y : Q) :
  In y (x :: xs) -> y <= pymax x xs.
Proof.
  unfold pymax. revert x y.
  induction xs as [|a xs IH]; intros x y; cbn [fold_left In].
  - intros [<- | []]. lra.
  - assert (Hm : x <= (if Qltb x a then a else x)
                 /\ a <= (if Qltb x a then a else x)).
    { destruct (Qltb x a) eqn:E;
        [apply Qltb_lt in E | apply Qltb_ge in E]; split; lra. }
    destruct Hm as [Hx Ha]. intros [Hy | [Hy | Hy]].
    + subst y. eapply Qle_trans; [exact Hx | apply IH; now left].
    + subst y. eapply Qle_trans; [exact Ha | apply IH; now left].
    + apply IH. now right.
Qed.

Lemma inject_Z_nonzero (z : Z) : z <> 0%Z -> ~ inject_Z z == 0.
Proof. unfold Qeq. cbn. lia. Qed.

Lemma Qdiv_nonzero (x y : Q) : ~ x == 0 -> ~ y == 0 -> ~ x / y == 0.
Proof.
  intros Hx Hy H. apply Hx.
  assert (Hxy : x == x / y * y) by (field; exact Hy).
  rewrite Hxy, H. ring.
Qed.

(** The bin width of a window with two different prices is not zero. *)
Lemma bin_size_nonzero (first : Trade) (rest : list Trade) :
  VP_PRICE_BINS config <> 0%Z ->
  (exists t1 t2, In t1 (first :: rest) /\ In t2 (first :: rest)
                 /\ ~ price t1 == price t2) ->
  ~ (pymax (price first) (map price rest)
     - pymin (price first) (map price rest))
    / inject_Z (VP_PRICE_BINS config) == 0.
Proof.
  intros Hbins (t1 & t2 & H1 & H2 & Hne).
  apply Qdiv_nonzero; [|now apply inject_Z_nonzero].
  assert (Hin : forall t, In t (first :: rest) ->
                  pymin (price first) (map price rest) <= price t
                  <= pymax (price first) (map price rest)).
  { intros t Ht. apply (in_map price) in Ht. cbn [map] in Ht.
    split; [now apply pymin_le | now apply pymax_ge]. }
  pose proof (Hin t1 H1). pose proof (Hin t2 H2).
  intros Heq. apply Hne. lra.
Qed.

Lemma calculate_value_area_keeps (self self' : t) :
  _calculate_value_area config self = Ok self' ->
  profile self' = profile self /\ poc self' = poc self.
Proof.
  unfold _calculate_value_area.
  destruct (profile self) as [|kv d] eqn:Hp; [now intros [= <-]|].
  destruct (list_index _ _) as [i| |]; [|discriminate..]. rewrite bind_Ok.
  destruct (dict_item _ _) as [v| |]; [|discriminate..]. rewrite bind_Ok.
  destruct (expand _ _ _ _ _) as [b| |]; [|discriminate..]. rewrite bind_Ok.
  destruct (list_item _ (low_index b)) as [lo| |]; [|discriminate..].
  rewrite bind_Ok.
  destruct (list_item _ (high_index b)) as [hi| |]; [|discriminate..].
  rewrite bind_Ok. now intros [= <-].
Qed.

(** What a call of [build_profile] that returns a profile has done. *)
Lemma build_profile_inv (dc : EnhancedDataCollector) (now hours : Z)
    (self self' : t) (prof : Profile) (p vah val total : Q) :
  build_profile config dc now hours self
  = Ok (ProfileData prof p vah val total, self') ->
  exists first rest bin_size,
    recent_trades dc now hours = first :: rest
    /\ pydiv (pymax (price first) (map price rest)
              - pymin (price first) (map price rest))
         (inject_Z (VP_PRICE_BINS config)) = Ok bin_size
    /\ bin_trades (pymin (price first) (map price rest)) bin_size
         (first :: rest) [] = Ok prof
    /\ dict_argmax prof = Some p
    /\ profile self' = prof /\ poc self' = p
    /\ vah = value_area_high self' /\ val = value_area_low self'
    /\ total = pysum (map snd prof).
Proof.
  unfold build_profile.
  destruct (recent_trades dc now hours) as [|first rest]; [discriminate|].
  destruct (pydiv _ _) as [bin_size| |] eqn:Hsize; [|discriminate..].
  rewrite bind_Ok.
  destruct (bin_trades _ bin_size (first :: rest) []) as [vbp| |] eqn:Hbin;
    [|discriminate..].
  rewrite bind_Ok.
  destruct (_calculate_value_area config _) as [self1| |] eqn:Hva;
    [|discriminate..].
  rewrite bind_Ok. intros [= <- <- <- <- <- <-].
  apply calculate_value_area_keeps in Hva as [Hp Hpoc].
  cbn [profile poc] in Hp, Hpoc.
  exists first, rest, bin_size. rewrite Hp, Hpoc.
  repeat split; try reflexivity; try assumption.
  destruct vbp as [|kv d]; [|reflexivity].
  cbn [bin_trades] in Hbin.
  destruct (pydiv (price first - _) bin_size); [|discriminate..].
  rewrite bind_Ok in Hbin.
  match type of Hbin with
  | bin_trades ?m ?b ?ts ?acc = _ =>
      destruct (bin_trades_nonempty m b ts acc [])
  end; [apply dict_add_nonempty | exact Hbin | reflexivity].
Qed.

(** A window with two different prices, binned into a non-zero number of
    bins: [build_profile] returns its five-key dict. *)
Lemma build_profile_ok (dc : EnhancedDataCollector) (now hours : Z)
    (self : t) :
  VP_PRICE_BINS config <> 0%Z ->
  (exists t1 t2,
     In t1 (recent_trades dc now hours)
     /\ In t2 (recent_trades dc now hours)
     /\ ~ price t1 == price t2) ->
  exists prof p vah val total self',
    build_profile config dc now hours self
    = Ok (ProfileData prof p vah val total, self').
Proof.
  intros Hbins Hprices. unfold build_profile.
  destruct (recent_trades dc now hours) as [|first rest];
    [now destruct Hprices as (? & ? & [] & _)|].
  pose proof (bin_size_nonzero first rest Hbins Hprices) as Hsize.
  rewrite pydiv_ok, bind_Ok by now apply inject_Z_nonzero.
  destruct (bin_trades_ok (pymin (price first) (map price rest)) _
              (first :: rest) [] Hsize) as (vbp & Hbin & Hne).
  rewrite Hbin, bind_Ok.
  destruct vbp as [|kv d]; [exfalso; apply Hne; [now left | reflexivity]|].
  match goal with
  | |- context [_calculate_value_area config ?s] =>
      destruct (calculate_value_area_ok s) as (self' & ? & ? & ? & -> & _)
  end.
  { cbn [profile poc dict_argmax]. apply (in_map fst), argmax_from_In. }
  rewrite bind_Ok. eauto 10.
Qed.

(** C8.  On a window with two different prices (binned into a non-zero
    number of bins) [build_profile] returns, and the volumes of the bins of
    the returned profile add up to the quantities of the trades of the
    window; so does the total it reports. *)
Theorem binning_conserves_volume (dc : EnhancedDataCollector)
    (now hours : Z) (self : t) :
  VP_PRICE_BINS config <> 0%Z ->
  (exists t1 t2,
     In t1 (recent_trades dc now hours)
     /\ In t2 (recent_trades dc now hours)
     /\ ~ price t1 == price t2) ->
  exists prof p vah val total self',
    build_profile config dc now hours self
    = Ok (ProfileData prof p vah val total, self')
    /\ profile self' = prof
    /\ pysum (map snd prof)
       == pysum (map quantity (recent_trades dc now hours))
    /\ total == pysum (map quantity (recent_trades dc now hours)).
Proof.
  intros Hbins Hprices.
  destruct (build_profile_ok dc now hours self Hbins Hprices)
    as (prof & p & vah & val & total & self' & Hbuild).
  exists prof, p, vah, val, total, self'. split; [exact Hbuild|].
  destruct (build_profile_inv _ _ _ _ _ _ _ _ _ _ Hbuild)
    as (first & rest & bin_size & -> & _ & Hbin & _ & Hp & _ & _ & _ & ->).
  apply bin_trades_sum in Hbin. cbn [map] in Hbin.
  rewrite pysum_nil in Hbin. cbn [map]. rewrite Hbin.
  repeat split; [assumption | lra..].
Qed.

(** C6, as the code has it.  The POC of a profile [build_profile] returns
    is a bin of maximal volume; of the bins of that volume it is the first
    in the insertion order of the dict (every bin before it is strictly
    smaller), and that order is the order in which the trades of the window
    first reach each bin. *)
Theorem poc_is_first_inserted_maximum (dc : EnhancedDataCollector)
    (now hours : Z) (self self' : t) (prof : Profile) (p vah val total : Q) :
  build_profile config dc now hours self
  = Ok (ProfileData prof p vah val total, self') ->
  (exists before v after,
     prof = before ++ (p, v) :: after
     /\ (forall kv, In kv before -> snd kv < v)
     /\ (forall kv, In kv after -> snd kv <= v))
  /\ map fst prof
     = insertion_order [] (window_bin_prices config (recent_trades dc now hours)).
Proof.
  intros Hbuild.
  destruct (build_profile_inv _ _ _ _ _ _ _ _ _ _ Hbuild)
    as (first & rest & bin_size & -> & Hsize & Hbin & Hmax & _).
  split.
  - destruct prof as [|kv d]; [discriminate|].
    cbn [dict_argmax] in Hmax. injection Hmax as <-.
    destruct (argmax_from_first_maximum d kv)
      as (before & after & Heq & Hb & Ha).
    exists before, (snd (argmax_from kv d)), after.
    now rewrite <- surjective_pairing.
  - apply bin_trades_keys in Hbin. rewrite Hbin.
    unfold window_bin_prices. unfold pydiv in Hsize.
    destruct (Qeq_bool _ 0); [discriminate|]. now injection Hsize as <-.
Qed.

End WithConfig.

(** C6, as stated, fails: two trades of equal size, the higher price first.
    Both bins hold the maximum; the POC is the bin at 100, entered first,
    not the lower bin at 50. *)
Lemma poc_tie_is_not_lowest_price :
  exists prof p vah val total self',
    build_profile default_config
      (Examples.collector Examples.tie_window 0) 2000 24 init
    = Ok (ProfileData prof p vah val total, self')
    /\ p == 100
    /\ dict_get prof 50 = Some 1
    /\ dict_get prof 100 = Some 1
    /\ ~ poc_lowest_of_maxima prof p.
Proof.
  do 6 eexists. split; [vm_compute; reflexivity|].
  split; [reflexivity|]. split; [reflexivity|]. split; [reflexivity|].
  intros (v & Hin & _ & Hlow).
  destruct Hin as [[= <-] | [[=] | []]].
  assert (H : (10000 # 100) <= 50).
  { apply (Hlow (5000 # 100, 0 + 1)); [right; now left | reflexivity]. }
  revert H. apply Qlt_not_le. reflexivity.
Qed.

(** C7, as stated, fails: with the POC between two bins of volume 3 the
    pass takes the higher bin, not the lower one; the value area of that
    profile runs from 101 to 102. *)
Lemma tie_expands_upward :
  let prof := Examples.tied_neighbours in
  let sorted_prices := sorted (map fst prof) in
  let b := {| va_volume := 10; low_index := 1; high_index := 1 |} in
  expand_once prof sorted_prices b = Ok (Some (band_up b 3))
  /\ ~ takes_greater_ties_down prof sorted_prices b
  /\ _calculate_value_area default_config
       {| profile := prof; poc := 101;
          value_area_high := 0; value_area_low := 0 |}
     = Ok {| profile := prof; poc := 101;
             value_area_high := 102; value_area_low := 101 |}.
Proof.
  cbv zeta. split; [reflexivity|]. split; [|reflexivity].
  intros H.
  assert (Hl : (0 < 1)%nat) by lia.
  assert (Hh : (1 < length (sorted (map fst Examples.tied_neighbours)) - 1)%nat)
    by (vm_compute; lia).
  destruct (H 3 3 Hl Hh eq_refl eq_refl) as (_ & _ & Htie).
  specialize (Htie (Qeq_refl 3)). discriminate Htie.
Qed.

(** Why the target share needs positive volumes.  A window with a trade of
    quantity 0 (5 at 100, 0 at 101 and 10 at 102) gives a bin of volume 0
    next to the POC.  The POC is the top bin; the loop finds nothing above
    it and volume 0 below it and stops, so the value area is the POC bin
    alone, with 10 of the 15 traded: less than the 70 percent target of
    10.5.  The trade stream delivers no print of quantity 0. *)
Theorem value_area_stops_below_target_at_empty_bin :
  exists prof p vah val total self',
    build_profile default_config
      (Examples.collector (Examples.three_bins 5 0 10) 0) 2000 24 init
    = Ok (ProfileData prof p vah val total, self')
    /\ p == 102 /\ val == 102 /\ vah == 102 /\ total == 15
    /\ band_volume prof val vah == 10
    /\ band_volume prof val vah
       < total * (VP_VALUE_AREA_PERCENT default_config / 100).
Proof.
  do 6 eexists. split; [vm_compute; reflexivity|].
  repeat split.
Qed.

End VolumeProfileProperties.

(** ** enhanced_strategy.py *)

Section StrategyProperties.
Import EnhancedOrderFlowStrategy.
Variable config : BotConfig.

(** The final decision leaves bias and strength as the earlier steps set
    them. *)
Lemma final_decision_keeps (mc : MarketConditionAnalyzer.t) (cp : Q)
    (s : Signal.t) :
  Signal.bias (final_decision config mc cp s) = Signal.bias s
  /\ Signal.strength (final_decision config mc cp s) = Signal.strength s.
Proof.
  unfold final_decision.
  destruct (_ <=? _)%Z; [|now split].
  destruct (MarketConditionAnalyzer.should_trade_in_current_conditions _ _ _)
    as [[] reason]; [|now split].
  destruct (Signal.bias s =? "bullish")%string; [now split|].
  destruct (Signal.bias s =? "bearish")%string; [now split|].
  now destruct (Signal.action s =? "buy")%string.
Qed.

(** The three ways through the final decision, for a signal that enters it
    with action "wait". *)
Lemma final_decision_cases (mc : MarketConditionAnalyzer.t) (cp : Q)
    (s : Signal.t) :
  Signal.action s = "wait" ->
  let s' := final_decision config mc cp s in
  ((Signal.strength s < MIN_SIGNAL_STRENGTH config)%Z ->
   s' = s)
  /\ ((MIN_SIGNAL_STRENGTH config <= Signal.strength s)%Z ->
      forall reason,
        MarketConditionAnalyzer.should_trade_in_current_conditions config mc
          (Signal.bias s) = (false, reason) ->
        s' = add_reasons [Signal.ConditionsRejected reason] s)
  /\ ((MIN_SIGNAL_STRENGTH config <= Signal.strength s)%Z ->
      approves config mc (Signal.bias s) = true ->
      Signal.reasons s' = Signal.reasons s
      /\ Signal.entry_price s' = cp
      /\ (Signal.bias s = "bullish" -> Signal.action s' = "buy")
      /\ (Signal.bias s = "bearish" -> Signal.action s' = "sell")
      /\ (Signal.bias s <> "bullish" -> Signal.bias s <> "bearish" ->
          Signal.action s' = "wait")).
Proof.
  intros Hwait. cbv zeta. unfold final_decision, approves. repeat apply conj.
  - intros H. apply Z.leb_gt in H. now rewrite H.
  - intros H reason Hgate. apply Z.leb_le in H. now rewrite H, Hgate.
  - intros H Hgate. apply Z.leb_le in H. rewrite H.
    destruct (MarketConditionAnalyzer.should_trade_in_current_conditions _ _ _)
      as [should_trade reason]. cbn [fst] in Hgate. subst should_trade.
    destruct (Signal.bias s =? "bullish")%string eqn:Ebull.
    { apply String.eqb_eq in Ebull. cbn. rewrite Ebull.
      repeat split; congruence. }
    destruct (Signal.bias s =? "bearish")%string eqn:Ebear.
    { apply String.eqb_eq in Ebear. cbn. rewrite Ebear.
      repeat split; congruence. }
    apply String.eqb_neq in Ebull, Ebear. rewrite Hwait. cbn.
    repeat split; congruence.
Qed.

Lemma set_bias_if_neutral_action (b : string) (s : Signal.t) :
  Signal.action (set_bias_if_neutral b s) = Signal.action s.
Proof.
  unfold set_bias_if_neutral. now destruct (Signal.bias s =? "neutral")%string.
Qed.

Lemma step_level_action (levels : list Q) (cp : Q)
    (reason : Q -> Signal.Reason) (b : string) (s s' : Signal.t) :
  step_level levels cp reason b s = Ok s' ->
  Signal.action s' = Signal.action s.
Proof.
  unfold step_level. destruct levels as [|level levels]; [now intros [= <-]|].
  destruct (pydiv _ _) as [ratio| |]; [|discriminate..]. rewrite bind_Ok.
  destruct (Qltb ratio _); intros [= <-]; [|reflexivity].
  now rewrite set_bias_if_neutral_action.
Qed.

(** STEPS 2 to 5 leave the action as it is. *)
Lemma accumulate_action (dc : EnhancedDataCollector) (now : Z)
    (vp vp' : VolumeProfile.t) (r : Readings) (s pre : Signal.t) :
  accumulate config dc now vp r s = (Ok pre, vp') ->
  Signal.action pre = Signal.action s.
Proof.
  unfold accumulate.
  destruct (VolumeProfile.build_profile _ _ _ _ _) as [[vp_data vp1]| |];
    [|discriminate..].
  destruct (VolumeProfile.get_support_resistance dc vp1)
    as [support resistance].
  destruct (step_level support _ _ _ _) as [s1| |] eqn:H1; [|discriminate..].
  rewrite bind_Ok.
  destruct (step_level resistance _ _ _ _) as [s2| |] eqn:H2;
    [|discriminate..].
  rewrite bind_Ok. intros [= <- <-].
  apply step_level_action in H1, H2.
  assert (H0 : Signal.action (step_moving_averages (moving_averages r) s)
               = Signal.action s).
  { unfold step_moving_averages.
    destruct (negb _); [|reflexivity]. now rewrite set_bias_if_neutral_action. }
  assert (H3 : Signal.action (step_divergence (delta_divergence r) s2)
               = Signal.action s2).
  { unfold step_divergence.
    destruct (negb _); [|reflexivity]. now rewrite set_bias_if_neutral_action. }
  unfold step_orderflow. destruct (_ && _); cbn [Signal.action set_bias];
    cbn [add_reasons add_strength Signal.action]; congruence.
Qed.

(** C3, as the code has it.  In a cycle that returns a signal the action is
    buy or sell only if the accumulated strength reaches the minimum and the
    condition gate approves the bias; in every other case it is wait.  A
    rejection reason is the last reason when the market is not tradeable
    and when the strength reaches the minimum but the gate rejects; below
    the minimum the reasons are those the analyzers gave, nothing added. *)
Theorem final_action_needs_strength_and_approval
    (dc : EnhancedDataCollector) (now : Z) (r : Readings) (self self' : t)
    (s : Signal.t) :
  analyze_market config dc now r self = (Ok s, self') ->
  let conditions :=
    fst (MarketConditionAnalyzer.analyze_conditions config
           (market_conditions self) (market r)) in
  let mc := market_conditions self' in
  let passes :=
    (MIN_SIGNAL_STRENGTH config <= Signal.strength s)%Z
    /\ approves config mc (Signal.bias s) = true in
  (Signal.action s = "buy" \/ Signal.action s = "sell" -> passes)
  /\ (~ passes -> Signal.action s = "wait")
  /\ (MarketConditionAnalyzer.is_tradeable conditions = false ->
      Signal.reasons s
      = [Signal.MarketNotTradeable
           (MarketConditionAnalyzer.warnings conditions)])
  /\ (MarketConditionAnalyzer.is_tradeable conditions = true ->
      exists pre vp,
        accumulate config dc now (volume_profile self) r (initial_signal now)
        = (Ok pre, vp)
        /\ Signal.bias s = Signal.bias pre
        /\ Signal.strength s = Signal.strength pre
        /\ ((MIN_SIGNAL_STRENGTH config <= Signal.strength s)%Z ->
            forall reason,
              MarketConditionAnalyzer.should_trade_in_current_conditions
                config mc (Signal.bias s) = (false, reason) ->
              Signal.reasons s
              = (Signal.reasons pre ++ [Signal.ConditionsRejected reason])%list)
        /\ ((Signal.strength s < MIN_SIGNAL_STRENGTH config)%Z ->
            Signal.reasons s = Signal.reasons pre)).
Proof.
  unfold analyze_market.
  destruct (MarketConditionAnalyzer.analyze_conditions config
              (market_conditions self) (market r)) as [conditions mc1].
  cbn [fst].
  destruct (MarketConditionAnalyzer.is_tradeable conditions) eqn:Htr;
    cbn [negb].
  - destruct (accumulate config dc now (volume_profile self) r
                (initial_signal now)) as [[pre| |] vp] eqn:Hacc;
      [|discriminate..].
    intros [= <- <-]. cbn [market_conditions].
    pose proof (accumulate_action _ _ _ _ _ _ _ Hacc) as Hwait.
    cbn [initial_signal Signal.action] in Hwait.
    destruct (final_decision_keeps mc1 (current_price dc) pre)
      as [Hbias Hstr].
    destruct (final_decision_cases mc1 (current_price dc) pre Hwait)
      as (Hlow & Hrej & Happ).
    rewrite Hbias, Hstr.
    assert (Hnot : ~ ((MIN_SIGNAL_STRENGTH config <= Signal.strength pre)%Z
                      /\ approves config mc1 (Signal.bias pre) = true) ->
                   Signal.action
                     (final_decision config mc1 (current_price dc) pre)
                   = "wait").
    { intros Hn.
      destruct (Z_lt_le_dec (Signal.strength pre)
                  (MIN_SIGNAL_STRENGTH config)) as [Hlt|Hge].
      - now rewrite (Hlow Hlt).
      - destruct (MarketConditionAnalyzer.should_trade_in_current_conditions
                    config mc1 (Signal.bias pre)) as [[] reason] eqn:Hgate.
        + exfalso. apply Hn. split; [exact Hge|].
          unfold approves. now rewrite Hgate.
        + now rewrite (Hrej Hge reason eq_refl). }
    repeat apply conj.
    + intros Hact.
      destruct (Z_lt_le_dec (Signal.strength pre)
                  (MIN_SIGNAL_STRENGTH config)) as [Hlt|Hge].
      { rewrite (Hlow Hlt), Hwait in Hact. now destruct Hact. }
      split; [exact Hge|].
      destruct (approves config mc1 (Signal.bias pre)) eqn:Egate;
        [reflexivity|].
      rewrite Hnot in Hact by (intros [_ H]; discriminate H).
      now destruct Hact.
    + exact Hnot.
    + discriminate.
    + intros _. exists pre, vp. repeat apply conj; try reflexivity.
      * intros Hge reason Hgate. now rewrite (Hrej Hge reason Hgate).
      * intros Hlt. now rewrite (Hlow Hlt).
  - intros [= <- <-]. cbn. repeat apply conj.
    + now intros [H | H].
    + reflexivity.
    + reflexivity.
    + discriminate.
Qed.

End StrategyProperties.

(** C3, as stated, fails: on a liquid, trending market where no analyzer
    fires the strength is 0, below the minimum of 60; the cycle returns
    wait and an empty list of reasons, so no rejection reason was
    recorded. *)
Lemma weak_signal_waits_without_reason :
  exists s self',
    EnhancedOrderFlowStrategy.analyze_market default_config
      (Examples.collector [] 1000) 2000 Examples.quiet_readings
      Examples.fresh_strategy
    = (Ok s, self')
    /\ Signal.action s = "wait"
    /\ Signal.strength s = 0%Z
    /\ Signal.reasons s = []
    /\ ~ EnhancedOrderFlowStrategy.decides_as_specified default_config
          (EnhancedOrderFlowStrategy.market_conditions self') s.
Proof.
  do 2 eexists. split; [vm_compute; reflexivity|].
  repeat split.
  intros [_ H]. destruct H as (_ & earlier & r & Hr & _).
  - intros [Hmin _]. cbn in Hmin. lia.
  - cbn in Hr. now destruct earlier.
Qed.

(** ** The theorems at concrete inputs *)

Lemma fixed_percent_risks_configured_percent_at_1000 :
  exists r,
    PositionSizer._fixed_percent_sizing default_config 1000 50000
      (Qabs (50000 - 49000)) = Ok r
    /\ PositionSizer.method r = "fixed_percent"
    /\ PositionSizer.quantity_btc r * Qabs (50000 - 49000)
       == 1000 * RISK_PER_TRADE_PERCENT default_config / 100
    /\ PositionSizer.risk_usdt r
       == 1000 * RISK_PER_TRADE_PERCENT default_config / 100
    /\ (PositionSizer.selects_fixed_percent
          (POSITION_SIZING_METHOD default_config) ->
        (~ 50000 == 0 ->
         PositionSizer.calculate_position_size default_config Examples.funded
           50000 49000 65 = Ok r)
        /\ (forall r',
              PositionSizer.calculate_position_size default_config
                Examples.funded 50000 49000 65 = Ok r' ->
              r' = r)).
Proof.
  apply (fixed_percent_risks_configured_percent default_config
           Examples.funded 50000 49000 65).
  - reflexivity.
  - vm_compute. discriminate.
Defined.

Lemma no_balance_returns_zero_size_at_zero :
  PositionSizer.calculate_position_size default_config
    (Examples.collector [] 0) 50000 49000 65
  = Ok {| PositionSizer.quantity_btc := 0;
          PositionSizer.notional_usdt := 0;
          PositionSizer.risk_usdt := 0;
          PositionSizer.method := "no_balance";
          PositionSizer.risk_percent := None;
          PositionSizer.kelly_percent := None |}.
Proof.
  apply (no_balance_returns_zero_size default_config
           (Examples.collector [] 0) 50000 49000 65).
  vm_compute. discriminate.
Defined.

Lemma positive_balance_raises_at_equal_prices :
  PositionSizer.calculate_position_size default_config Examples.funded
    50000 50000 65 = Raise ZeroDivisionError.
Proof.
  refine (proj1 (positive_balance_raises_at_degenerate_prices default_config
                   Examples.funded 50000 50000 65 _) _ _).
  - reflexivity.
  - reflexivity.
  - vm_compute. discriminate.
Defined.

Lemma trailing_stop_is_monotone_on_long_calls :
  exists stop',
    RiskManager.active_stops
      (RiskManager.update_trailing_stops default_config Examples.tracking
         Examples.long_calls) !! "BTCUSDT_LONG" = Some stop'
    /\ 49000 <= stop'.
Proof.
  refine (proj1 (trailing_stop_is_monotone default_config
                   Examples.long_calls Examples.tracking "BTCUSDT_LONG"
                   49000 _) _).
  - reflexivity.
  - repeat constructor.
Defined.

Lemma execute_signal_places_buy_order :
  exists position_size,
    OrderExecutor.execute_signal default_config Examples.funded
      Examples.tracking 2000 Examples.buy_signal
    = (Ok (OrderExecutor.PlaceMarketOrder Examples.buy_signal position_size),
       Examples.funded, Examples.tracking).
Proof.
  eexists.
  apply (proj2 (proj2 (proj2 (proj2
           (execute_signal_places_order_only_through_gates default_config
              Examples.funded Examples.tracking 2000 Examples.buy_signal))))).
  split; [reflexivity|]. split; [reflexivity|]. split; [reflexivity|].
  split; [eexists; reflexivity|].
  split; [reflexivity|]. eexists; reflexivity.
Defined.

Lemma binning_conserves_volume_on_three_bins :
  exists prof p vah val total self',
    VolumeProfile.build_profile default_config
      (Examples.collector (Examples.three_bins 5 2 10) 0) 2000 24
      VolumeProfile.init
    = Ok (VolumeProfile.ProfileData prof p vah val total, self')
    /\ VolumeProfile.profile self' = prof
    /\ pysum (map snd prof)
       == pysum (map quantity
                   (VolumeProfile.recent_trades
                      (Examples.collector (Examples.three_bins 5 2 10) 0)
                      2000 24))
    /\ total
       == pysum (map quantity
                   (VolumeProfile.recent_trades
                      (Examples.collector (Examples.three_bins 5 2 10) 0)
                      2000 24)).
Proof.
  apply (binning_conserves_volume default_config
           (Examples.collector (Examples.three_bins 5 2 10) 0) 2000 24
           VolumeProfile.init).
  - vm_compute. discriminate.
  - exists (Examples.trade_at 100 5), (Examples.trade_at 101 2).
    split; [vm_compute; tauto|]. split; [vm_compute; tauto|].
    vm_compute. discriminate.
Defined.

Lemma poc_is_first_inserted_maximum_on_tie :
  (exists before v after,
     [(10000 # 100, 0 + 1); (5000 # 100, 0 + 1)]
     = before ++ (10000 # 100, v) :: after
     /\ (forall kv, In kv before -> snd kv < v)
     /\ (forall kv, In kv after -> snd kv <= v))
  /\ map fst [(10000 # 100, 0 + 1); (5000 # 100, 0 + 1)]
     = VolumeProfile.insertion_order []
         (VolumeProfile.window_bin_prices default_config
            (VolumeProfile.recent_trades
               (Examples.collector Examples.tie_window 0) 2000 24)).
Proof.
  eapply (poc_is_first_inserted_maximum default_config
            (Examples.collector Examples.tie_window 0) 2000 24
            VolumeProfile.init).
  vm_compute. reflexivity.
Defined.

Lemma expansion_takes_greater_ties_up_on_tie :
  let prof := Examples.tied_neighbours in
  let sorted_prices := VolumeProfile.sorted (map fst prof) in
  let b := {| VolumeProfile.va_volume := 10;
              VolumeProfile.low_index := 1;
              VolumeProfile.high_index := 1 |} in
  VolumeProfile.expand_once prof sorted_prices b
  = Ok (Some (VolumeProfile.band_up b 3)).
Proof.
  cbv zeta.
  refine (proj2 (proj2
            (expansion_takes_greater_ties_up Examples.tied_neighbours
               (VolumeProfile.sorted (map fst Examples.tied_neighbours))
               {| VolumeProfile.va_volume := 10;
                  VolumeProfile.low_index := 1;
                  VolumeProfile.high_index := 1 |} 3 3 _ _ _ _)) _).
  - vm_compute. lia.
  - vm_compute. lia.
  - reflexivity.
  - reflexivity.
  - reflexivity.
Defined.

Lemma final_action_on_bullish_cycle :
  exists s self',
    EnhancedOrderFlowStrategy.analyze_market default_config Examples.funded
      2000 Examples.bullish_readings Examples.fresh_strategy
    = (Ok s, self')
    /\ Signal.action s = "buy"
    /\ (MIN_SIGNAL_STRENGTH default_config <= Signal.strength s)%Z
    /\ EnhancedOrderFlowStrategy.approves default_config
         (EnhancedOrderFlowStrategy.market_conditions self') (Signal.bias s)
       = true.
Proof.
  do 2 eexists. split; [vm_compute; reflexivity|].
  split; [reflexivity|].
  refine (proj1 (final_action_needs_strength_and_approval default_config
                   Examples.funded 2000 Examples.bullish_readings
                   Examples.fresh_strategy _ _ _) _).
  - vm_compute. reflexivity.
  - left. reflexivity.
Defined.

(** ** technical_indicators.py *)

Section TechnicalIndicatorsProperties.
Import TechnicalIndicators.

(** How [calculate_ema] ends, for every series and every period.  With
    fewer prices than [period] it returns the 0.0 that stands for "not
    enough prices".  It raises ZeroDivisionError exactly when the period is
    -1, and IndexError exactly on an empty series with a period that is
    not positive and not -1; it raises nothing else.  So with a period that
    is not negative it returns on every non-empty series, and a single
    price is its own EMA. *)
Theorem calculate_ema_outcomes (prices : list Q) (period : Z) :
  ((Z.of_nat (length prices) < period)%Z ->
   calculate_ema prices period = Ok 0)
  /\ (calculate_ema prices period = Raise ZeroDivisionError
      <-> period = (-1)%Z)
  /\ (calculate_ema prices period = Raise IndexError
      <-> prices = [] /\ (period <= 0)%Z /\ period <> (-1)%Z)
  /\ (forall e, calculate_ema prices period = Raise e ->
        e = ZeroDivisionError \/ e = IndexError)
  /\ calculate_ema prices period <> OutOfFuel
  /\ ((0 <= period)%Z -> prices <> [] ->
      exists ema, calculate_ema prices period = Ok ema)
  /\ (forall price, prices = [price] -> (period <= 1)%Z ->
        period <> (-1)%Z -> calculate_ema prices period = Ok price).
Proof.
  unfold calculate_ema.
  destruct (Z.of_nat (length prices) <? period)%Z eqn:E;
    [apply Z.ltb_lt in E | apply Z.ltb_ge in E].
  - split; [reflexivity|].
    split; [split; [discriminate | lia]|].
    split; [split; [discriminate | intros (-> & H & _); cbn in E; lia]|].
    split; [discriminate|]. split; [discriminate|].
    split; [now exists 0|].
    intros price -> H _. cbn in E. lia.
  - split; [lia|].
    destruct (pydiv_cases 2 (inject_Z (period + 1))) as [[Hz ->] | [Hnz ->]].
    + assert (Hp : period = (-1)%Z).
      { unfold Qeq in Hz. cbn in Hz. lia. }
      split; [now split|].
      split; [split; [discriminate | now intros (_ & _ & H)]|].
      split; [intros e [= <-]; now left|]. split; [discriminate|].
      split; [lia|]. intros price _ _ H. contradiction.
    + assert (Hp : period <> (-1)%Z).
      { intros ->. apply Hnz. reflexivity. }
      rewrite bind_Ok. destruct prices as [|first rest].
      * cbn in E.
        split; [split; [discriminate | intros H; contradiction]|].
        split; [split; [now intros _ | reflexivity]|].
        split; [intros e [= <-]; now right|]. split; [discriminate|].
        split; [intros _ H; contradiction | discriminate].
      * split; [split; [discriminate | intros H; contradiction]|].
        split; [split; [discriminate | now intros (H & _)]|].
        split; [discriminate|]. split; [discriminate|].
        split; [intros _ _; eauto|].
        now intros price [= -> ->] _ _.
Qed.

Lemma ema_scan_length (m previous : Q) (prices : list Q) :
  length (ema_scan m previous prices) = length prices.
Proof.
  revert previous. induction prices as [|p rest IH]; intros previous;
    cbn [ema_scan length]; [reflexivity | now rewrite IH].
Qed.

Lemma ema_scan_last (m previous : Q) (prices : list Q) :
  List.last (previous :: ema_scan m previous prices) 0
  = fold_left (ema_step m) prices previous.
Proof.
  revert previous. induction prices as [|p rest IH]; intros previous;
    [reflexivity|].
  cbn [ema_scan fold_left]. rewrite <- IH. reflexivity.
Qed.

(** On a non-empty series the two EMA functions agree for every period:
    [calculate_ema] is the last element of [calculate_ema_series] (0.0 for
    the empty series of the "not enough prices" case), the series is as
    long as the input and starts at the first price, and one raises
    exactly when the other does. *)
Theorem ema_is_last_of_ema_series (prices : list Q) (period : Z) :
  prices <> [] ->
  calculate_ema prices period
  = (series ← calculate_ema_series prices period; Ok (List.last series 0))
  /\ (forall series,
        calculate_ema_series prices period = Ok series ->
        series = []
        \/ (length series = length prices
            /\ List.hd_error series = List.hd_error prices)).
Proof.
  intros Hne. unfold calculate_ema, calculate_ema_series.
  destruct prices as [|first rest]; [congruence|].
  destruct (_ <? _)%Z; [split; [reflexivity | intros ? [= <-]; now left]|].
  destruct (pydiv 2 (inject_Z (period + 1))) as [m| |];
    [|split; [reflexivity | discriminate]..].
  rewrite !bind_Ok. split.
  - now rewrite ema_scan_last.
  - intros series [= <-]. right. cbn [length hd_error].
    now rewrite ema_scan_length.
Qed.

(** Crossover detection is antisymmetric: the fast line crosses above the
    slow one exactly when, with the two lines exchanged, the answer is a
    cross below; and the same the other way round. *)
Theorem crossover_is_antisymmetric (fast slow prev_fast prev_slow : Q) :
  (detect_ema_crossover fast slow prev_fast prev_slow = "bullish"
   <-> detect_ema_crossover slow fast prev_slow prev_fast = "bearish")
  /\ (detect_ema_crossover fast slow prev_fast prev_slow = "bearish"
      <-> detect_ema_crossover slow fast prev_slow prev_fast = "bullish").
Proof.
  unfold detect_ema_crossover.
  destruct (Qle_bool prev_fast prev_slow) eqn:E1,
           (Qle_bool prev_slow prev_fast) eqn:E2,
           (Qltb slow fast) eqn:E3, (Qltb fast slow) eqn:E4;
    cbn [andb]; try (split; split; (discriminate || reflexivity)).
  all: apply Qltb_lt in E3; apply Qltb_lt in E4; lra.
Qed.

End TechnicalIndicatorsProperties.

(** ** position_sizer.py: the other policies and the limit check *)

Section PositionSizerLimits.
Import PositionSizer.
Variable config : BotConfig.

(** [check_risk_limits] accepts a size exactly when the three limits hold:
    the risk is within MAX_ACCOUNT_RISK_PERCENT of the balance, a negative
    daily PnL is (for a non-zero balance) below MAX_DAILY_LOSS_PERCENT of
    it, and fewer than MAX_POSITIONS positions are open. *)
Theorem risk_limits_accept_iff (dc : EnhancedDataCollector)
    (position_size : PositionSize) (verdict : RiskVerdict) :
  check_risk_limits config dc position_size = Ok (true, verdict)
  <->
  verdict = PositionSizeValid
  /\ risk_usdt position_size
     <= account_balance dc * (MAX_ACCOUNT_RISK_PERCENT config / 100)
  /\ (daily_pnl dc < 0 ->
      ~ account_balance dc == 0
      /\ Qabs (daily_pnl dc) / account_balance dc * 100
         < MAX_DAILY_LOSS_PERCENT config)
  /\ (Z.of_nat (length (open_positions dc)) < MAX_POSITIONS config)%Z.
Proof.
  unfold check_risk_limits.
  destruct (Qltb _ (risk_usdt position_size)) eqn:Erisk.
  { apply Qltb_lt in Erisk. split; [discriminate|].
    intros (_ & H & _). lra. }
  apply Qltb_ge in Erisk.
  assert (Hpos :
    (if (MAX_POSITIONS config <=? Z.of_nat (length (open_positions dc)))%Z
     then mret (false, MaximumPositionsReached (MAX_POSITIONS config))
     else mret (true, PositionSizeValid)) = Ok (true, verdict)
    <-> verdict = PositionSizeValid
        /\ (Z.of_nat (length (open_positions dc)) < MAX_POSITIONS config)%Z).
  { destruct (_ <=? _)%Z eqn:E.
    - apply Z.leb_le in E. split; [discriminate | lia].
    - apply Z.leb_gt in E. split.
      + now intros [= <-].
      + now intros [-> _]. }
  destruct (Qltb (daily_pnl dc) 0) eqn:Epnl.
  - apply Qltb_lt in Epnl.
    destruct (pydiv_cases (Qabs (daily_pnl dc)) (account_balance dc))
      as [[Hz ->] | [Hnz ->]].
    { split; [discriminate|]. intros (_ & _ & H & _).
      now destruct (H Epnl). }
    rewrite bind_Ok.
    destruct (Qle_bool (MAX_DAILY_LOSS_PERCENT config) _) eqn:Eloss.
    + apply Qle_bool_iff in Eloss. split; [discriminate|].
      intros (_ & _ & H & _). destruct (H Epnl) as [_ Hlt]. lra.
    + apply Qle_bool_gt in Eloss. rewrite Hpos. split.
      * intros [-> Hn]. repeat split; assumption.
      * intros (-> & _ & _ & Hn). now split.
  - apply Qltb_ge in Epnl. rewrite Hpos. split.
    + intros [-> Hn]. repeat split; try assumption; intros; lra.
    + intros (-> & _ & _ & Hn). now split.
Qed.

(** The fixed-dollar policy, for a positive balance and a non-zero entry:
    the notional is FIXED_POSITION_SIZE_USDT, the quantity is that notional
    at the entry price, and the risk is the quantity times the distance to
    the stop.  It returns also when entry and stop coincide. *)
Theorem fixed_dollar_trades_fixed_notional (dc : EnhancedDataCollector)
    (entry stop : Q) (strength : Z) :
  0 < account_balance dc ->
  ~ entry == 0 ->
  POSITION_SIZING_METHOD config = "fixed_dollar" ->
  exists r,
    calculate_position_size config dc entry stop strength = Ok r
    /\ method r = "fixed_dollar"
    /\ notional_usdt r = FIXED_POSITION_SIZE_USDT config
    /\ quantity_btc r * entry == FIXED_POSITION_SIZE_USDT config
    /\ risk_usdt r == quantity_btc r * Qabs (entry - stop).
Proof.
  intros Hb He Hm. unfold calculate_position_size.
  rewrite balance_gate_open, pydiv_ok, bind_Ok, Hm by assumption.
  cbn [String.eqb Ascii.eqb Bool.eqb andb].
  unfold _fixed_dollar_sizing. rewrite pydiv_ok, bind_Ok by assumption.
  eexists. split; [reflexivity|].
  cbn [method notional_usdt quantity_btc risk_usdt].
  repeat split; try reflexivity. field. exact He.
Qed.

(** The Kelly policy, where it returns: the amount at risk is the balance
    times the Kelly share, the quantity loses exactly that amount at the
    stop, the share is never negative for a non-negative KELLY_FRACTION and
    signal strength, and it is zero when the win rate gives no edge. *)
Theorem kelly_risks_kelly_share (dc : EnhancedDataCollector)
    (entry stop : Q) (strength : Z) :
  0 < account_balance dc ->
  ~ entry == 0 -> ~ entry == stop ->
  ~ KELLY_RISK_REWARD config == 0 ->
  POSITION_SIZING_METHOD config = "kelly" ->
  let edge :=
    (KELLY_WIN_RATE config * KELLY_RISK_REWARD config
     - (1 - KELLY_WIN_RATE config)) / KELLY_RISK_REWARD config in
  exists r,
    calculate_position_size config dc entry stop strength = Ok r
    /\ method r = "kelly"
    /\ risk_usdt r
       == account_balance dc
          * (pymax0 edge * KELLY_FRACTION config
             * (inject_Z strength / 100))
    /\ quantity_btc r * Qabs (entry - stop) == risk_usdt r
    /\ (edge <= 0 -> risk_usdt r == 0 /\ quantity_btc r == 0)
    /\ (0 <= KELLY_FRACTION config -> (0 <= strength)%Z ->
        0 <= risk_usdt r).
Proof.
  intros Hb He Hes Hrr Hm edge. unfold calculate_position_size.
  assert (Hr : ~ Qabs (entry - stop) == 0) by now rewrite Qabs_sub_zero.
  rewrite balance_gate_open, pydiv_ok, bind_Ok, Hm by assumption.
  cbn [String.eqb Ascii.eqb Bool.eqb andb].
  unfold _kelly_sizing. rewrite pydiv_ok, bind_Ok by assumption.
  fold edge. rewrite pydiv_ok, bind_Ok by assumption.
  eexists. split; [reflexivity|].
  cbn [method notional_usdt quantity_btc risk_usdt].
  split; [reflexivity|]. split; [reflexivity|].
  split; [field; exact Hr|].
  assert (Hmax : 0 <= pymax0 edge /\ (edge <= 0 -> pymax0 edge == 0)).
  { unfold pymax0. destruct (Qltb 0 edge) eqn:E.
    - apply Qltb_lt in E. split; lra.
    - split; [lra | reflexivity]. }
  destruct Hmax as [Hge Hzero]. split.
  - intros Hedge. rewrite (Hzero Hedge). split; [ring|].
    field. exact Hr.
  - intros Hf Hs.
    assert (Hsq : 0 <= inject_Z strength / 100).
    { assert (H0 : 0 <= inject_Z strength) by (unfold Qle; cbn; lia).
      apply Qle_shift_div_l; lra. }
    assert (H1 : 0 <= pymax0 edge * KELLY_FRACTION config)
      by now apply Qmult_le_0_compat.
    assert (H2 : 0 <= pymax0 edge * KELLY_FRACTION config
                      * (inject_Z strength / 100))
      by now apply Qmult_le_0_compat.
    apply Qmult_le_0_compat; [lra | exact H2].
Qed.

(** A fixed-percent size is stopped by the account-risk limit exactly when
    RISK_PER_TRADE_PERCENT exceeds MAX_ACCOUNT_RISK_PERCENT: with a
    positive balance the first test of [check_risk_limits] compares the two
    percentages. *)
Theorem fixed_percent_meets_account_risk_limit (dc : EnhancedDataCollector)
    (entry stop : Q) (r : PositionSize) :
  0 < account_balance dc ->
  _fixed_percent_sizing config (account_balance dc) entry
    (Qabs (entry - stop)) = Ok r ->
  check_risk_limits config dc r
  = Ok (false,
        RiskExceedsMax (risk_usdt r)
          (account_balance dc * (MAX_ACCOUNT_RISK_PERCENT config / 100)))
  <-> MAX_ACCOUNT_RISK_PERCENT config < RISK_PER_TRADE_PERCENT config.
Proof.
  intros Hb Hr. unfold _fixed_percent_sizing in Hr.
  destruct (pydiv _ _) as [q| |]; [|discriminate..].
  rewrite bind_Ok in Hr. injection Hr as <-.
  unfold check_risk_limits. cbn [risk_usdt].
  set (b := account_balance dc) in *.
  destruct (Qltb (b * (MAX_ACCOUNT_RISK_PERCENT config / 100))
              (b * (RISK_PER_TRADE_PERCENT config / 100))) eqn:E.
  - apply Qltb_lt in E. split; [intros _ | reflexivity].
    apply Qmult_lt_l in E; [|exact Hb]. unfold Qdiv in E.
    apply Qmult_lt_r in E; [exact E | reflexivity].
  - apply Qltb_ge in E. split.
    + destruct (Qltb (daily_pnl dc) 0).
      * destruct (pydiv _ _); [|discriminate..]. rewrite bind_Ok.
        destruct (Qle_bool _ _); [discriminate|].
        destruct (_ <=? _)%Z; discriminate.
      * destruct (_ <=? _)%Z; discriminate.
    + intros H. exfalso. apply Qmult_le_l in E; [|exact Hb].
      unfold Qdiv in E. apply Qmult_le_r in E; [lra | reflexivity].
Qed.

End PositionSizerLimits.

(** ** risk_manager.py: the daily limit and the monitoring loop *)

Section RiskManagerLimits.
Import RiskManager.
Variable config : BotConfig.

Lemma replace_hms_zero_same_day (now : Z) :
  (replace_hms_zero now <= now < replace_hms_zero now + microseconds_per_day)%Z.
Proof.
  unfold replace_hms_zero, microseconds_per_day.
  pose proof (Z.mod_pos_bound now 86400000000 eq_refl) as Hday.
  pose proof (Z.mod_pos_bound now 1000000 eq_refl) as Hmicro.
  assert (Hle : (now mod 1000000 <= now mod 86400000000)%Z).
  { replace (now mod 1000000)%Z
      with ((now mod 86400000000) mod 1000000)%Z.
    - apply Z.mod_le; lia.
    - apply Z.mod_mod_divide. exists 86400%Z. reflexivity. }
  lia.
Qed.

(** When a call finds the reset time more than a day old, it zeroes the
    daily counters, answers OK without looking at the loss, and moves the
    reset time into the current day; a further call does not reset again
    until a full day after that new reset time. *)
Theorem daily_limits_reset_once_per_day (dc : EnhancedDataCollector)
    (self : t) (now : Z) :
  (daily_reset_time self + microseconds_per_day < now)%Z ->
  exists dc' self',
    check_daily_limits config dc self now = Ok (true, DailyLimitsOK, dc', self')
    /\ daily_pnl dc' = 0 /\ daily_trades dc' = 0%Z
    /\ account_balance dc' = account_balance dc
    /\ active_stops self' = active_stops self
    /\ (daily_reset_time self' <= now
        < daily_reset_time self' + microseconds_per_day)%Z
    /\ (forall later,
          (later <= daily_reset_time self' + microseconds_per_day)%Z ->
          check_daily_limits config dc' self' later
          = Ok (true, DailyLimitsOK, dc', self')).
Proof.
  intros Hold. unfold check_daily_limits at 1.
  apply Z.ltb_lt in Hold. rewrite Hold. cbn [daily_pnl].
  do 2 eexists. split; [reflexivity|].
  cbn [daily_pnl daily_trades account_balance active_stops daily_reset_time].
  repeat split; try apply replace_hms_zero_same_day.
  intros later Hlater. unfold check_daily_limits.
  cbn [daily_reset_time daily_pnl].
  assert (E : (replace_hms_zero now + microseconds_per_day <? later)%Z = false)
    by (apply Z.ltb_ge; exact Hlater).
  rewrite E. reflexivity.
Qed.

(** Without a reset the call writes nothing; it blocks exactly when the
    daily PnL is negative and its size is at least MAX_DAILY_LOSS_PERCENT
    of the balance, and it raises exactly when the daily PnL is negative
    and the balance is zero. *)
Theorem daily_limits_block_iff (dc : EnhancedDataCollector) (self : t)
    (now : Z) :
  (now <= daily_reset_time self + microseconds_per_day)%Z ->
  let loss_percent := Qabs (daily_pnl dc) / account_balance dc * 100 in
  (daily_pnl dc < 0 /\ account_balance dc == 0 <->
   check_daily_limits config dc self now = Raise ZeroDivisionError)
  /\ (daily_pnl dc < 0 /\ ~ account_balance dc == 0
      /\ MAX_DAILY_LOSS_PERCENT config <= loss_percent <->
      check_daily_limits config dc self now
      = Ok (false, DailyLossLimitHit loss_percent, dc, self))
  /\ (0 <= daily_pnl dc
      \/ (~ account_balance dc == 0
          /\ loss_percent < MAX_DAILY_LOSS_PERCENT config) <->
      check_daily_limits config dc self now
      = Ok (true, DailyLimitsOK, dc, self)).
Proof.
  intros Hday. cbv zeta. unfold check_daily_limits.
  assert (E : (daily_reset_time self + microseconds_per_day <? now)%Z = false)
    by (apply Z.ltb_ge; exact Hday).
  rewrite E.
  destruct (Qltb (daily_pnl dc) 0) eqn:Epnl;
    [apply Qltb_lt in Epnl | apply Qltb_ge in Epnl].
  - destruct (pydiv_cases (Qabs (daily_pnl dc)) (account_balance dc))
      as [[Hz ->] | [Hnz ->]].
    + (split; [|split]);
        (split; [intros H | intros H; try discriminate H]);
        try reflexivity; try tauto; exfalso; intuition lra.
    + rewrite bind_Ok.
      destruct (Qle_bool (MAX_DAILY_LOSS_PERCENT config) _) eqn:Eloss;
        [apply Qle_bool_iff in Eloss | apply Qle_bool_gt in Eloss];
        (split; [|split]);
        (split; [intros H | intros H; try discriminate H]);
        try reflexivity; try tauto; exfalso; intuition lra.
  - (split; [|split]);
      (split; [intros H | intros H; try discriminate H]);
      try reflexivity; try tauto; exfalso; intuition lra.
Qed.

(** A call of [_update_trailing_stop] writes at most the stop of its own
    position id; on an id that is not tracked yet, a call in profit starts
    tracking at the proposed stop and a call not in profit leaves it
    untracked. *)
Theorem update_touches_only_its_id (self : t) (p : Position) (cp pnl : Q) :
  let self' := _update_trailing_stop config self p cp pnl in
  daily_reset_time self' = daily_reset_time self
  /\ (forall pid, pid <> position_id p ->
        active_stops self' !! pid = active_stops self !! pid)
  /\ (active_stops self !! position_id p = None ->
      (pnl <= 0 -> active_stops self' !! position_id p = None)
      /\ (0 < pnl -> 0 < positionAmt p ->
          active_stops self' !! position_id p = Some (long_stop config cp))
      /\ (0 < pnl -> positionAmt p <= 0 ->
          active_stops self' !! position_id p = Some (short_stop config cp))).
Proof.
  cbv zeta. split; [|split].
  - unfold _update_trailing_stop.
    destruct (Qle_bool pnl 0); [reflexivity|].
    destruct (Qltb 0 (positionAmt p));
      destruct (active_stops self !! position_id p);
      try destruct (Qltb _ _); reflexivity.
  - intros pid Hne. apply update_other_id. congruence.
  - intros Hnone. repeat split.
    + intros H. now rewrite update_not_in_profit.
    + intros Hpnl Hlong. unfold _update_trailing_stop.
      apply Qle_bool_gt in Hpnl. apply Qltb_lt in Hlong.
      rewrite Hpnl, Hlong, Hnone. cbn [active_stops].
      now rewrite lookup_insert_eq.
    + intros Hpnl Hshort. unfold _update_trailing_stop.
      apply Qle_bool_gt in Hpnl. apply Qltb_ge in Hshort.
      rewrite Hpnl, Hshort, Hnone. cbn [active_stops].
      now rewrite lookup_insert_eq.
Qed.

Lemma monitor_loop_run (dc : EnhancedDataCollector) (self : t)
    (positions : list Position) :
  TRAILING_STOP_ENABLED config = true ->
  Forall (fun p => ~ entryPrice p * Qabs (positionAmt p) == 0) positions ->
  monitor_loop config dc self positions
  = (Ok tt,
     update_trailing_stops config self
       (map (fun position =>
               {| call_position := position;
                  call_price := current_price dc;
                  call_pnl := unRealizedProfit position |}) positions)).
Proof.
  intros Hen Hall. revert self.
  induction Hall as [|p rest Hp _ IH]; intros self; [reflexivity|].
  cbn [monitor_loop map]. unfold monitor_position.
  rewrite Hen, pydiv_ok, bind_Ok by exact Hp.
  rewrite IH. reflexivity.
Qed.

(** One monitoring cycle over positions with a non-zero entry value is the
    run of [_update_trailing_stop] calls of [monitoring_calls] and nothing
    else; so a stop tracked for an id does not fall during the cycle when
    the positions of that id are long. *)
Theorem monitoring_is_a_run_of_updates (dc : EnhancedDataCollector)
    (self : t) :
  TRAILING_STOP_ENABLED config = true ->
  Forall (fun p => ~ entryPrice p * Qabs (positionAmt p) == 0)
    (open_positions dc) ->
  monitor_positions config dc self
  = (Ok tt, update_trailing_stops config self (monitoring_calls dc))
  /\ (forall pid stop,
        active_stops self !! pid = Some stop ->
        Forall (fun p => position_id p = pid -> 0 < positionAmt p)
          (open_positions dc) ->
        exists stop',
          active_stops (snd (monitor_positions config dc self)) !! pid
          = Some stop' /\ stop <= stop').
Proof.
  intros Hen Hall.
  assert (Hrun : monitor_positions config dc self
                 = (Ok tt,
                    update_trailing_stops config self (monitoring_calls dc)))
    by now apply monitor_loop_run.
  split; [exact Hrun|].
  intros pid stop Hs Hlong. rewrite Hrun. cbn [snd].
  unfold monitoring_calls. clear Hrun Hall. revert self stop Hs.
  induction Hlong as [|p rest Hp _ IH]; intros self stop Hs.
  - exists stop. split; [exact Hs | lra].
  - cbn [map update_trailing_stops fold_left call_position call_price
         call_pnl].
    destruct (update_long_step config self p (current_price dc)
                (unRealizedProfit p) pid stop Hp Hs) as (s1 & Hs1 & Hle1).
    destruct (IH _ _ Hs1) as (s2 & Hs2 & Hle2).
    exists s2. split; [exact Hs2 | lra].
Qed.

(** With trailing stops switched off the monitoring cycle never writes the
    tracked stops, whether it ends normally or raises. *)
Theorem monitoring_without_trailing_keeps_stops (dc : EnhancedDataCollector)
    (self : t) :
  TRAILING_STOP_ENABLED config = false ->
  snd (monitor_positions config dc self) = self.
Proof.
  intros Hoff. unfold monitor_positions.
  induction (open_positions dc) as [|p rest IH]; [reflexivity|].
  cbn [monitor_loop]. unfold monitor_position. rewrite Hoff.
  destruct (pydiv _ _); cbn; [exact IH | reflexivity..].
Qed.

End RiskManagerLimits.

(** ** order_executor.py: what the gates let through *)

Section OrderExecutorGates.
Import OrderExecutor.
Variable config : BotConfig.

(** What [check_daily_limits] leaves when it answers OK: a daily PnL that
    the daily-loss test of [check_risk_limits] accepts as well. *)
Lemma daily_ok_state (dc dc' : EnhancedDataCollector)
    (rm rm' : RiskManager.t) (now : Z) (reason : RiskManager.DailyVerdict) :
  RiskManager.check_daily_limits config dc rm now
  = Ok (true, reason, dc', rm') ->
  account_balance dc' = account_balance dc
  /\ open_positions dc' = open_positions dc
  /\ (Qltb (daily_pnl dc') 0 = false
      \/ (Qltb (daily_pnl dc') 0 = true
          /\ pydiv (Qabs (daily_pnl dc')) (account_balance dc')
             = Ok (Qabs (daily_pnl dc') / account_balance dc')
          /\ Qle_bool (MAX_DAILY_LOSS_PERCENT config)
               (Qabs (daily_pnl dc') / account_balance dc' * 100) = false)).
Proof.
  unfold RiskManager.check_daily_limits.
  destruct (_ <? _)%Z.
  - cbn. intros [= <- <- <-]. cbn. repeat split. now left.
  - destruct (Qltb (daily_pnl dc) 0) eqn:Epnl.
    + destruct (pydiv_cases (Qabs (daily_pnl dc)) (account_balance dc))
        as [[_ ->] | [_ Hdiv]]; [discriminate|].
      rewrite Hdiv, bind_Ok.
      destruct (Qle_bool _ _) eqn:Eloss; [discriminate|].
      intros [= <- <- <-]. repeat split. right. now rewrite Epnl.
    + intros [= <- <- <-]. repeat split. now left.
Qed.

(** [execute_signal] never ends with the daily-loss rejection of
    [check_risk_limits]: a signal rejected for the daily loss is always
    stopped by [check_daily_limits] before the size is computed. *)
Theorem executor_never_reports_sizer_daily_loss
    (dc dc' : EnhancedDataCollector) (rm rm' : RiskManager.t) (now : Z)
    (signal : Signal.t) (verdict : PositionSizer.RiskVerdict) :
  execute_signal config dc rm now signal
  = (Ok (PositionRejected verdict), dc', rm') ->
  forall loss, verdict <> PositionSizer.DailyLossLimitReached loss.
Proof.
  unfold execute_signal.
  destruct (ENABLE_TRADING config); cbn [negb]; [|discriminate].
  destruct (EMERGENCY_STOP config); [discriminate|].
  destruct (RiskManager.check_daily_limits config dc rm now)
    as [[[[can_trade reason] dc1] rm1] | e |] eqn:Hdaily; [|discriminate..].
  destruct can_trade; cbn [negb]; [|discriminate].
  apply daily_ok_state in Hdaily as (_ & _ & Hpnl).
  destruct (PositionSizer.calculate_position_size config dc1 _ _ _)
    as [ps | e |]; [|discriminate..].
  rewrite bind_Ok. unfold PositionSizer.check_risk_limits.
  destruct (Qltb _ (PositionSizer.risk_usdt ps)).
  { cbn. intros [= <- <- <-] loss. discriminate. }
  destruct Hpnl as [-> | (-> & -> & Eloss)].
  - destruct (_ <=? _)%Z; cbn; intros [= <- <- <-] loss; discriminate.
  - rewrite bind_Ok, Eloss.
    destruct (_ <=? _)%Z; cbn; intros [= <- <- <-] loss; discriminate.
Qed.

(** A balance of exactly zero does not stop a signal: with trading enabled,
    a daily PnL that is not negative and a free position slot, the
    "no_balance" size passes [check_risk_limits] (its risk of 0 does not
    exceed the limit of 0) and [_place_market_order] is called with
    quantity 0. *)
Theorem zero_balance_order_is_handed_off (dc : EnhancedDataCollector)
    (rm : RiskManager.t) (now : Z) (signal : Signal.t) :
  ENABLE_TRADING config = true -> EMERGENCY_STOP config = false ->
  account_balance dc == 0 ->
  0 <= daily_pnl dc ->
  (Z.of_nat (length (open_positions dc)) < MAX_POSITIONS config)%Z ->
  exists dc' rm' position_size,
    execute_signal config dc rm now signal
    = (Ok (PlaceMarketOrder signal position_size), dc', rm')
    /\ PositionSizer.quantity_btc position_size = 0
    /\ PositionSizer.method position_size = "no_balance".
Proof.
  intros Hen Hem Hbal Hpnl Hpos. unfold execute_signal.
  rewrite Hen, Hem. cbn [negb].
  assert (Hdaily : exists dc' rm',
             RiskManager.check_daily_limits config dc rm now
             = Ok (true, RiskManager.DailyLimitsOK, dc', rm')
             /\ account_balance dc' = account_balance dc
             /\ open_positions dc' = open_positions dc
             /\ Qltb (daily_pnl dc') 0 = false).
  { unfold RiskManager.check_daily_limits.
    destruct (_ <? _)%Z.
    - cbn. do 2 eexists. split; [reflexivity|]. cbn. now repeat split.
    - assert (E : Qltb (daily_pnl dc) 0 = false) by now apply Qltb_ge.
      rewrite E. do 2 eexists. split; [reflexivity|]. now repeat split. }
  destruct Hdaily as (dc' & rm' & -> & Hb' & Hp' & Epnl). cbn [negb].
  exists dc', rm'.
  assert (Hgate : Qle_bool (account_balance dc') 0 = true)
    by (apply Qle_bool_iff; rewrite Hb'; lra).
  unfold PositionSizer.calculate_position_size. rewrite Hgate.
  cbn [mret result_ret]. rewrite bind_Ok.
  unfold PositionSizer.check_risk_limits. cbn [PositionSizer.risk_usdt].
  assert (Hrisk : Qltb (account_balance dc'
                        * (MAX_ACCOUNT_RISK_PERCENT config / 100)) 0 = false).
  { apply Qltb_ge. rewrite Hb', Hbal. lra. }
  rewrite Hrisk, Epnl, Hp'.
  assert (E : (MAX_POSITIONS config
               <=? Z.of_nat (length (open_positions dc)))%Z = false)
    by (apply Z.leb_gt; exact Hpos).
  rewrite E. cbn. eexists. split; [reflexivity|]. now split.
Qed.

(** A negative balance does stop it, when MAX_ACCOUNT_RISK_PERCENT is
    positive: the risk limit is then negative and the "no_balance" risk of
    0 exceeds it. *)
Theorem negative_balance_order_is_rejected (dc : EnhancedDataCollector)
    (rm : RiskManager.t) (now : Z) (signal : Signal.t) :
  ENABLE_TRADING config = true -> EMERGENCY_STOP config = false ->
  account_balance dc < 0 ->
  0 <= daily_pnl dc ->
  0 < MAX_ACCOUNT_RISK_PERCENT config ->
  exists dc' rm' max_risk,
    execute_signal config dc rm now signal
    = (Ok (PositionRejected (PositionSizer.RiskExceedsMax 0 max_risk)),
       dc', rm')
    /\ max_risk < 0.
Proof.
  intros Hen Hem Hbal Hpnl Hmax. unfold execute_signal.
  rewrite Hen, Hem. cbn [negb].
  assert (Hdaily : exists dc' rm',
             RiskManager.check_daily_limits config dc rm now
             = Ok (true, RiskManager.DailyLimitsOK, dc', rm')
             /\ account_balance dc' = account_balance dc).
  { unfold RiskManager.check_daily_limits.
    destruct (_ <? _)%Z.
    - cbn. do 2 eexists. split; reflexivity.
    - assert (E : Qltb (daily_pnl dc) 0 = false) by now apply Qltb_ge.
      rewrite E. do 2 eexists. split; reflexivity. }
  destruct Hdaily as (dc' & rm' & -> & Hb'). cbn [negb].
  exists dc', rm'.
  assert (Hgate : Qle_bool (account_balance dc') 0 = true)
    by (apply Qle_bool_iff; rewrite Hb'; lra).
  unfold PositionSizer.calculate_position_size. rewrite Hgate.
  cbn [mret result_ret]. rewrite bind_Ok.
  unfold PositionSizer.check_risk_limits. cbn [PositionSizer.risk_usdt].
  assert (Hneg : account_balance dc'
                 * (MAX_ACCOUNT_RISK_PERCENT config / 100) < 0).
  { rewrite Hb'.
    assert (H100 : 0 < MAX_ACCOUNT_RISK_PERCENT config / 100)
      by (apply Qlt_shift_div_l; lra).
    nra. }
  assert (Hrisk : Qltb (account_balance dc'
                        * (MAX_ACCOUNT_RISK_PERCENT config / 100)) 0 = true)
    by now apply Qltb_lt.
  rewrite Hrisk. cbn. eexists. split; [reflexivity | exact Hneg].
Qed.

End OrderExecutorGates.

(** ** enhanced_strategy.py: what a returned signal carries *)

Section StrategySignals.
Import EnhancedOrderFlowStrategy.
Variable config : BotConfig.

(** The prices STEP 6 writes next to a buy and next to a sell. *)
Lemma final_decision_prices (mc : MarketConditionAnalyzer.t) (cp : Q)
    (s : Signal.t) :
  Signal.action s = "wait" ->
  let s' := final_decision config mc cp s in
  (Signal.action s' = "buy" ->
   Signal.entry_price s' = cp
   /\ Signal.stop_loss s' = cp * (1 - STOP_LOSS_PERCENT config / 100)
   /\ Signal.take_profit s' = cp * (1 + TAKE_PROFIT_PERCENT config / 100))
  /\ (Signal.action s' = "sell" ->
      Signal.entry_price s' = cp
      /\ Signal.stop_loss s' = cp * (1 + STOP_LOSS_PERCENT config / 100)
      /\ Signal.take_profit s' = cp * (1 - TAKE_PROFIT_PERCENT config / 100)).
Proof.
  intros Hwait. cbv zeta. unfold final_decision.
  destruct (_ <=? _)%Z;
    [|rewrite Hwait; split; intros H; discriminate H].
  destruct (MarketConditionAnalyzer.should_trade_in_current_conditions _ _ _)
    as [[] reason];
    [|cbn; rewrite Hwait; split; intros H; discriminate H].
  destruct (Signal.bias s =? "bullish")%string.
  { cbn. split; intros H; [now repeat split | discriminate H]. }
  destruct (Signal.bias s =? "bearish")%string.
  { cbn. split; intros H; [discriminate H | now repeat split]. }
  rewrite Hwait. cbn. rewrite Hwait. split; intros H; discriminate H.
Qed.

(** A returned buy has its stop below and its target above the entry, a
    returned sell the other way round, whenever the price is positive and
    the two percentages are positive (the stop percentage below 100 keeps
    the stop of a buy positive). *)
Theorem returned_signal_orders_stop_entry_target
    (dc : EnhancedDataCollector) (now : Z) (r : Readings) (self self' : t)
    (s : Signal.t) :
  analyze_market config dc now r self = (Ok s, self') ->
  0 < current_price dc ->
  0 < STOP_LOSS_PERCENT config -> 0 < TAKE_PROFIT_PERCENT config ->
  (Signal.action s = "buy" ->
   Signal.entry_price s = current_price dc
   /\ Signal.stop_loss s < Signal.entry_price s < Signal.take_profit s
   /\ (STOP_LOSS_PERCENT config < 100 -> 0 < Signal.stop_loss s))
  /\ (Signal.action s = "sell" ->
      Signal.entry_price s = current_price dc
      /\ Signal.take_profit s < Signal.entry_price s < Signal.stop_loss s).
Proof.
  intros Hrun Hcp Hsl Htp. unfold analyze_market in Hrun.
  destruct (MarketConditionAnalyzer.analyze_conditions config
              (market_conditions self) (market r)) as [conditions mc1].
  destruct (MarketConditionAnalyzer.is_tradeable conditions);
    cbn [negb] in Hrun.
  2:{ injection Hrun as <- <-. cbn. split; intros H; discriminate H. }
  destruct (accumulate config dc now (volume_profile self) r
              (initial_signal now)) as [[pre| |] vp] eqn:Hacc;
    [|discriminate..].
  injection Hrun as <- <-.
  pose proof (accumulate_action _ _ _ _ _ _ _ _ Hacc) as Hwait.
  cbn [initial_signal Signal.action] in Hwait.
  destruct (final_decision_prices mc1 (current_price dc) pre Hwait)
    as [Hbuy Hsell].
  assert (Hs : 0 < STOP_LOSS_PERCENT config / 100)
    by (apply Qlt_shift_div_l; lra).
  assert (Ht : 0 < TAKE_PROFIT_PERCENT config / 100)
    by (apply Qlt_shift_div_l; lra).
  set (cp := current_price dc) in *.
  set (sl := STOP_LOSS_PERCENT config / 100) in *.
  set (tp := TAKE_PROFIT_PERCENT config / 100) in *.
  split; intros Hact.
  - destruct (Hbuy Hact) as (-> & -> & ->).
    split; [reflexivity|]. split; [split; nra|].
    intros H100.
    assert (Hsl1 : sl < 1).
    { unfold sl. apply Qlt_shift_div_r; lra. }
    nra.
  - destruct (Hsell Hact) as (-> & -> & ->).
    split; [reflexivity|]. split; nra.
Qed.

(** A buy or sell that [analyze_market] returns at a positive price, with a
    positive stop percentage, can always be sized under the fixed-percent
    policy with a positive balance: entry and stop differ and the entry is
    not zero.  The notional is then the balance times
    RISK_PER_TRADE_PERCENT over STOP_LOSS_PERCENT, whatever the price. *)
Theorem returned_signal_is_sizeable
    (dc : EnhancedDataCollector) (now : Z) (r : Readings) (self self' : t)
    (s : Signal.t) :
  analyze_market config dc now r self = (Ok s, self') ->
  Signal.action s = "buy" \/ Signal.action s = "sell" ->
  0 < current_price dc -> 0 < STOP_LOSS_PERCENT config ->
  0 < account_balance dc ->
  PositionSizer.selects_fixed_percent (POSITION_SIZING_METHOD config) ->
  exists size,
    PositionSizer.calculate_position_size config dc (Signal.entry_price s)
      (Signal.stop_loss s) (Signal.strength s) = Ok size
    /\ PositionSizer.notional_usdt size
       == account_balance dc * RISK_PER_TRADE_PERCENT config
          / STOP_LOSS_PERCENT config.
Proof.
  intros Hrun Hact Hcp Hsl Hbal Hm. unfold analyze_market in Hrun.
  destruct (MarketConditionAnalyzer.analyze_conditions config
              (market_conditions self) (market r)) as [conditions mc1].
  destruct (MarketConditionAnalyzer.is_tradeable conditions);
    cbn [negb] in Hrun.
  2:{ injection Hrun as <- <-. cbn in Hact. destruct Hact; discriminate. }
  destruct (accumulate config dc now (volume_profile self) r
              (initial_signal now)) as [[pre| |] vp] eqn:Hacc;
    [|discriminate..].
  injection Hrun as <- <-.
  pose proof (accumulate_action _ _ _ _ _ _ _ _ Hacc) as Hwait.
  cbn [initial_signal Signal.action] in Hwait.
  destruct (final_decision_prices mc1 (current_price dc) pre Hwait)
    as [Hbuy Hsell].
  destruct (final_decision_keeps config mc1 (current_price dc) pre)
    as [_ Hstr].
  assert (Hs : 0 < STOP_LOSS_PERCENT config / 100)
    by (apply Qlt_shift_div_l; lra).
  assert (Hne0 : ~ current_price dc == 0) by lra.
  assert (Hsl0 : ~ STOP_LOSS_PERCENT config == 0) by lra.
  set (cp := current_price dc) in *.
  assert (Hdist : forall stop,
             stop = cp * (1 - STOP_LOSS_PERCENT config / 100)
             \/ stop = cp * (1 + STOP_LOSS_PERCENT config / 100) ->
             Qabs (cp - stop) == cp * (STOP_LOSS_PERCENT config / 100)).
  { intros stop [-> | ->].
    - rewrite Qabs_pos; [ring | nra].
    - rewrite Qabs_neg; [ring | nra]. }
  assert (Hstop : Signal.entry_price
                    (final_decision config mc1 cp pre) = cp
                  /\ (Signal.stop_loss (final_decision config mc1 cp pre)
                      = cp * (1 - STOP_LOSS_PERCENT config / 100)
                      \/ Signal.stop_loss (final_decision config mc1 cp pre)
                         = cp * (1 + STOP_LOSS_PERCENT config / 100))).
  { destruct Hact as [Hact | Hact].
    - destruct (Hbuy Hact) as (He & Hst & _). split; [exact He | now left].
    - destruct (Hsell Hact) as (He & Hst & _). split; [exact He | now right]. }
  destruct Hstop as [-> Hstop]. apply Hdist in Hstop.
  assert (Hr : ~ Qabs (cp - Signal.stop_loss
                              (final_decision config mc1 cp pre)) == 0).
  { rewrite Hstop. intros H. apply Hne0.
    apply Qmult_integral in H as [H | H]; [exact H | lra]. }
  rewrite (calculate_fixed_percent config dc cp _ _ Hbal Hne0 Hm).
  rewrite (fixed_percent_sizing_ok config _ _ _ Hr).
  eexists. split; [reflexivity|]. cbn [PositionSizer.notional_usdt].
  rewrite Hstop. field. split; assumption.
Qed.

(** When the market is not tradeable the cycle ends in STEP 1: the signal
    is the initial one with the warnings as its only reason, the condition
    analyzer has the new regime and volatility, and neither the volume
    profile nor the last signal is written; this path never raises. *)
Theorem untradeable_market_short_circuits
    (dc : EnhancedDataCollector) (now : Z) (r : Readings) (self : t) :
  let readings := market r in
  MAX_SPREAD_BIPS config < MarketConditionAnalyzer.calculated_spread readings
  \/ MarketConditionAnalyzer.fetched_volume_24h readings
     < MIN_VOLUME_24H_USDT config ->
  exists s warnings,
    analyze_market config dc now r self
    = (Ok s,
       {| market_conditions :=
            {| MarketConditionAnalyzer.current_regime :=
                 MarketConditionAnalyzer.detected_regime readings;
               MarketConditionAnalyzer.volatility_state :=
                 MarketConditionAnalyzer.measured_volatility readings;
               MarketConditionAnalyzer.liquidity_state :=
                 MarketConditionAnalyzer.liquidity_state
                   (market_conditions self) |};
          volume_profile := volume_profile self;
          last_signal := last_signal self |})
    /\ s = add_reasons [Signal.MarketNotTradeable warnings]
             (initial_signal now)
    /\ warnings <> [].
Proof.
  cbv zeta. intros Hbad. unfold analyze_market.
  unfold MarketConditionAnalyzer.analyze_conditions.
  cbn [MarketConditionAnalyzer.is_tradeable MarketConditionAnalyzer.warnings].
  assert (E : negb (Qltb (MAX_SPREAD_BIPS config)
                      (MarketConditionAnalyzer.calculated_spread (market r)))
              && negb (Qltb (MarketConditionAnalyzer.fetched_volume_24h
                               (market r))
                         (MIN_VOLUME_24H_USDT config)) = false).
  { destruct Hbad as [H | H]; apply Qltb_lt in H; rewrite H;
      [reflexivity | apply andb_false_r]. }
  rewrite E. cbn [negb]. do 2 eexists. split; [reflexivity|].
  split; [reflexivity|].
  destruct Hbad as [H | H]; apply Qltb_lt in H; rewrite H.
  - cbn. discriminate.
  - destruct (Qltb (MAX_SPREAD_BIPS config) _); cbn; discriminate.
Qed.

End StrategySignals.

Section StrategyBias.
Import EnhancedOrderFlowStrategy.
Variable config : BotConfig.

Lemma set_bias_if_neutral_locked (b b' : string) (s : Signal.t) :
  Signal.bias s = b -> b <> "neutral" ->
  Signal.bias (set_bias_if_neutral b' s) = b.
Proof.
  intros Hb Hne. unfold set_bias_if_neutral.
  apply String.eqb_neq in Hne. rewrite Hb, Hne. exact Hb.
Qed.

Lemma step_level_locked (levels : list Q) (cp : Q)
    (reason : Q -> Signal.Reason) (b' b : string) (s s' : Signal.t) :
  Signal.bias s = b -> b <> "neutral" ->
  step_level levels cp reason b' s = Ok s' -> Signal.bias s' = b.
Proof.
  intros Hb Hne. unfold step_level.
  destruct levels as [|level levels]; [now intros [= <-]|].
  destruct (pydiv _ _) as [ratio| |]; [|discriminate..]. rewrite bind_Ok.
  destruct (Qltb ratio _); intros [= <-]; [|exact Hb].
  now apply set_bias_if_neutral_locked.
Qed.

(** The first analyzer to give a direction keeps it: when the moving
    averages fire, the bias of the returned signal is their signal,
    whatever the volume levels, the divergence detector and the order flow
    say afterwards. *)
Theorem moving_average_bias_is_final
    (dc : EnhancedDataCollector) (now : Z) (r : Readings) (self self' : t)
    (s : Signal.t) :
  analyze_market config dc now r self = (Ok s, self') ->
  MarketConditionAnalyzer.is_tradeable
    (fst (MarketConditionAnalyzer.analyze_conditions config
            (market_conditions self) (market r))) = true ->
  ma_signal (moving_averages r) <> "none" ->
  ma_signal (moving_averages r) <> "neutral" ->
  Signal.bias s = ma_signal (moving_averages r)
  /\ last_signal self' = Some s.
Proof.
  intros Hrun Htr Hfire Hne. unfold analyze_market in Hrun.
  destruct (MarketConditionAnalyzer.analyze_conditions config
              (market_conditions self) (market r)) as [conditions mc1].
  cbn [fst] in Htr. rewrite Htr in Hrun. cbn [negb] in Hrun.
  destruct (accumulate config dc now (volume_profile self) r
              (initial_signal now)) as [[pre| |] vp] eqn:Hacc;
    [|discriminate..].
  injection Hrun as <- <-. cbn [last_signal]. split; [|reflexivity].
  destruct (final_decision_keeps config mc1 (current_price dc) pre)
    as [-> _].
  unfold accumulate in Hacc.
  destruct (VolumeProfile.build_profile _ _ _ _ _) as [[vp_data vp1]| |];
    [|discriminate..].
  destruct (VolumeProfile.get_support_resistance dc vp1)
    as [support resistance].
  set (b := ma_signal (moving_averages r)) in *.
  assert (H0 : Signal.bias
                 (step_moving_averages (moving_averages r)
                    (initial_signal now)) = b).
  { unfold step_moving_averages. fold b.
    apply String.eqb_neq in Hfire. rewrite Hfire. cbn [negb].
    unfold set_bias_if_neutral. reflexivity. }
  destruct (step_level support _ _ _ _) as [s1| |] eqn:H1; [|discriminate..].
  rewrite bind_Ok in Hacc.
  destruct (step_level resistance _ _ _ _) as [s2| |] eqn:H2;
    [|discriminate..].
  rewrite bind_Ok in Hacc. injection Hacc as <- <-.
  apply (step_level_locked _ _ _ _ b) in H1; [|exact H0 | exact Hne].
  apply (step_level_locked _ _ _ _ b) in H2; [|exact H1 | exact Hne].
  assert (H3 : Signal.bias (step_divergence (delta_divergence r) s2) = b).
  { unfold step_divergence. destruct (negb _); [|exact H2].
    now apply set_bias_if_neutral_locked. }
  unfold step_orderflow. cbn [add_reasons add_strength Signal.bias].
  apply String.eqb_neq in Hne. rewrite H3, Hne. cbn [andb]. exact H3.
Qed.

End StrategyBias.

(** ** volume_profile.py: when the profile is built and what it holds *)

Section VolumeProfileOutcomes.
Import VolumeProfile.
Variable config : BotConfig.

Lemma pymin_in (x : Q) (xs : list Q) : In (pymin x xs) (x :: xs).
Proof.
  unfold pymin. revert x. induction xs as [|a xs IH]; intros x;
    cbn [fold_left]; [now left|].
  specialize (IH (if Qltb a x then a else x)).
  destruct (Qltb a x); cbn [In] in *; tauto.
Qed.

Lemma pymax_in (x : Q) (xs : list Q) : In (pymax x xs) (x :: xs).
Proof.
  unfold pymax. revert x. induction xs as [|a xs IH]; intros x;
    cbn [fold_left]; [now left|].
  specialize (IH (if Qltb x a then a else x)).
  destruct (Qltb x a); cbn [In] in *; tauto.
Qed.

(** In a window whose trades all have the price of the first one the price
    range is empty. *)
Lemma one_price_range (first : Trade) (rest : list Trade) :
  Forall (fun t => price t == price first) rest ->
  pymax (price first) (map price rest)
  - pymin (price first) (map price rest) == 0.
Proof.
  intros Hall.
  assert (Hin : forall p, In p (price first :: map price rest) ->
                          p == price first).
  { intros p [<- | Hp]; [reflexivity|].
    apply in_map_iff in Hp as (t & <- & Ht).
    rewrite List.Forall_forall in Hall. now apply Hall. }
  rewrite (Hin _ (pymax_in _ _)), (Hin _ (pymin_in _ _)). ring.
Qed.

(** A window has two different prices unless all its trades have the price
    of the first. *)
Lemma two_prices_or_one (first : Trade) (rest : list Trade) :
  Forall (fun t => price t == price first) rest
  \/ exists t1 t2, In t1 (first :: rest) /\ In t2 (first :: rest)
                   /\ ~ price t1 == price t2.
Proof.
  induction rest as [|t rest IH]; [left; constructor|].
  destruct (Qeq_dec (price t) (price first)) as [Heq | Hne].
  - destruct IH as [IH | (t1 & t2 & H1 & H2 & Hne)].
    + left. now constructor.
    + right. exists t1, t2. cbn [In] in *. tauto.
  - right. exists t, first. cbn [In]. tauto.
Qed.

(** [build_profile] has three outcomes.  It returns the empty dict exactly
    on an empty window, leaving the object as it was; it raises
    ZeroDivisionError exactly on a non-empty window when VP_PRICE_BINS is 0
    or all trades of the window have one price; in every other case it
    returns a profile.  It raises nothing else. *)
Theorem build_profile_outcomes (dc : EnhancedDataCollector) (now hours : Z)
    (self : t) :
  let window := recent_trades dc now hours in
  (window = [] <->
   build_profile config dc now hours self = Ok (EmptyDict, self))
  /\ ((exists first rest,
         window = first :: rest
         /\ (VP_PRICE_BINS config = 0%Z
             \/ Forall (fun t => price t == price first) rest)) <->
      build_profile config dc now hours self = Raise ZeroDivisionError)
  /\ (window = []
      \/ build_profile config dc now hours self = Raise ZeroDivisionError
      \/ exists prof p vah val total self',
           build_profile config dc now hours self
           = Ok (ProfileData prof p vah val total, self')).
Proof.
  cbv zeta.
  destruct (recent_trades dc now hours) as [|first rest] eqn:Hwin.
  { unfold build_profile. rewrite Hwin. repeat split; try tauto.
    - intros (? & ? & [=] & _).
    - discriminate. }
  assert (Hraise :
    VP_PRICE_BINS config = 0%Z
    \/ Forall (fun t => price t == price first) rest ->
    build_profile config dc now hours self = Raise ZeroDivisionError).
  { intros Hbad. unfold build_profile. rewrite Hwin.
    destruct (pydiv_cases
                (pymax (price first) (map price rest)
                 - pymin (price first) (map price rest))
                (inject_Z (VP_PRICE_BINS config)))
      as [[_ ->] | [Hnz ->]]; [reflexivity|].
    rewrite bind_Ok. cbn [bin_trades].
    destruct Hbad as [H0 | Hone];
      [exfalso; apply Hnz; now rewrite H0|].
    rewrite pydiv_zero; [reflexivity|].
    rewrite (one_price_range first rest Hone). unfold Qdiv. ring. }
  assert (Hok :
    VP_PRICE_BINS config <> 0%Z ->
    (exists t1 t2, In t1 (first :: rest) /\ In t2 (first :: rest)
                   /\ ~ price t1 == price t2) ->
    exists prof p vah val total self',
      build_profile config dc now hours self
      = Ok (ProfileData prof p vah val total, self')).
  { intros Hb Hp. apply build_profile_ok; [exact Hb | now rewrite Hwin]. }
  split; [|split].
  - split; [discriminate|]. intros H.
    destruct (Z.eq_dec (VP_PRICE_BINS config) 0%Z) as [H0 | Hn0];
      [rewrite Hraise in H by (now left); discriminate H|].
    destruct (two_prices_or_one first rest) as [Hone | Htwo];
      [rewrite Hraise in H by (now right); discriminate H|].
    destruct (Hok Hn0 Htwo) as (? & ? & ? & ? & ? & ? & Hbuild).
    rewrite Hbuild in H. discriminate H.
  - split.
    + intros (f & r & [= <- <-] & Hbad). now apply Hraise.
    + intros H. exists first, rest. split; [reflexivity|].
      destruct (Z.eq_dec (VP_PRICE_BINS config) 0%Z) as [H0 | Hn0];
        [now left|].
      destruct (two_prices_or_one first rest) as [Hone | Htwo];
        [now right|].
      destruct (Hok Hn0 Htwo) as (? & ? & ? & ? & ? & ? & Hbuild).
      rewrite Hbuild in H. discriminate H.
  - right.
    destruct (Z.eq_dec (VP_PRICE_BINS config) 0%Z) as [H0 | Hn0];
      [left; apply Hraise; now left|].
    destruct (two_prices_or_one first rest) as [Hone | Htwo];
      [left; apply Hraise; now right|].
    right. now apply Hok.
Qed.

End VolumeProfileOutcomes.

(** ** volume_profile.py: the bins *)

Section VolumeProfileBins.
Import VolumeProfile.

(** [int(x)] on a float that is not negative is its floor. *)
Lemma pyint_nonneg (x : Q) : 0 <= x -> pyint x = Qfloor x.
Proof.
  destruct x as [n d]. unfold Qle, pyint. cbn. intros Hn.
  apply Z.quot_div_nonneg; lia.
Qed.

Lemma pyint_floor (x : Q) :
  0 <= x -> inject_Z (pyint x) <= x /\ x < inject_Z (pyint x) + 1.
Proof.
  intros Hx. rewrite (pyint_nonneg x Hx).
  split; [apply Qfloor_le|].
  pose proof (Qlt_floor x) as H. rewrite inject_Z_plus in H. exact H.
Qed.

Lemma existsb_Qeq_false (k : Q) (ks : list Q) :
  existsb (fun k' => Qeq_bool k' k) ks = false ->
  forall k', In k' ks -> ~ k' == k.
Proof.
  intros H k' Hin Heq.
  assert (Ht : existsb (fun k' => Qeq_bool k' k) ks = true).
  { apply existsb_exists. exists k'. split; [exact Hin|].
    now apply Qeq_bool_iff. }
  congruence.
Qed.

Lemma distinct_snoc (ks : list Q) (k : Q) :
  distinct ks -> (forall k', In k' ks -> ~ k' == k) -> distinct (ks ++ [k]).
Proof.
  induction ks as [|a ks IH]; cbn [distinct app]; intros Hd Hk.
  - split; [intros ? [] | exact I].
  - destruct Hd as [Ha Hd]. split.
    + intros k' Hin. apply in_app_or in Hin as [Hin | [<- | []]].
      * now apply Ha.
      * intros H. apply (Hk a); [now left | now symmetry].
    + apply IH; [exact Hd|]. intros k' Hin. apply Hk. now right.
Qed.

Lemma insertion_order_distinct (ks seen : list Q) :
  distinct seen -> distinct (insertion_order seen ks).
Proof.
  revert seen. induction ks as [|k ks IH]; intros seen Hd;
    cbn [insertion_order]; [exact Hd|].
  apply IH. destruct (existsb _ seen) eqn:E; [exact Hd|].
  apply distinct_snoc; [exact Hd|]. now apply existsb_Qeq_false.
Qed.

End VolumeProfileBins.

(** ** volume_profile.py: the value area *)

Section ValueAreaFacts.
Import VolumeProfile.

Lemma insert_sorted_strict (a : Q) (l : list Q) :
  StronglySorted Qlt l -> (forall x, In x l -> ~ x == a) ->
  StronglySorted Qlt (insert_sorted a l).
Proof.
  intros Hs. induction Hs as [|y l Hs IH Hy]; intros Hne;
    cbn [insert_sorted].
  - repeat constructor.
  - destruct (Qle_bool a y) eqn:E.
    + apply Qle_bool_iff in E.
      assert (Hlt : a < y).
      { destruct (Qle_lt_or_eq _ _ E) as [H | H]; [exact H|].
        exfalso. apply (Hne y); [now left | now symmetry]. }
      constructor; [now constructor|].
      constructor; [exact Hlt|].
      rewrite List.Forall_forall in Hy |- *. intros x Hx.
      specialize (Hy x Hx). lra.
    + apply Qle_bool_gt in E. constructor.
      * apply IH. intros x Hx. apply Hne. now right.
      * rewrite List.Forall_forall in Hy |- *. intros x Hx.
        apply insert_sorted_In in Hx as [-> | Hx]; [exact E | now apply Hy].
Qed.

(** [sorted] puts pairwise different prices in strictly ascending order. *)
Lemma sorted_strict (l : list Q) :
  distinct l -> StronglySorted Qlt (sorted l).
Proof.
  induction l as [|a l IH]; cbn [distinct sorted fold_right];
    [constructor|].
  intros [Ha Hd]. apply insert_sorted_strict; [now apply IH|].
  intros x Hx. apply Ha. now apply sorted_In.
Qed.

Lemma strict_nth_lt (l : list Q) (i j : nat) (a b : Q) :
  StronglySorted Qlt l -> (i < j)%nat ->
  nth_error l i = Some a -> nth_error l j = Some b -> a < b.
Proof.
  intros Hs. revert i j.
  induction Hs as [|y l Hs IH Hy]; intros i j Hij Hi Hj.
  - destruct i; discriminate.
  - destruct j as [|j]; [lia|]. cbn [nth_error] in Hj.
    destruct i as [|i]; cbn [nth_error] in Hi.
    + injection Hi as <-. rewrite List.Forall_forall in Hy.
      apply Hy. eapply nth_error_In, Hj.
    + apply (IH i j); [lia | assumption..].
Qed.

Lemma strict_nth_le (l : list Q) (i j : nat) (a b : Q) :
  StronglySorted Qlt l -> (i <= j)%nat ->
  nth_error l i = Some a -> nth_error l j = Some b -> a <= b.
Proof.
  intros Hs Hij Hi Hj. destruct (Nat.eq_dec i j) as [-> | Hne].
  - rewrite Hi in Hj. injection Hj as <-. lra.
  - apply Qlt_le_weak. apply (strict_nth_lt l i j); [assumption | lia |
      assumption..].
Qed.

Lemma list_index_nth (x : Q) (l : list Q) (i : nat) :
  list_index x l = Ok i -> exists y, nth_error l i = Some y /\ y == x.
Proof.
  revert i. induction l as [|a l IH]; intros i; cbn [list_index];
    [discriminate|].
  destruct (Qeq_bool a x) eqn:E.
  - intros [= <-]. exists a. split; [reflexivity | now apply Qeq_bool_iff].
  - destruct (list_index x l) as [j| |]; [|discriminate..].
    rewrite bind_Ok. intros [= <-]. now apply IH.
Qed.

Section WithConfig.
Variable config : BotConfig.

(** What a call of [build_profile] that returns a profile has done, with
    the call of [_calculate_value_area] it ends with. *)
Lemma build_profile_value_area (dc : EnhancedDataCollector) (now hours : Z)
    (self self' : t) (prof : Profile) (p vah val total : Q) :
  build_profile config dc now hours self
  = Ok (ProfileData prof p vah val total, self') ->
  _calculate_value_area config
    {| profile := prof; poc := p;
       value_area_high := value_area_high self;
       value_area_low := value_area_low self |} = Ok self'
  /\ In p (map fst prof)
  /\ distinct (map fst prof)
  /\ vah = value_area_high self' /\ val = value_area_low self'.
Proof.
  intros Hbuild.
  destruct (build_profile_inv _ _ _ _ _ _ _ _ _ _ _ Hbuild)
    as (first & rest & bin_size & Hwin & Hsize & Hbin & Hmax & Hp & Hpoc
        & -> & -> & _).
  pose proof (bin_trades_keys _ _ _ _ _ Hbin) as Hkeys.
  split; [|split; [now apply dict_argmax_key|]; split;
             [rewrite Hkeys; now apply insertion_order_distinct
             | now split]].
  unfold build_profile in Hbuild. rewrite Hwin, Hsize, bind_Ok in Hbuild.
  rewrite Hbin, bind_Ok, Hmax in Hbuild.
  destruct (_calculate_value_area config _) as [s1| |]; [|discriminate..].
  rewrite bind_Ok in Hbuild. now injection Hbuild as _ _ _ _ _ <-.
Qed.

(** The value area of a built profile encloses the POC: its two ends are
    bins of the profile, the low end is not above the POC and the high end
    not below it, so [is_price_in_value_area] answers true for the POC. *)
Theorem value_area_encloses_poc (dc : EnhancedDataCollector) (now hours : Z)
    (self self' : t) (prof : Profile) (p vah val total : Q) :
  build_profile config dc now hours self
  = Ok (ProfileData prof p vah val total, self') ->
  In val (map fst prof) /\ In vah (map fst prof)
  /\ val <= p <= vah
  /\ is_price_in_value_area self' (poc self') = true.
Proof.
  intros Hbuild.
  destruct (build_profile_value_area _ _ _ _ _ _ _ _ _ _ Hbuild)
    as (Hva & Hin & Hd & -> & ->).
  destruct (build_profile_inv _ _ _ _ _ _ _ _ _ _ _ Hbuild)
    as (_ & _ & _ & _ & _ & _ & _ & _ & Hpoc & _).
  match type of Hva with
  | _calculate_value_area config ?s = _ =>
      destruct (calculate_value_area_ok config s Hin)
        as (s1 & i & lo & hi & Hva1 & _ & _ & Hidx & Hlohi & Hlo & Hhi)
  end.
  rewrite Hva in Hva1. injection Hva1 as <-. cbn [profile poc] in *.
  pose proof (sorted_strict _ Hd) as Hs.
  destruct (list_index_nth _ _ _ Hidx) as (y & Hy & Heq).
  assert (H1 : value_area_low self' <= y)
    by (apply (strict_nth_le (sorted (map fst prof)) lo i);
        (assumption || lia)).
  assert (H2 : y <= value_area_high self')
    by (apply (strict_nth_le (sorted (map fst prof)) i hi);
        (assumption || lia)).
  split; [apply sorted_In; eapply nth_error_In, Hlo|].
  split; [apply sorted_In; eapply nth_error_In, Hhi|].
  split; [lra|].
  unfold is_price_in_value_area. rewrite Hpoc.
  apply andb_true_iff. split; apply Qle_bool_iff; lra.
Qed.

End WithConfig.
End ValueAreaFacts.

(** ** volume_profile.py: the value area reaches its target *)

Section ValueAreaTarget.
Import VolumeProfile.

Lemma pysum_app (l1 l2 : list Q) : pysum (l1 ++ l2) == pysum l1 + pysum l2.
Proof.
  induction l1 as [|x l1 IH]; cbn [app].
  - rewrite pysum_nil. lra.
  - rewrite !pysum_cons, IH. lra.
Qed.

Lemma pysum_perm (l l' : list Q) : Permutation l l' -> pysum l == pysum l'.
Proof.
  induction 1 as [|x l l' _ IH|x y l|l l' l'' _ IH1 _ IH2].
  - reflexivity.
  - rewrite !pysum_cons, IH. reflexivity.
  - rewrite !pysum_cons. lra.
  - now rewrite IH1.
Qed.

Lemma pysum_nonneg (l : list Q) :
  (forall x, In x l -> 0 <= x) -> 0 <= pysum l.
Proof.
  induction l as [|x l IH]; intros H.
  - rewrite pysum_nil. lra.
  - rewrite pysum_cons.
    assert (0 <= x) by (apply H; now left).
    assert (0 <= pysum l) by (apply IH; intros y Hy; apply H; now right).
    lra.
Qed.

Lemma insert_sorted_perm (a : Q) (l : list Q) :
  Permutation (insert_sorted a l) (a :: l).
Proof.
  induction l as [|y l IH]; cbn [insert_sorted]; [reflexivity|].
  destruct (Qle_bool a y); [reflexivity|].
  rewrite IH. apply perm_swap.
Qed.

Lemma sorted_perm (l : list Q) : Permutation (sorted l) l.
Proof.
  induction l as [|a l IH]; cbn [sorted fold_right]; [reflexivity|].
  fold (sorted l). rewrite insert_sorted_perm. now constructor.
Qed.

Lemma filter_perm (f : Q -> bool) (l l' : list Q) :
  Permutation l l' -> Permutation (List.filter f l) (List.filter f l').
Proof.
  induction 1 as [|x l l' _ IH|x y l|l l' l'' _ IH1 _ IH2]; cbn [List.filter].
  - reflexivity.
  - destruct (f x); [now constructor | exact IH].
  - destruct (f x), (f y); try reflexivity. apply perm_swap.
  - now rewrite IH1.
Qed.

(** In a dict with pairwise different keys every pair is found under its
    own key. *)
Lemma dict_get_own (d : Profile) (k v : Q) :
  distinct (map fst d) -> In (k, v) d -> dict_get d k = Some v.
Proof.
  induction d as [|[k' v'] d IH]; cbn [map fst distinct In dict_get];
    [tauto|].
  intros [Hk' Hd] [[= -> ->] | Hin].
  - now rewrite Qeq_bool_refl.
  - destruct (Qeq_bool k' k) eqn:E; [|now apply IH].
    apply Qeq_bool_iff in E. exfalso.
    apply (Hk' k); [apply (in_map fst) in Hin; exact Hin | now symmetry].
Qed.

Lemma dict_get_In (d : Profile) (k v : Q) :
  dict_get d k = Some v -> exists k', In (k', v) d /\ k' == k.
Proof.
  induction d as [|[k' v'] d IH]; cbn [dict_get]; [discriminate|].
  destruct (Qeq_bool k' k) eqn:E.
  - intros [= ->]. exists k'. split; [now left | now apply Qeq_bool_iff].
  - intros H. destruct (IH H) as (k2 & Hin & Heq). exists k2.
    split; [now right | exact Heq].
Qed.

Lemma bin_volume_own (d : Profile) (kv : Q * Q) :
  distinct (map fst d) -> In kv d -> bin_volume d (fst kv) = snd kv.
Proof.
  intros Hd Hin. unfold bin_volume. destruct kv as [k v]. cbn [fst snd].
  now rewrite (dict_get_own d k v Hd Hin).
Qed.

Lemma bin_volume_keys (d : Profile) (l : list (Q * Q)) :
  distinct (map fst d) -> (forall kv, In kv l -> In kv d) ->
  map (bin_volume d) (map fst l) = map snd l.
Proof.
  intros Hd. induction l as [|kv l IH]; intros Hsub; [reflexivity|].
  cbn [map]. rewrite bin_volume_own; [|exact Hd | apply Hsub; now left].
  f_equal. apply IH. intros x Hx. apply Hsub. now right.
Qed.

(** The bins of the profile, taken in sorted order, hold the total. *)
Lemma sorted_bins_total (d : Profile) :
  distinct (map fst d) ->
  pysum (map (bin_volume d) (sorted (map fst d))) == pysum (map snd d).
Proof.
  intros Hd. rewrite <- (bin_volume_keys d d Hd) by tauto.
  apply pysum_perm, Permutation_map, sorted_perm.
Qed.

Lemma volume_at_bin (d : Profile) (l : list Q) (i : nat) (v : Q) :
  volume_at d l i = Ok v ->
  exists p, nth_error l i = Some p /\ v = bin_volume d p
            /\ dict_get d p = Some v.
Proof.
  unfold volume_at, list_item.
  destruct (nth_error l i) as [p|]; [|discriminate].
  rewrite bind_Ok. unfold dict_item, bin_volume.
  destruct (dict_get d p) as [v'|] eqn:E; [|discriminate].
  intros [= <-]. exists p. now rewrite E.
Qed.

(** *** Segments of a list *)

Lemma skipn_nth {A : Type} (l : list A) (n : nat) (x : A) :
  nth_error l n = Some x -> skipn n l = x :: skipn (S n) l.
Proof.
  revert n. induction l as [|a l IH]; intros n H.
  - destruct n; discriminate.
  - destruct n as [|n]; cbn [nth_error] in H.
    + now injection H as <-.
    + cbn [skipn]. now apply IH.
Qed.

Lemma firstn_snoc {A : Type} (l : list A) (n : nat) (x : A) :
  nth_error l n = Some x -> firstn (S n) l = firstn n l ++ [x].
Proof.
  revert n. induction l as [|a l IH]; intros n H.
  - destruct n; discriminate.
  - destruct n as [|n]; cbn [nth_error] in H.
    + now injection H as <-.
    + cbn [firstn app]. f_equal. now apply IH.
Qed.

Lemma segment_single {A : Type} (l : list A) (i : nat) (x : A) :
  nth_error l i = Some x -> segment i i l = [x].
Proof.
  intros H. unfold segment. rewrite (skipn_nth l i x H).
  replace (i + 1 - i)%nat with 1%nat by lia. reflexivity.
Qed.

Lemma segment_low {A : Type} (l : list A) (lo hi : nat) (x : A) :
  (0 < lo <= hi)%nat -> nth_error l (lo - 1) = Some x ->
  segment (lo - 1) hi l = x :: segment lo hi l.
Proof.
  intros Hlo H. unfold segment. rewrite (skipn_nth l (lo - 1) x H).
  replace (S (lo - 1)) with lo by lia.
  replace (hi + 1 - (lo - 1))%nat with (S (hi + 1 - lo)) by lia.
  reflexivity.
Qed.

Lemma segment_high {A : Type} (l : list A) (lo hi : nat) (x : A) :
  (lo <= hi)%nat -> nth_error l (hi + 1) = Some x ->
  segment lo (hi + 1) l = segment lo hi l ++ [x].
Proof.
  intros Hlo H. unfold segment.
  replace (hi + 1 + 1 - lo)%nat with (S (hi + 1 - lo)) by lia.
  apply firstn_snoc. rewrite nth_error_skipn.
  replace (lo + (hi + 1 - lo))%nat with (hi + 1)%nat by lia. exact H.
Qed.

Lemma segment_full {A : Type} (l : list A) :
  segment 0 (length l - 1) l = l.
Proof.
  unfold segment. cbn [skipn]. apply firstn_all2. lia.
Qed.

Lemma segment_split {A : Type} (l : list A) (lo hi : nat) :
  (lo <= hi)%nat ->
  l = firstn lo l ++ segment lo hi l ++ skipn (hi + 1) l.
Proof.
  intros H. unfold segment.
  rewrite <- (firstn_skipn lo l) at 1. f_equal.
  rewrite <- (firstn_skipn (hi + 1 - lo) (skipn lo l)) at 1. f_equal.
  rewrite skipn_skipn. f_equal. lia.
Qed.

(** *** The loop on a profile whose bins all hold a positive volume *)

Section PositiveBins.
Variable prof : Profile.
Hypothesis positive_bins : forall kv, In kv prof -> 0 < snd kv.

Lemma volume_at_positive (i : nat) (v : Q) :
  volume_at prof (sorted (map fst prof)) i = Ok v ->
  0 < v
  /\ exists p, nth_error (sorted (map fst prof)) i = Some p
               /\ v = bin_volume prof p.
Proof.
  intros H. destruct (volume_at_bin _ _ _ _ H) as (p & Hp & Hv & Hget).
  split; [|eauto].
  destruct (dict_get_In _ _ _ Hget) as (k & Hin & _).
  apply (positive_bins (k, v) Hin).
Qed.

(** A pass of the loop on a good band breaks only when the band spans all
    bins; otherwise it yields a good band one bin wider. *)
Lemma expand_once_good (b : Band) :
  band_ok prof b ->
  (expand_once prof (sorted (map fst prof)) b = Ok None
   /\ low_index b = O
   /\ high_index b = (length (sorted (map fst prof)) - 1)%nat)
  \/ exists b',
       expand_once prof (sorted (map fst prof)) b = Ok (Some b')
       /\ band_ok prof b'
       /\ (S (low_index b'
              + (length (sorted (map fst prof)) - 1 - high_index b'))
           = low_index b
             + (length (sorted (map fst prof)) - 1 - high_index b))%nat.
Proof.
  intros [Hb Hva]. unfold expand_once.
  set (sp := sorted (map fst prof)) in *.
  assert (Hkeys : forall p, In p sp -> In p (map fst prof))
    by (intros p; apply sorted_In).
  assert (Hlow : (0 < low_index b)%nat ->
                 exists v p,
                   volume_at prof sp (low_index b - 1) = Ok v /\ 0 < v
                   /\ nth_error sp (low_index b - 1) = Some p
                   /\ v = bin_volume prof p).
  { intros Hl.
    destruct (neighbour_volume_ok prof sp Hkeys (low_index b - 1))
      as [v Hv]; [lia|].
    destruct (volume_at_positive _ _ Hv) as (Hpos & p & Hp & Hvp).
    exists v, p. now repeat split. }
  assert (Hhigh : (high_index b < length sp - 1)%nat ->
                  exists v p,
                    volume_at prof sp (high_index b + 1) = Ok v /\ 0 < v
                    /\ nth_error sp (high_index b + 1) = Some p
                    /\ v = bin_volume prof p).
  { intros Hh.
    destruct (neighbour_volume_ok prof sp Hkeys (high_index b + 1))
      as [v Hv]; [lia|].
    destruct (volume_at_positive _ _ Hv) as (Hpos & p & Hp & Hvp).
    exists v, p. now repeat split. }
  assert (Hdown : forall v p,
            (0 < low_index b)%nat ->
            nth_error sp (low_index b - 1) = Some p ->
            v = bin_volume prof p ->
            band_ok prof (band_down b v)).
  { intros v p Hl Hp ->. split; cbn [band_down low_index high_index va_volume].
    - fold sp. lia.
    - fold sp. rewrite (segment_low sp _ _ p) by (lia || assumption).
      cbn [map]. rewrite pysum_cons, Hva. lra. }
  assert (Hup : forall v p,
            (high_index b < length sp - 1)%nat ->
            nth_error sp (high_index b + 1) = Some p ->
            v = bin_volume prof p ->
            band_ok prof (band_up b v)).
  { intros v p Hh Hp ->. split; cbn [band_up low_index high_index va_volume].
    - fold sp. lia.
    - fold sp. rewrite (segment_high sp _ _ p) by (lia || assumption).
      rewrite map_app, pysum_app. cbn [map].
      rewrite pysum_cons, pysum_nil, Hva. lra. }
  destruct (0 <? low_index b)%nat eqn:El;
    [apply Nat.ltb_lt in El | apply Nat.ltb_ge in El];
    (destruct (high_index b <? length sp - 1)%nat eqn:Eh;
     [apply Nat.ltb_lt in Eh | apply Nat.ltb_ge in Eh]).
  - destruct (Hlow El) as (lv & lp & -> & Hlpos & Hlp & Hlv).
    destruct (Hhigh Eh) as (hv & hp & -> & Hhpos & Hhp & Hhv).
    rewrite !bind_Ok, andb_true_r. right.
    destruct (Qltb hv lv).
    + exists (band_down b lv). split; [reflexivity|].
      split; [now apply (Hdown lv lp)|].
      cbn [band_down low_index high_index]. lia.
    + exists (band_up b hv). split; [reflexivity|].
      split; [now apply (Hup hv hp)|].
      cbn [band_up low_index high_index]. lia.
  - destruct (Hlow El) as (lv & lp & -> & Hlpos & Hlp & Hlv).
    rewrite !bind_Ok, andb_true_r. right.
    apply Qltb_lt in Hlpos. rewrite Hlpos.
    exists (band_down b lv). split; [reflexivity|].
    split; [now apply (Hdown lv lp)|].
    cbn [band_down low_index high_index]. lia.
  - destruct (Hhigh Eh) as (hv & hp & -> & Hhpos & Hhp & Hhv).
    rewrite !bind_Ok, andb_false_r. right.
    exists (band_up b hv). split; [reflexivity|].
    split; [now apply (Hup hv hp)|].
    cbn [band_up low_index high_index]. lia.
  - rewrite !bind_Ok, andb_false_r. left.
    split; [reflexivity|]. lia.
Qed.

(** With enough passes allowed the loop ends on a good band that has
    reached the target or spans all bins. *)
Lemma expand_good (target : Q) (fuel : nat) (b : Band) :
  band_ok prof b ->
  (low_index b + (length (sorted (map fst prof)) - 1 - high_index b)
   < fuel)%nat ->
  exists b',
    expand fuel prof (sorted (map fst prof)) target b = Ok b'
    /\ band_ok prof b'
    /\ (target <= va_volume b'
        \/ (low_index b' = O
            /\ high_index b'
               = (length (sorted (map fst prof)) - 1)%nat)).
Proof.
  revert b. induction fuel as [|fuel IH]; intros b Hb Hfuel; [lia|].
  cbn [expand]. destruct (Qltb (va_volume b) target) eqn:E.
  - destruct (expand_once_good b Hb)
      as [(-> & Hl & Hh) | (b1 & -> & Hb1 & Hm)]; rewrite bind_Ok.
    + exists b. split; [reflexivity|]. split; [exact Hb|]. now right.
    + apply IH; [exact Hb1 | lia].
  - apply Qltb_ge in E. exists b. split; [reflexivity|].
    split; [exact Hb|]. now left.
Qed.

End PositiveBins.

(** *** The bins between two prices *)

Lemma filter_none {A : Type} (f : A -> bool) (l : list A) :
  (forall e, In e l -> f e = false) -> List.filter f l = [].
Proof.
  induction l as [|a l IH]; intros H; [reflexivity|].
  cbn [List.filter]. rewrite (H a) by now left.
  apply IH. intros e He. apply H. now right.
Qed.

Lemma filter_all {A : Type} (f : A -> bool) (l : list A) :
  (forall e, In e l -> f e = true) -> List.filter f l = l.
Proof.
  induction l as [|a l IH]; intros H; [reflexivity|].
  cbn [List.filter]. rewrite (H a) by now left.
  f_equal. apply IH. intros e He. apply H. now right.
Qed.

Lemma filter_map_fst (f : Q -> bool) (d : Profile) :
  map fst (List.filter (fun kv => f (fst kv)) d) = List.filter f (map fst d).
Proof.
  induction d as [|kv d IH]; [reflexivity|].
  cbn [List.filter map]. destruct (f (fst kv)); cbn [map]; now rewrite IH.
Qed.

(** In a strictly ascending list the elements between the values at two
    positions are the elements between the positions. *)
Lemma filter_between_is_segment (l : list Q) (lo hi : nat) (x y : Q) :
  StronglySorted Qlt l -> (lo <= hi)%nat ->
  nth_error l lo = Some x -> nth_error l hi = Some y ->
  List.filter (fun p => Qle_bool x p && Qle_bool p y) l = segment lo hi l.
Proof.
  intros Hs Hlohi Hx Hy.
  transitivity
    (List.filter (fun p => Qle_bool x p && Qle_bool p y)
       (firstn lo l ++ segment lo hi l ++ skipn (hi + 1) l));
    [f_equal; now apply segment_split|].
  rewrite !List.filter_app.
  rewrite filter_none, filter_all, filter_none.
  - now rewrite app_nil_r.
  - intros e He. apply In_nth_error in He as [n Hn].
    rewrite nth_error_skipn in Hn.
    assert (Hlt : y < e)
      by (apply (strict_nth_lt l hi (hi + 1 + n)); (assumption || lia)).
    apply andb_false_iff. right. apply Qle_bool_gt. exact Hlt.
  - intros e He. unfold segment in He.
    apply In_nth_error in He as [n Hn].
    rewrite nth_error_firstn in Hn.
    destruct (n <? hi + 1 - lo)%nat eqn:E; [|discriminate].
    apply Nat.ltb_lt in E. rewrite nth_error_skipn in Hn.
    assert (H1 : x <= e)
      by (apply (strict_nth_le l lo (lo + n)); (assumption || lia)).
    assert (H2 : e <= y)
      by (apply (strict_nth_le l (lo + n) hi); (assumption || lia)).
    apply andb_true_iff. split; now apply Qle_bool_iff.
  - intros e He. apply In_nth_error in He as [n Hn].
    rewrite nth_error_firstn in Hn.
    destruct (n <? lo)%nat eqn:E; [|discriminate].
    apply Nat.ltb_lt in E.
    assert (Hlt : e < x)
      by (apply (strict_nth_lt l n lo); (assumption || lia)).
    apply andb_false_iff. left. apply Qle_bool_gt. exact Hlt.
Qed.

(** The volume between the prices of two sorted bins is the volume of the
    sorted bins between them. *)
Lemma band_volume_is_segment (prof : Profile) (lo hi : nat) (x y : Q) :
  distinct (map fst prof) -> (lo <= hi)%nat ->
  nth_error (sorted (map fst prof)) lo = Some x ->
  nth_error (sorted (map fst prof)) hi = Some y ->
  band_volume prof x y
  == pysum (map (bin_volume prof) (segment lo hi (sorted (map fst prof)))).
Proof.
  intros Hd Hlohi Hx Hy. unfold band_volume.
  rewrite <- (bin_volume_keys prof _ Hd)
    by (intros kv Hkv; now apply filter_In in Hkv).
  rewrite (filter_map_fst (fun p => Qle_bool x p && Qle_bool p y)).
  rewrite <- (filter_between_is_segment _ lo hi x y (sorted_strict _ Hd)
                Hlohi Hx Hy).
  apply pysum_perm, Permutation_map, filter_perm.
  symmetry. apply sorted_perm.
Qed.

Lemma dict_get_Qeq (d : Profile) (k k' : Q) :
  k == k' -> dict_get d k = dict_get d k'.
Proof.
  intros H. induction d as [|[a v] d IH]; [reflexivity|].
  cbn [dict_get].
  assert (E : Qeq_bool a k = Qeq_bool a k').
  { destruct (Qeq_bool a k) eqn:E1, (Qeq_bool a k') eqn:E2; try reflexivity.
    - apply Qeq_bool_iff in E1.
      assert (Qeq_bool a k' = true)
        by (apply Qeq_bool_iff; now rewrite E1).
      congruence.
    - apply Qeq_bool_iff in E2.
      assert (Qeq_bool a k = true)
        by (apply Qeq_bool_iff; now rewrite E2, H).
      congruence. }
  rewrite E. now rewrite IH.
Qed.

Section WithConfig.
Variable config : BotConfig.

(** On a profile with pairwise different keys whose bins all hold a
    positive volume, and a target percentage between 0 and 100,
    [_calculate_value_area] leaves a band whose bins hold at least the
    target share of the total volume. *)
Lemma value_area_reaches_target_on_positive_bins (self : t) :
  In (poc self) (map fst (profile self)) ->
  distinct (map fst (profile self)) ->
  (forall kv, In kv (profile self) -> 0 < snd kv) ->
  0 <= VP_VALUE_AREA_PERCENT config <= 100 ->
  exists self',
    _calculate_value_area config self = Ok self'
    /\ pysum (map snd (profile self)) * (VP_VALUE_AREA_PERCENT config / 100)
       <= band_volume (profile self) (value_area_low self')
            (value_area_high self').
Proof.
  intros Hpoc Hd Hpos Hpct. unfold _calculate_value_area.
  destruct (profile self) as [|kv d] eqn:Hprof; [destruct Hpoc|].
  set (prof := kv :: d) in *. set (sp := sorted (map fst prof)).
  set (target := pysum (map snd prof) * (VP_VALUE_AREA_PERCENT config / 100)).
  destruct (list_index_In (poc self) sp) as (i & Hi & Hlt);
    [now apply sorted_In|].
  rewrite Hi, bind_Ok.
  destruct (list_index_nth _ _ _ Hi) as (y & Hy & Hyp).
  unfold dict_item at 1.
  destruct (dict_get_key _ _ Hpoc) as [v Hv]. rewrite Hv, bind_Ok.
  assert (Hb0 : band_ok prof
                  {| va_volume := v; low_index := i; high_index := i |}).
  { split; cbn [low_index high_index va_volume]; fold sp; [lia|].
    rewrite (segment_single sp i y Hy). cbn [map].
    rewrite pysum_cons, pysum_nil. unfold bin_volume.
    rewrite (dict_get_Qeq prof y (poc self) Hyp), Hv. lra. }
  destruct (expand_good prof Hpos target (length sp) _ Hb0)
    as (b & Hexp & [Hb Hva] & Hdone);
    [cbn [low_index high_index]; fold sp; lia|].
  fold sp in Hexp, Hb, Hva, Hdone. rewrite Hexp, bind_Ok.
  unfold list_item.
  destruct (nth_error sp (low_index b)) as [lo|] eqn:Elo;
    [|apply nth_error_None in Elo; lia].
  destruct (nth_error sp (high_index b)) as [hi|] eqn:Ehi;
    [|apply nth_error_None in Ehi; lia].
  rewrite !bind_Ok. eexists. split; [reflexivity|].
  cbn [value_area_low value_area_high].
  rewrite (band_volume_is_segment prof (low_index b) (high_index b) lo hi Hd)
    by (lia || assumption).
  fold sp. rewrite <- Hva.
  destruct Hdone as [Hreach | [Hl Hh]]; [exact Hreach|].
  rewrite Hva, Hl, Hh, segment_full.
  unfold sp. rewrite (sorted_bins_total prof Hd).
  assert (Htot : 0 <= pysum (map snd prof)).
  { apply pysum_nonneg. intros x Hx.
    apply in_map_iff in Hx as (kv' & <- & Hin).
    apply Qlt_le_weak. now apply Hpos. }
  assert (Hshare : VP_VALUE_AREA_PERCENT config / 100 <= 1)
    by (apply Qle_shift_div_r; lra).
  unfold target. nra.
Qed.

(** C5.  On a profile with pairwise different keys that holds its POC and
    whose bins all hold a positive volume (a bin exists only where a trade
    fell, and a trade print has a positive quantity), with a target
    percentage between 0 and 100, [_calculate_value_area] returns and keeps
    the profile and the POC.  The two ends of the value area are the bins
    at two positions [low <= poc_index <= high] of the bins in price order;
    the bins priced inside the band are exactly the run of sorted bins from
    [low] to [high], which holds the POC bin; and the volume of the bins of
    the band is at least the target share of the total volume. *)
Theorem value_area_is_contiguous_and_reaches_target (self : t) :
  In (poc self) (map fst (profile self)) ->
  distinct (map fst (profile self)) ->
  (forall kv, In kv (profile self) -> 0 < snd kv) ->
  0 <= VP_VALUE_AREA_PERCENT config <= 100 ->
  let sorted_prices := sorted (map fst (profile self)) in
  exists self' poc_index low high,
    _calculate_value_area config self = Ok self'
    /\ profile self' = profile self
    /\ poc self' = poc self
    /\ list_index (poc self) sorted_prices = Ok poc_index
    /\ (low <= poc_index <= high)%nat
    /\ nth_error sorted_prices low = Some (value_area_low self')
    /\ nth_error sorted_prices high = Some (value_area_high self')
    /\ value_area_low self' <= poc self <= value_area_high self'
    /\ List.filter
         (fun p => Qle_bool (value_area_low self') p
                   && Qle_bool p (value_area_high self')) sorted_prices
       = segment low high sorted_prices
    /\ band_volume (profile self) (value_area_low self')
         (value_area_high self')
       == pysum (map (bin_volume (profile self))
                   (segment low high sorted_prices))
    /\ pysum (map snd (profile self)) * (VP_VALUE_AREA_PERCENT config / 100)
       <= band_volume (profile self) (value_area_low self')
            (value_area_high self').
Proof.
  intros Hpoc Hd Hpos Hpct sorted_prices.
  destruct (calculate_value_area_ok config self Hpoc)
    as (self' & i & lo & hi & Hva & Hprof & Hp & Hidx & Hlohi & Hlo & Hhi).
  destruct (value_area_reaches_target_on_positive_bins self Hpoc Hd Hpos
              Hpct) as (self2 & Hva2 & Hreach).
  rewrite Hva in Hva2. injection Hva2 as <-.
  fold sorted_prices in Hidx, Hlo, Hhi.
  pose proof (sorted_strict _ Hd) as Hs. fold sorted_prices in Hs.
  destruct (list_index_nth _ _ _ Hidx) as (y & Hy & Heq).
  assert (H1 : value_area_low self' <= y)
    by (apply (strict_nth_le sorted_prices lo i); (assumption || lia)).
  assert (H2 : y <= value_area_high self')
    by (apply (strict_nth_le sorted_prices i hi); (assumption || lia)).
  exists self', i, lo, hi.
  split; [exact Hva|]. split; [exact Hprof|]. split; [exact Hp|].
  split; [exact Hidx|]. split; [exact Hlohi|]. split; [exact Hlo|].
  split; [exact Hhi|]. split; [lra|].
  split; [apply filter_between_is_segment; (assumption || lia)|].
  split; [apply band_volume_is_segment; (assumption || lia)|].
  exact Hreach.
Qed.

Lemma dict_add_positive (d : Profile) (k q : Q) :
  (forall kv, In kv d -> 0 < snd kv) -> 0 < q ->
  forall kv, In kv (dict_add d k q) -> 0 < snd kv.
Proof.
  intros Hd Hq. induction d as [|[k' v] d IH]; cbn [dict_add].
  - intros kv [<- | []]. cbn [snd]. lra.
  - assert (Hv : 0 < v) by (apply (Hd (k', v)); now left).
    destruct (Qeq_bool k' k); intros kv [<- | Hin]; cbn [snd].
    + lra.
    + apply Hd. now right.
    + exact Hv.
    + apply IH; [|exact Hin]. intros x Hx. apply Hd. now right.
Qed.

Lemma bin_trades_positive (min_price bin_size : Q) (ts : list Trade)
    (acc prof : Profile) :
  (forall kv, In kv acc -> 0 < snd kv) ->
  (forall t, In t ts -> 0 < quantity t) ->
  bin_trades min_price bin_size ts acc = Ok prof ->
  forall kv, In kv prof -> 0 < snd kv.
Proof.
  revert acc. induction ts as [|t ts IH]; intros acc Hacc Hq;
    cbn [bin_trades].
  - now intros [= <-].
  - destruct (pydiv _ _); [|discriminate..]. rewrite bind_Ok.
    apply IH.
    + apply dict_add_positive; [exact Hacc | apply Hq; now left].
    + intros x Hx. apply Hq. now right.
Qed.

(** When every trade of the window has a positive quantity and the target
    percentage lies between 0 and 100, the value area of the built profile
    holds at least the target share of the total volume: the bins priced
    between its two ends add up to VP_VALUE_AREA_PERCENT of the total or
    more. *)
Theorem value_area_reaches_target (dc : EnhancedDataCollector)
    (now hours : Z) (self self' : t) (prof : Profile) (p vah val total : Q) :
  build_profile config dc now hours self
  = Ok (ProfileData prof p vah val total, self') ->
  (forall t, In t (recent_trades dc now hours) -> 0 < quantity t) ->
  0 <= VP_VALUE_AREA_PERCENT config <= 100 ->
  total * (VP_VALUE_AREA_PERCENT config / 100) <= band_volume prof val vah.
Proof.
  intros Hbuild Hq Hpct.
  destruct (build_profile_value_area _ _ _ _ _ _ _ _ _ _ _ Hbuild)
    as (Hva & Hin & Hd & -> & ->).
  destruct (build_profile_inv _ _ _ _ _ _ _ _ _ _ _ Hbuild)
    as (first & rest & bin_size & Hwin & _ & Hbin & _ & _ & _ & _ & _ & ->).
  assert (Hpos : forall kv, In kv prof -> 0 < snd kv).
  { apply (bin_trades_positive
             (pymin (price first) (map price rest)) bin_size
             (first :: rest) [] prof); [intros ? [] | | exact Hbin].
    now rewrite <- Hwin. }
  match type of Hva with
  | _calculate_value_area config ?s = _ =>
      destruct (value_area_reaches_target_on_positive_bins s Hin Hd Hpos Hpct)
        as (s1 & Hva1 & Hreach)
  end.
  rewrite Hva in Hva1. injection Hva1 as <-. exact Hreach.
Qed.

End WithConfig.

End ValueAreaTarget.

(** ** volume_profile.py: support and resistance *)

Section SupportResistance.
Import VolumeProfile.

Lemma insert_sorted_desc_In (x a : Q) (l : list Q) :
  In x (insert_sorted_desc a l) <-> x = a \/ In x l.
Proof.
  induction l as [|y l IH]; cbn [insert_sorted_desc In]; [intuition|].
  destruct (Qle_bool y a); cbn [In]; rewrite ?IH; intuition.
Qed.

Lemma sorted_desc_In (x : Q) (l : list Q) : In x (sorted_desc l) <-> In x l.
Proof.
  induction l as [|a l IH]; cbn [sorted_desc fold_right In]; [tauto|].
  fold (sorted_desc l). rewrite insert_sorted_desc_In, IH. intuition.
Qed.

Lemma insert_sorted_desc_sorted (a : Q) (l : list Q) :
  StronglySorted (fun x y => y <= x) l ->
  StronglySorted (fun x y => y <= x) (insert_sorted_desc a l).
Proof.
  intros Hs. induction Hs as [|y l Hs IH Hy]; cbn [insert_sorted_desc].
  - repeat constructor.
  - destruct (Qle_bool y a) eqn:E.
    + apply Qle_bool_iff in E. constructor; [now constructor|].
      constructor; [exact E|].
      rewrite List.Forall_forall in Hy |- *. intros x Hx.
      specialize (Hy x Hx). cbn in Hy. lra.
    + apply Qle_bool_gt in E. constructor; [exact IH|].
      rewrite List.Forall_forall in Hy |- *. intros x Hx.
      apply insert_sorted_desc_In in Hx as [-> | Hx];
        [lra | now apply Hy].
Qed.

Lemma sorted_desc_sorted (l : list Q) :
  StronglySorted (fun x y => y <= x) (sorted_desc l).
Proof.
  induction l as [|a l IH]; cbn [sorted_desc fold_right]; [constructor|].
  now apply insert_sorted_desc_sorted.
Qed.

Lemma insert_sorted_sorted (a : Q) (l : list Q) :
  StronglySorted Qle l -> StronglySorted Qle (insert_sorted a l).
Proof.
  intros Hs. induction Hs as [|y l Hs IH Hy]; cbn [insert_sorted].
  - repeat constructor.
  - destruct (Qle_bool a y) eqn:E.
    + apply Qle_bool_iff in E. constructor; [now constructor|].
      constructor; [exact E|].
      rewrite List.Forall_forall in Hy |- *. intros x Hx.
      specialize (Hy x Hx). lra.
    + apply Qle_bool_gt in E. constructor; [exact IH|].
      rewrite List.Forall_forall in Hy |- *. intros x Hx.
      apply insert_sorted_In in Hx as [-> | Hx];
        [lra | now apply Hy].
Qed.

Lemma sorted_sorted (l : list Q) : StronglySorted Qle (sorted l).
Proof.
  induction l as [|a l IH]; cbn [sorted fold_right]; [constructor|].
  now apply insert_sorted_sorted.
Qed.

Lemma firstn_sub {A : Type} (n : nat) (l : list A) (x : A) :
  In x (firstn n l) -> In x l.
Proof.
  revert l. induction n as [|n IH]; intros l; [intros []|].
  destruct l as [|a l]; [intros []|]. cbn [firstn In].
  intros [H | H]; [now left | right; now apply IH].
Qed.

(** The first of at most three elements of a sorted list bounds every
    element of the list. *)
Lemma head_bounds (R : Q -> Q -> Prop) (l : list Q) (x : Q) :
  (forall a, R a a) -> StronglySorted R l -> In x l ->
  exists h, hd_error (firstn 3 l) = Some h /\ R h x.
Proof.
  intros Hrefl Hs Hx. destruct Hs as [|h l Hs Hh]; [destruct Hx|].
  exists h. split; [reflexivity|].
  destruct Hx as [<- | Hx]; [apply Hrefl|].
  rewrite List.Forall_forall in Hh. now apply Hh.
Qed.

(** What [get_support_resistance] answers.  Each side holds at most three
    prices; a support level is a bin of the profile below the current price
    whose volume is at least one and a half times the average bin volume,
    a resistance level such a bin above the current price; and the first
    level of each side is the nearest one: no such bin lies between it and
    the current price. *)
Theorem support_resistance_levels (dc : EnhancedDataCollector) (self : t) :
  let support := fst (get_support_resistance dc self) in
  let resistance := snd (get_support_resistance dc self) in
  let threshold :=
    pysum (map snd (profile self))
    / inject_Z (Z.of_nat (length (profile self))) * (15 # 10) in
  let significant k :=
    exists v, In (k, v) (profile self) /\ threshold <= v in
  (length support <= 3)%nat /\ (length resistance <= 3)%nat
  /\ (forall k, In k support -> significant k /\ k < current_price dc)
  /\ (forall k, In k resistance -> significant k /\ current_price dc < k)
  /\ (forall k, significant k -> k < current_price dc ->
        exists nearest, hd_error support = Some nearest /\ k <= nearest)
  /\ (forall k, significant k -> current_price dc < k ->
        exists nearest, hd_error resistance = Some nearest /\ nearest <= k).
Proof.
  cbv zeta. unfold get_support_resistance.
  destruct (profile self) as [|kv d] eqn:Hprof.
  { cbn. repeat split; try lia; try tauto;
      intros k (v & [] & _). }
  set (prof := kv :: d) in *.
  set (threshold := pysum (map snd prof)
                    / inject_Z (Z.of_nat (length prof)) * (15 # 10)).
  set (nodes := map fst
                  (List.filter (fun kv => Qle_bool threshold (snd kv)) prof)).
  cbn [fst snd].
  assert (Hnodes : forall k,
            In k nodes <-> exists v, In (k, v) prof /\ threshold <= v).
  { intros k. unfold nodes. rewrite in_map_iff. split.
    - intros ([k' v] & <- & Hin). apply filter_In in Hin as [Hin Hv].
      exists v. split; [exact Hin | now apply Qle_bool_iff].
    - intros (v & Hin & Hv). exists (k, v). split; [reflexivity|].
      apply filter_In. split; [exact Hin | now apply Qle_bool_iff]. }
  assert (Hsup : forall k,
            In k (List.filter (fun p => Qltb p (current_price dc)) nodes)
            <-> (exists v, In (k, v) prof /\ threshold <= v)
                /\ k < current_price dc).
  { intros k. rewrite filter_In, Hnodes, Qltb_lt. tauto. }
  assert (Hres : forall k,
            In k (List.filter (fun p => Qltb (current_price dc) p) nodes)
            <-> (exists v, In (k, v) prof /\ threshold <= v)
                /\ current_price dc < k).
  { intros k. rewrite filter_In, Hnodes, Qltb_lt. tauto. }
  split; [apply firstn_le_length|]. split; [apply firstn_le_length|].
  split; [|split; [|split]].
  - intros k Hk. apply Hsup, sorted_desc_In. exact (firstn_sub _ _ _ Hk).
  - intros k Hk. apply Hres, sorted_In. exact (firstn_sub _ _ _ Hk).
  - intros k Hsig Hlt.
    apply (head_bounds (fun x y => y <= x)).
    + intros a. lra.
    + apply sorted_desc_sorted.
    + apply sorted_desc_In, Hsup. now split.
  - intros k Hsig Hlt.
    apply (head_bounds Qle).
    + intros a. lra.
    + apply sorted_sorted.
    + apply sorted_In, Hres. now split.
Qed.

End SupportResistance.

(** ** data_collector.py *)

Section DataCollectorProperties.
Import DataCollector.

Lemma deque_append_cases {A : Type} (maxlen : nat) (l : list A) (x : A) :
  (length l <= maxlen)%nat ->
  (length (deque_append maxlen l x) <= maxlen)%nat
  /\ ((length l < maxlen)%nat -> deque_append maxlen l x = l ++ [x])
  /\ (length l = maxlen -> (0 < maxlen)%nat ->
      deque_append maxlen l x = tl l ++ [x])
  /\ ((0 < maxlen)%nat -> List.last (deque_append maxlen l x) x = x).
Proof.
  intros Hlen. unfold deque_append. repeat split.
  - rewrite length_skipn, length_app. cbn [length]. lia.
  - intros H. replace (length l + 1 - maxlen)%nat with O by lia.
    reflexivity.
  - intros H Hpos. replace (length l + 1 - maxlen)%nat with 1%nat by lia.
    destruct l as [|a l]; [cbn in H; lia | reflexivity].
  - intros Hpos.
    destruct (Nat.eq_dec (length l) maxlen) as [Heq | Hne].
    + replace (length l + 1 - maxlen)%nat with 1%nat by lia.
      destruct l as [|a l]; [cbn in Heq; lia|].
      cbn [app skipn]. apply last_last.
    + replace (length l + 1 - maxlen)%nat with O by lia.
      cbn [skipn]. apply last_last.
Qed.

(** The trade buffer is a ring: a trade message puts the trade last, makes
    its price the current price, drops the oldest trade when the buffer is
    full, never lets the buffer exceed TRADE_STREAM_BUFFER, and leaves the
    account fields alone. *)
Theorem trade_buffer_is_a_ring (settings : AnalyzerConfig)
    (dc : EnhancedDataCollector) (trade : Trade) :
  let size := Z.to_nat (TRADE_STREAM_BUFFER settings) in
  let dc' := on_trade settings dc trade in
  (length (trades dc) <= size)%nat ->
  (length (trades dc') <= size)%nat
  /\ current_price dc' = price trade
  /\ ((length (trades dc) < size)%nat -> trades dc' = trades dc ++ [trade])
  /\ (length (trades dc) = size -> (0 < size)%nat ->
      trades dc' = tl (trades dc) ++ [trade])
  /\ ((0 < size)%nat -> List.last (trades dc') trade = trade)
  /\ account_balance dc' = account_balance dc
  /\ open_positions dc' = open_positions dc
  /\ daily_pnl dc' = daily_pnl dc.
Proof.
  cbv zeta. intros Hlen. unfold on_trade.
  cbn [trades current_price account_balance open_positions daily_pnl].
  destruct (deque_append_cases (Z.to_nat (TRADE_STREAM_BUFFER settings))
              (trades dc) trade Hlen) as (H1 & H2 & H3 & H4).
  repeat split; assumption.
Qed.

Lemma dict_set_keys (d : Side) (k v : Q) :
  map fst (dict_set d k v)
  = if existsb (fun k' => Qeq_bool k' k) (map fst d)
    then map fst d else map fst d ++ [k].
Proof.
  induction d as [|[k' v'] d IH]; cbn [dict_set map fst existsb app];
    [reflexivity|].
  destruct (Qeq_bool k' k); cbn [orb map fst]; [reflexivity|].
  rewrite IH. now destruct (existsb _ _).
Qed.

Lemma dict_set_In (d : Side) (k v : Q) (kv : Q * Q) :
  In kv (dict_set d k v) -> In kv d \/ snd kv = v.
Proof.
  induction d as [|[k' v'] d IH]; cbn [dict_set].
  - intros [<- | []]. now right.
  - destruct (Qeq_bool k' k).
    + intros [<- | H]; cbn [In snd]; tauto.
    + intros [<- | H]; [left; now left|].
      destruct (IH H); cbn [In]; tauto.
Qed.

Lemma dict_pop_In (d : Side) (k : Q) (kv : Q * Q) :
  In kv (dict_pop d k) -> In kv d.
Proof.
  induction d as [|[k' v'] d IH]; cbn [dict_pop]; [tauto|].
  destruct (Qeq_bool k' k); cbn [In]; [tauto|].
  intros [<- | H]; [now left | right; now apply IH].
Qed.

Lemma dict_pop_distinct (d : Side) (k : Q) :
  VolumeProfile.distinct (map fst d) ->
  VolumeProfile.distinct (map fst (dict_pop d k)).
Proof.
  induction d as [|[k' v'] d IH]; cbn [dict_pop map fst VolumeProfile.distinct];
    [tauto|].
  intros [Hk Hd]. destruct (Qeq_bool k' k); [exact Hd|].
  cbn [map fst VolumeProfile.distinct]. split; [|now apply IH].
  intros x Hx. apply Hk. apply in_map_iff in Hx as (kv & <- & Hin).
  apply in_map. now apply dict_pop_In in Hin.
Qed.

Lemma dict_get_set (d : Side) (k v : Q) :
  VolumeProfile.dict_get (dict_set d k v) k = Some v.
Proof.
  induction d as [|[k' v'] d IH]; cbn [dict_set VolumeProfile.dict_get].
  - now rewrite Qeq_bool_refl.
  - destruct (Qeq_bool k' k) eqn:E; cbn [VolumeProfile.dict_get];
      rewrite E; [reflexivity | exact IH].
Qed.

Lemma dict_get_set_other (d : Side) (k v k2 : Q) :
  ~ k2 == k ->
  VolumeProfile.dict_get (dict_set d k v) k2 = VolumeProfile.dict_get d k2.
Proof.
  intros Hne.
  induction d as [|[k' v'] d IH]; cbn [dict_set VolumeProfile.dict_get].
  - destruct (Qeq_bool k k2) eqn:E; [|reflexivity].
    apply Qeq_bool_iff in E. exfalso. apply Hne. now symmetry.
  - destruct (Qeq_bool k' k) eqn:E; cbn [VolumeProfile.dict_get].
    + destruct (Qeq_bool k' k2) eqn:E2; [|reflexivity].
      apply Qeq_bool_iff in E, E2. exfalso. apply Hne.
      now rewrite <- E, E2.
    + now rewrite IH.
Qed.

Lemma dict_get_pop (d : Side) (k : Q) :
  VolumeProfile.distinct (map fst d) ->
  VolumeProfile.dict_get (dict_pop d k) k = None.
Proof.
  induction d as [|[k' v'] d IH];
    cbn [dict_pop map fst VolumeProfile.distinct]; [reflexivity|].
  intros [Hk Hd]. destruct (Qeq_bool k' k) eqn:E.
  - apply Qeq_bool_iff in E.
    destruct (VolumeProfile.dict_get d k) as [v|] eqn:Hget; [|reflexivity].
    exfalso. destruct (dict_get_In _ _ _ Hget) as (k2 & Hin & Heq).
    apply (Hk k2); [apply (in_map fst) in Hin; exact Hin|].
    now rewrite Heq, E.
  - cbn [VolumeProfile.dict_get]. rewrite E. now apply IH.
Qed.

Lemma dict_get_pop_other (d : Side) (k k2 : Q) :
  ~ k2 == k ->
  VolumeProfile.dict_get (dict_pop d k) k2 = VolumeProfile.dict_get d k2.
Proof.
  intros Hne.
  induction d as [|[k' v'] d IH]; cbn [dict_pop VolumeProfile.dict_get];
    [reflexivity|].
  destruct (Qeq_bool k' k) eqn:E; cbn [VolumeProfile.dict_get].
  - destruct (Qeq_bool k' k2) eqn:E2; [|reflexivity].
    apply Qeq_bool_iff in E, E2. exfalso. apply Hne.
    now rewrite <- E, E2.
  - now rewrite IH.
Qed.

Lemma apply_level_clean (d : Side) (level : Q * Q) :
  clean d -> clean (apply_level d level).
Proof.
  intros [Hd Hq]. destruct level as [p q]. unfold apply_level.
  destruct (Qeq_bool q 0) eqn:E.
  - split; [now apply dict_pop_distinct|].
    intros kv Hin. apply Hq. now apply dict_pop_In in Hin.
  - split.
    + rewrite dict_set_keys. destruct (existsb _ _) eqn:Ex; [exact Hd|].
      apply distinct_snoc; [exact Hd|]. now apply existsb_Qeq_false.
    + intros kv Hin. apply dict_set_In in Hin as [Hin | ->];
        [now apply Hq|].
      intros H. apply Qeq_bool_iff in H. congruence.
Qed.

(** One level of a depth message writes one price of a clean side: a
    quantity of zero removes the price, any other quantity becomes the
    quantity of that price, every other price keeps its quantity, and the
    side stays clean (distinct prices, no level of quantity zero). *)
Theorem depth_level_writes_one_price (d : Side) (p q : Q) :
  clean d ->
  clean (apply_level d (p, q))
  /\ (q == 0 -> VolumeProfile.dict_get (apply_level d (p, q)) p = None)
  /\ (~ q == 0 -> VolumeProfile.dict_get (apply_level d (p, q)) p = Some q)
  /\ (forall p', ~ p' == p ->
        VolumeProfile.dict_get (apply_level d (p, q)) p'
        = VolumeProfile.dict_get d p').
Proof.
  intros Hc. split; [now apply apply_level_clean|].
  destruct Hc as [Hd _]. unfold apply_level.
  destruct (Qeq_bool q 0) eqn:E.
  - apply Qeq_bool_iff in E. repeat split.
    + intros _. now apply dict_get_pop.
    + intros H. contradiction.
    + intros p' Hne. now apply dict_get_pop_other.
  - repeat split.
    + intros H. apply Qeq_bool_iff in H. congruence.
    + intros _. apply dict_get_set.
    + intros p' Hne. now apply dict_get_set_other.
Qed.

(** A depth message keeps both sides of the book clean. *)
Theorem depth_message_keeps_book_clean (orderbook : OrderBook)
    (msg : DepthMessage) :
  clean (bids orderbook) -> clean (asks orderbook) ->
  clean (bids (on_depth_message orderbook msg))
  /\ clean (asks (on_depth_message orderbook msg)).
Proof.
  assert (Hfold : forall levels d,
            clean d -> clean (fold_left apply_level levels d)).
  { induction levels as [|level levels IH]; intros d Hd; [exact Hd|].
    cbn [fold_left]. apply IH. now apply apply_level_clean. }
  intros Hb Ha. unfold on_depth_message. cbn [bids asks].
  split; now apply Hfold.
Qed.

End DataCollectorProperties.

Section ClosesAndSpread.
Import DataCollector.

Lemma last_items_length {A : Type} (l : list A) (n : Z) :
  (1 <= n <= Z.of_nat (length l))%Z ->
  last_items l n = skipn (length l - Z.to_nat n) l
  /\ Z.of_nat (length (last_items l n)) = n.
Proof.
  intros [H1 H2]. unfold last_items.
  assert (E : (0 <? n)%Z = true) by (apply Z.ltb_lt; lia).
  rewrite E. split; [reflexivity|]. rewrite length_skipn. lia.
Qed.

(** [get_closes] with a period count of at least 1 answers with exactly
    that many closing prices, those of the newest candles of the interval,
    or with none at all: none when the interval is not collected or has
    fewer candles. *)
Theorem get_closes_all_or_nothing (klines : gmap string (list Candle))
    (interval : string) (periods : Z) :
  (1 <= periods)%Z ->
  (forall history,
     klines !! interval = Some history ->
     (periods <= Z.of_nat (length history))%Z ->
     get_closes klines interval periods
     = map close (skipn (length history - Z.to_nat periods) history)
     /\ Z.of_nat (length (get_closes klines interval periods)) = periods)
  /\ (forall history,
        klines !! interval = Some history ->
        (Z.of_nat (length history) < periods)%Z ->
        get_closes klines interval periods = [])
  /\ (klines !! interval = None -> get_closes klines interval periods = []).
Proof.
  intros Hp. unfold get_closes. split; [|split].
  - intros history Hk Hlen. rewrite Hk.
    assert (E : (Z.of_nat (length history) <? periods)%Z = false)
      by (apply Z.ltb_ge; exact Hlen).
    rewrite E, length_map.
    destruct (last_items_length history periods) as [-> Hl]; [lia|].
    split; [reflexivity|]. rewrite length_skipn. lia.
  - intros history -> Hlt. apply Z.ltb_lt in Hlt. now rewrite Hlt.
  - now intros ->.
Qed.

(** The spread of an order book.  A book with an empty side has the
    sentinel spread of 1000 basis points.  Otherwise the best bid is the
    highest bid price and the best ask the lowest ask price; a best bid of
    zero raises ZeroDivisionError; for a positive best bid the spread is
    negative exactly for a crossed book and exceeds a limit exactly when
    the best ask exceeds the best bid by more than that many basis
    points. *)
Theorem spread_of_a_book (orderbook : OrderBook) :
  (bids orderbook = [] \/ asks orderbook = [] ->
   Spread._calculate_spread orderbook = Ok 1000)
  /\ (bids orderbook <> [] -> asks orderbook <> [] ->
      exists best_bid best_ask,
        In best_bid (map fst (bids orderbook))
        /\ In best_ask (map fst (asks orderbook))
        /\ (forall p, In p (map fst (bids orderbook)) -> p <= best_bid)
        /\ (forall p, In p (map fst (asks orderbook)) -> best_ask <= p)
        /\ (best_bid == 0 ->
            Spread._calculate_spread orderbook = Raise ZeroDivisionError)
        /\ (0 < best_bid ->
            exists spread,
              Spread._calculate_spread orderbook = Ok spread
              /\ (spread < 0 <-> best_ask < best_bid)
              /\ (forall limit,
                    limit < spread
                    <-> best_bid * (1 + limit / 10000) < best_ask))).
Proof.
  unfold Spread._calculate_spread. split.
  - intros [-> | ->]; [reflexivity|].
    now destruct (map fst (bids orderbook)).
  - intros Hb Ha.
    destruct (bids orderbook) as [|[bid bv] bs]; [congruence|].
    destruct (asks orderbook) as [|[ask av] as_]; [congruence|].
    cbn [map fst].
    set (best_bid := VolumeProfile.pymax bid (map fst bs)).
    set (best_ask := VolumeProfile.pymin ask (map fst as_)).
    exists best_bid, best_ask.
    split; [apply pymax_in|]. split; [apply pymin_in|].
    split; [intros p Hp; now apply pymax_ge|].
    split; [intros p Hp; now apply pymin_le|].
    split.
    + intros H0. now rewrite (pydiv_zero _ _ H0).
    + intros Hpos. rewrite pydiv_ok, bind_Ok by lra.
      eexists. split; [reflexivity|].
      assert (Hratio : (best_ask - best_bid) / best_bid * best_bid
                       == best_ask - best_bid) by (field; lra).
      set (ratio := (best_ask - best_bid) / best_bid) in *.
      split.
      * split; intros H; nra.
      * intros limit.
        assert (Hl : limit / 10000 * 10000 == limit) by field.
        set (l := limit / 10000) in *.
        split; intros H; nra.
Qed.

(** A book with an empty side is never tradeable under a spread limit
    below the sentinel of 1000 basis points, whatever the other readings
    are. *)
Theorem one_sided_book_is_untradeable (config : BotConfig)
    (self : MarketConditionAnalyzer.t) (orderbook : OrderBook)
    (readings : MarketConditionAnalyzer.Readings) :
  bids orderbook = [] \/ asks orderbook = [] ->
  Spread._calculate_spread orderbook
  = Ok (MarketConditionAnalyzer.calculated_spread readings) ->
  MAX_SPREAD_BIPS config < 1000 ->
  MarketConditionAnalyzer.is_tradeable
    (fst (MarketConditionAnalyzer.analyze_conditions config self readings))
  = false.
Proof.
  intros Hside Hspread Hmax.
  assert (H1000 : Spread._calculate_spread orderbook = Ok 1000).
  { unfold Spread._calculate_spread.
    destruct Hside as [-> | ->]; [reflexivity|].
    now destruct (map fst (bids orderbook)). }
  rewrite H1000 in Hspread. injection Hspread as Hs.
  unfold MarketConditionAnalyzer.analyze_conditions.
  cbn [fst MarketConditionAnalyzer.is_tradeable]. rewrite <- Hs.
  apply Qltb_lt in Hmax. now rewrite Hmax.
Qed.

End ClosesAndSpread.

(** ** delta_divergence.py *)

Section DeltaDivergenceProperties.
Import DeltaDivergenceDetector.
Variable settings : AnalyzerConfig.

Lemma pyint_above (x : Q) (n : Z) :
  0 <= x -> inject_Z n <= x -> (n <= pyint x)%Z.
Proof.
  intros Hx Hn. destruct (pyint_floor x Hx) as [_ Hhi].
  assert (H : inject_Z n < inject_Z (pyint x + 1)).
  { rewrite inject_Z_plus. change (inject_Z 1) with 1. lra. }
  rewrite <- Zlt_Qlt in H. lia.
Qed.

(** What [detect_divergence] reports.  With fewer history points than
    DELTA_DIVERGENCE_PERIODS it reports no divergence.  Whenever it
    returns, the strength lies between 0 and 100 and is 0 for "none"; a
    bullish report means the price fell by more than 1 percent while the
    delta rose by more than 1 percent, a bearish one the reverse, both with
    a gap above DELTA_DIVERGENCE_THRESHOLD, and the strength is then at
    least 200 times the threshold, capped at 100. *)
Theorem divergence_report_is_bounded (delta_history : list DeltaPoint) :
  ((Z.of_nat (length delta_history) < DELTA_DIVERGENCE_PERIODS settings)%Z ->
   detect_divergence settings delta_history = Ok no_divergence)
  /\ (forall r,
        detect_divergence settings delta_history = Ok r ->
        (0 <= report_strength r <= 100)%Z
        /\ (r = no_divergence
            \/ exists price_change delta_change,
                 report_changes r = Some (price_change, delta_change)
                 /\ DELTA_DIVERGENCE_THRESHOLD settings
                    < Qabs (price_change - delta_change)
                 /\ report_strength r
                    = Z.min 100
                        (pyint (Qabs (price_change - delta_change) * 200))
                 /\ ((report_type r = "bullish"
                      /\ price_change < - (1 # 100)
                      /\ 1 # 100 < delta_change)
                     \/ (report_type r = "bearish"
                         /\ 1 # 100 < price_change
                         /\ delta_change < - (1 # 100)))
                 /\ (forall n : Z,
                       inject_Z n
                       <= DELTA_DIVERGENCE_THRESHOLD settings * 200 ->
                       (Z.min 100 n <= report_strength r)%Z))).
Proof.
  unfold detect_divergence. split.
  { intros H. apply Z.ltb_lt in H. now rewrite H. }
  intros r.
  destruct (_ <? _)%Z; [intros [= <-]; split; [cbn; lia | now left]|].
  destruct (last_items delta_history _) as [|first rest];
    [discriminate|].
  destruct (pydiv _ _) as [price_change| |]; [|discriminate..].
  rewrite bind_Ok.
  set (newest := List.last (first :: rest) first).
  set (delta_change := (point_delta newest - point_delta first)
                       / (Qabs (point_delta first) + 1)).
  set (gap := Qabs (price_change - delta_change)).
  assert (Hgap : 0 <= gap) by apply Qabs_nonneg.
  assert (Hstr : (0 <= Z.min 100 (pyint (gap * 200)) <= 100)%Z).
  { assert (H0 : (0 <= pyint (gap * 200))%Z)
      by (apply pyint_above; [|change (inject_Z 0) with 0]; lra).
    lia. }
  assert (Hfloor : DELTA_DIVERGENCE_THRESHOLD settings < gap ->
                   forall n : Z,
                     inject_Z n
                     <= DELTA_DIVERGENCE_THRESHOLD settings * 200 ->
                     (Z.min 100 n <= Z.min 100 (pyint (gap * 200)))%Z).
  { intros Hthr n Hn.
    assert (H : (n <= pyint (gap * 200))%Z)
      by (apply pyint_above; lra).
    lia. }
  destruct (Qltb price_change (- (1 # 100))) eqn:E1,
           (Qltb (1 # 100) delta_change) eqn:E2,
           (Qltb (DELTA_DIVERGENCE_THRESHOLD settings) gap) eqn:E3,
           (Qltb (1 # 100) price_change) eqn:E4,
           (Qltb delta_change (- (1 # 100))) eqn:E5;
    cbn [andb]; intros [= <-];
    cbn [report_strength report_type report_changes];
    (split; [exact Hstr || (cbn; lia)|]);
    try (now left);
    right; exists price_change, delta_change;
    apply Qltb_lt in E3;
    (split; [reflexivity|]); (split; [exact E3|]);
    (split; [reflexivity|]);
    (split; [|now apply Hfloor]).
  all: try (left; split; [reflexivity|];
            apply Qltb_lt in E1; apply Qltb_lt in E2; now split).
  all: right; split; [reflexivity|];
       apply Qltb_lt in E4; apply Qltb_lt in E5; now split.
Qed.

(** [detect_divergence] raises ZeroDivisionError exactly when it has
    enough history and the oldest price of the window is zero (for a
    period count of at least 1). *)
Theorem divergence_raises_on_zero_price (delta_history : list DeltaPoint) :
  (1 <= DELTA_DIVERGENCE_PERIODS settings)%Z ->
  detect_divergence settings delta_history = Raise ZeroDivisionError
  <->
  (DELTA_DIVERGENCE_PERIODS settings <= Z.of_nat (length delta_history))%Z
  /\ exists first,
       hd_error (last_items delta_history
                   (DELTA_DIVERGENCE_PERIODS settings)) = Some first
       /\ point_price first == 0.
Proof.
  intros Hp. unfold detect_divergence.
  destruct (_ <? _)%Z eqn:E;
    [apply Z.ltb_lt in E | apply Z.ltb_ge in E].
  { split; [discriminate | intros [H _]; lia]. }
  destruct (last_items_length delta_history _ (conj Hp E)) as [_ Hlen].
  destruct (last_items delta_history _) as [|first rest];
    [cbn in Hlen; lia|].
  cbn [hd_error].
  destruct (pydiv_cases
              (point_price (List.last (first :: rest) first)
               - point_price first) (point_price first))
    as [[Hz ->] | [Hnz ->]].
  - split; [|reflexivity]. intros _. split; [exact E|]. now exists first.
  - rewrite bind_Ok. split.
    + repeat destruct (Qltb _ _); cbn [andb]; discriminate.
    + intros (_ & f & [= <-] & H0). contradiction.
Qed.

End DeltaDivergenceProperties.

(** ** The further properties at concrete inputs *)

Lemma calculate_ema_outcomes_on_five_closes :
  exists ema, TechnicalIndicators.calculate_ema Scenarios.closes5 3 = Ok ema.
Proof.
  refine (proj1 (proj2 (proj2 (proj2 (proj2 (proj2
            (calculate_ema_outcomes Scenarios.closes5 3)))))) _ _).
  - lia.
  - discriminate.
Defined.

Lemma ema_is_last_of_ema_series_on_five_closes :
  TechnicalIndicators.calculate_ema Scenarios.closes5 3
  = (series ← TechnicalIndicators.calculate_ema_series Scenarios.closes5 3;
     Ok (List.last series 0)).
Proof.
  refine (proj1 (ema_is_last_of_ema_series Scenarios.closes5 3 _)).
  discriminate.
Defined.

Lemma crossover_is_antisymmetric_on_a_cross :
  TechnicalIndicators.detect_ema_crossover 101 100 99 100 = "bullish"
  <-> TechnicalIndicators.detect_ema_crossover 100 101 100 99 = "bearish".
Proof.
  exact (proj1 (crossover_is_antisymmetric 101 100 99 100)).
Defined.

Lemma risk_limits_accept_small_size :
  PositionSizer.check_risk_limits default_config Scenarios.losing
    Scenarios.small_size
  = Ok (true, PositionSizer.PositionSizeValid).
Proof.
  apply (proj2 (risk_limits_accept_iff default_config Scenarios.losing
                  Scenarios.small_size PositionSizer.PositionSizeValid)).
  split; [reflexivity|].
  split; [vm_compute; discriminate|].
  split; [|reflexivity].
  intros _. split; [vm_compute; discriminate | reflexivity].
Defined.

Lemma fixed_dollar_trades_fixed_notional_at_50000 :
  exists r,
    PositionSizer.calculate_position_size
      (Scenarios.configured "fixed_dollar" 1) Examples.funded 50000 49000 65
    = Ok r
    /\ PositionSizer.method r = "fixed_dollar"
    /\ PositionSizer.notional_usdt r
       = FIXED_POSITION_SIZE_USDT (Scenarios.configured "fixed_dollar" 1)
    /\ PositionSizer.quantity_btc r * 50000
       == FIXED_POSITION_SIZE_USDT (Scenarios.configured "fixed_dollar" 1)
    /\ PositionSizer.risk_usdt r
       == PositionSizer.quantity_btc r * Qabs (50000 - 49000).
Proof.
  apply (fixed_dollar_trades_fixed_notional
           (Scenarios.configured "fixed_dollar" 1) Examples.funded
           50000 49000 65).
  - reflexivity.
  - vm_compute. discriminate.
  - reflexivity.
Defined.

Lemma kelly_risks_kelly_share_at_50000 :
  exists r,
    PositionSizer.calculate_position_size (Scenarios.configured "kelly" 1)
      Examples.funded 50000 49000 65 = Ok r
    /\ PositionSizer.method r = "kelly"
    /\ PositionSizer.quantity_btc r * Qabs (50000 - 49000)
       == PositionSizer.risk_usdt r.
Proof.
  destruct (kelly_risks_kelly_share (Scenarios.configured "kelly" 1)
              Examples.funded 50000 49000 65)
    as (r & Hr & Hm & _ & Hq & _).
  - reflexivity.
  - vm_compute. discriminate.
  - vm_compute. discriminate.
  - vm_compute. discriminate.
  - reflexivity.
  - exists r. split; [exact Hr|]. split; [exact Hm | exact Hq].
Defined.

Lemma fixed_percent_meets_account_risk_limit_at_10_percent :
  exists r,
    PositionSizer._fixed_percent_sizing
      (Scenarios.configured "fixed_percent" 10) 1000 50000
      (Qabs (50000 - 49000)) = Ok r
    /\ PositionSizer.check_risk_limits
         (Scenarios.configured "fixed_percent" 10) Examples.funded r
       = Ok (false,
             PositionSizer.RiskExceedsMax (PositionSizer.risk_usdt r)
               (1000 * (5 / 100))).
Proof.
  eexists. split; [vm_compute; reflexivity|].
  refine (proj2 (fixed_percent_meets_account_risk_limit
                   (Scenarios.configured "fixed_percent" 10)
                   Examples.funded 50000 49000 _ _ _) _).
  - reflexivity.
  - vm_compute. reflexivity.
  - reflexivity.
Defined.

Lemma daily_limits_reset_once_per_day_after_two_days :
  exists dc' self',
    RiskManager.check_daily_limits default_config Scenarios.losing
      Examples.tracking (2 * RiskManager.microseconds_per_day + 5)
    = Ok (true, RiskManager.DailyLimitsOK, dc', self')
    /\ daily_pnl dc' = 0 /\ daily_trades dc' = 0%Z.
Proof.
  destruct (daily_limits_reset_once_per_day default_config Scenarios.losing
              Examples.tracking (2 * RiskManager.microseconds_per_day + 5))
    as (dc' & self' & H & Hp & Ht & _).
  - reflexivity.
  - exists dc', self'. split; [exact H|]. split; [exact Hp | exact Ht].
Defined.

Lemma daily_limits_pass_small_loss :
  RiskManager.check_daily_limits default_config Scenarios.losing
    Examples.tracking 2000
  = Ok (true, RiskManager.DailyLimitsOK, Scenarios.losing, Examples.tracking).
Proof.
  refine (proj1 (proj2 (proj2
            (daily_limits_block_iff default_config Scenarios.losing
               Examples.tracking 2000 _))) _).
  - vm_compute. discriminate.
  - right. split; [vm_compute; discriminate | reflexivity].
Defined.

Lemma update_touches_only_its_id_on_long_call :
  RiskManager.active_stops
    (RiskManager._update_trailing_stop default_config Examples.tracking
       Examples.long_position 51000 10) !! "BTCUSDT_SHORT"
  = RiskManager.active_stops Examples.tracking !! "BTCUSDT_SHORT".
Proof.
  apply (proj1 (proj2
           (update_touches_only_its_id default_config Examples.tracking
              Examples.long_position 51000 10))).
  vm_compute. discriminate.
Defined.

Lemma monitoring_is_a_run_of_updates_on_one_long :
  RiskManager.monitor_positions default_config Scenarios.losing
    Examples.tracking
  = (Ok tt,
     RiskManager.update_trailing_stops default_config Examples.tracking
       (RiskManager.monitoring_calls Scenarios.losing)).
Proof.
  refine (proj1 (monitoring_is_a_run_of_updates default_config
                   Scenarios.losing Examples.tracking _ _)).
  - reflexivity.
  - repeat constructor. vm_compute. discriminate.
Defined.

Lemma executor_never_reports_sizer_daily_loss_when_crowded :
  OrderExecutor.execute_signal default_config Scenarios.crowded
    Examples.tracking 2000 Examples.buy_signal
  = (Ok (OrderExecutor.PositionRejected
           (PositionSizer.MaximumPositionsReached 3)),
     Scenarios.crowded, Examples.tracking)
  /\ PositionSizer.MaximumPositionsReached 3
     <> PositionSizer.DailyLossLimitReached 3.
Proof.
  assert (H : OrderExecutor.execute_signal default_config Scenarios.crowded
                Examples.tracking 2000 Examples.buy_signal
              = (Ok (OrderExecutor.PositionRejected
                       (PositionSizer.MaximumPositionsReached 3)),
                 Scenarios.crowded, Examples.tracking))
    by (vm_compute; reflexivity).
  split; [exact H|].
  exact (executor_never_reports_sizer_daily_loss default_config
           Scenarios.crowded Scenarios.crowded Examples.tracking
           Examples.tracking 2000 Examples.buy_signal _ H 3).
Defined.

Lemma zero_balance_order_is_handed_off_at_zero :
  exists dc' rm' position_size,
    OrderExecutor.execute_signal default_config (Examples.collector [] 0)
      Examples.tracking 2000 Examples.buy_signal
    = (Ok (OrderExecutor.PlaceMarketOrder Examples.buy_signal position_size),
       dc', rm')
    /\ PositionSizer.quantity_btc position_size = 0
    /\ PositionSizer.method position_size = "no_balance".
Proof.
  apply (zero_balance_order_is_handed_off default_config
           (Examples.collector [] 0) Examples.tracking 2000
           Examples.buy_signal).
  - reflexivity.
  - reflexivity.
  - reflexivity.
  - vm_compute. discriminate.
  - reflexivity.
Defined.

Lemma negative_balance_order_is_rejected_at_minus_5 :
  exists dc' rm' max_risk,
    OrderExecutor.execute_signal default_config (Examples.collector [] (-5))
      Examples.tracking 2000 Examples.buy_signal
    = (Ok (OrderExecutor.PositionRejected
             (PositionSizer.RiskExceedsMax 0 max_risk)),
       dc', rm')
    /\ max_risk < 0.
Proof.
  apply (negative_balance_order_is_rejected default_config
           (Examples.collector [] (-5)) Examples.tracking 2000
           Examples.buy_signal).
  - reflexivity.
  - reflexivity.
  - reflexivity.
  - vm_compute. discriminate.
  - reflexivity.
Defined.

Lemma returned_signal_orders_stop_entry_target_on_bullish_cycle :
  exists s self',
    EnhancedOrderFlowStrategy.analyze_market default_config Examples.funded
      2000 Examples.bullish_readings Examples.fresh_strategy
    = (Ok s, self')
    /\ Signal.action s = "buy"
    /\ Signal.entry_price s = current_price Examples.funded
    /\ Signal.stop_loss s < Signal.entry_price s < Signal.take_profit s.
Proof.
  do 2 eexists. split; [vm_compute; reflexivity|].
  split; [reflexivity|].
  refine (let H := proj1 (returned_signal_orders_stop_entry_target
                   default_config Examples.funded 2000
                   Examples.bullish_readings Examples.fresh_strategy _ _
                   _ _ _ _) _ in conj (proj1 H) (proj1 (proj2 H))).
  - vm_compute. reflexivity.
  - reflexivity.
  - reflexivity.
  - reflexivity.
  - reflexivity.
Defined.

Lemma returned_signal_is_sizeable_on_bullish_cycle :
  exists s self' size,
    EnhancedOrderFlowStrategy.analyze_market default_config Examples.funded
      2000 Examples.bullish_readings Examples.fresh_strategy
    = (Ok s, self')
    /\ PositionSizer.calculate_position_size default_config Examples.funded
         (Signal.entry_price s) (Signal.stop_loss s) (Signal.strength s)
       = Ok size
    /\ PositionSizer.notional_usdt size
       == account_balance Examples.funded
          * RISK_PER_TRADE_PERCENT default_config
          / STOP_LOSS_PERCENT default_config.
Proof.
  destruct (returned_signal_is_sizeable default_config Examples.funded 2000
              Examples.bullish_readings Examples.fresh_strategy
              (snd (EnhancedOrderFlowStrategy.analyze_market default_config
                      Examples.funded 2000 Examples.bullish_readings
                      Examples.fresh_strategy))
              (match fst (EnhancedOrderFlowStrategy.analyze_market
                            default_config Examples.funded 2000
                            Examples.bullish_readings
                            Examples.fresh_strategy) with
               | Ok s => s
               | _ => Examples.buy_signal
               end))
    as (size & Hsize & Hnotional).
  - vm_compute. reflexivity.
  - left. vm_compute. reflexivity.
  - reflexivity.
  - reflexivity.
  - reflexivity.
  - vm_compute. tauto.
  - do 2 eexists. exists size.
    split; [vm_compute; reflexivity|].
    split; [exact Hsize | exact Hnotional].
Defined.

Lemma untradeable_market_short_circuits_on_wide_spread :
  exists s warnings,
    fst (EnhancedOrderFlowStrategy.analyze_market default_config
           Examples.funded 2000 Scenarios.wide_readings
           Examples.fresh_strategy) = Ok s
    /\ s = EnhancedOrderFlowStrategy.add_reasons
             [Signal.MarketNotTradeable warnings]
             (EnhancedOrderFlowStrategy.initial_signal 2000)
    /\ warnings <> [].
Proof.
  destruct (untradeable_market_short_circuits default_config Examples.funded
              2000 Scenarios.wide_readings Examples.fresh_strategy)
    as (s & warnings & H & Hs & Hw).
  - left. reflexivity.
  - exists s, warnings. rewrite H. split; [reflexivity|].
    split; [exact Hs | exact Hw].
Defined.

Lemma moving_average_bias_is_final_on_bullish_cycle :
  exists s self',
    EnhancedOrderFlowStrategy.analyze_market default_config Examples.funded
      2000 Examples.bullish_readings Examples.fresh_strategy
    = (Ok s, self')
    /\ Signal.bias s = "bullish"
    /\ EnhancedOrderFlowStrategy.last_signal self' = Some s.
Proof.
  do 2 eexists. split; [vm_compute; reflexivity|].
  apply (moving_average_bias_is_final default_config Examples.funded 2000
           Examples.bullish_readings Examples.fresh_strategy).
  - vm_compute. reflexivity.
  - reflexivity.
  - vm_compute. discriminate.
  - vm_compute. discriminate.
Defined.

Lemma build_profile_outcomes_on_empty_window :
  VolumeProfile.build_profile default_config (Examples.collector [] 0) 2000
    24 VolumeProfile.init
  = Ok (VolumeProfile.EmptyDict, VolumeProfile.init).
Proof.
  apply (proj1 (proj1 (build_profile_outcomes default_config
                         (Examples.collector [] 0) 2000 24
                         VolumeProfile.init))).
  reflexivity.
Defined.

Lemma value_area_encloses_poc_on_three_bins :
  exists prof p vah val total self',
    VolumeProfile.build_profile default_config
      (Examples.collector (Examples.three_bins 5 2 10) 0) 2000 24
      VolumeProfile.init
    = Ok (VolumeProfile.ProfileData prof p vah val total, self')
    /\ val <= p <= vah
    /\ VolumeProfile.is_price_in_value_area self' (VolumeProfile.poc self')
       = true.
Proof.
  do 6 eexists. split; [vm_compute; reflexivity|].
  refine (proj2 (proj2 (value_area_encloses_poc default_config
                    (Examples.collector (Examples.three_bins 5 2 10) 0)
                    2000 24 VolumeProfile.init _ _ _ _ _ _ _))).
  vm_compute. reflexivity.
Defined.

Lemma value_area_reaches_target_on_three_bins :
  exists prof p vah val total self',
    VolumeProfile.build_profile default_config
      (Examples.collector (Examples.three_bins 5 2 10) 0) 2000 24
      VolumeProfile.init
    = Ok (VolumeProfile.ProfileData prof p vah val total, self')
    /\ total * (VP_VALUE_AREA_PERCENT default_config / 100)
       <= VolumeProfile.band_volume prof val vah.
Proof.
  do 6 eexists. split; [vm_compute; reflexivity|].
  eapply (value_area_reaches_target default_config
           (Examples.collector (Examples.three_bins 5 2 10) 0) 2000 24
           VolumeProfile.init).
  - vm_compute. reflexivity.
  - intros t Ht. vm_compute in Ht.
    repeat (destruct Ht as [<- | Ht]; [reflexivity|]). destruct Ht.
  - split; vm_compute; discriminate.
Defined.

Lemma support_resistance_levels_on_five_bins :
  (length (fst (VolumeProfile.get_support_resistance Scenarios.at_102
                  Scenarios.five_bins)) <= 3)%nat
  /\ (length (snd (VolumeProfile.get_support_resistance Scenarios.at_102
                     Scenarios.five_bins)) <= 3)%nat.
Proof.
  pose proof (support_resistance_levels Scenarios.at_102 Scenarios.five_bins)
    as H.
  exact (conj (proj1 H) (proj1 (proj2 H))).
Defined.

Lemma trade_buffer_is_a_ring_on_first_trade :
  (length (trades (DataCollector.on_trade default_analyzer_config
                     Examples.funded (Examples.trade_at 50100 1)))
   <= Z.to_nat (TRADE_STREAM_BUFFER default_analyzer_config))%nat
  /\ current_price (DataCollector.on_trade default_analyzer_config
                      Examples.funded (Examples.trade_at 50100 1))
     = 50100.
Proof.
  pose proof (trade_buffer_is_a_ring default_analyzer_config Examples.funded
                (Examples.trade_at 50100 1) (Nat.le_0_l _)) as H.
  exact (conj (proj1 H) (proj1 (proj2 H))).
Defined.

Ltac each_member H :=
  cbn in H; repeat (destruct H as [<- | H]; [vm_compute; discriminate|]);
  destruct H.

Ltac concrete_clean :=
  split;
  [ cbn; repeat split; intros k' Hin; each_member Hin
  | intros kv Hin; each_member Hin ].

Lemma two_levels_clean : DataCollector.clean Scenarios.two_levels.
Proof. concrete_clean. Defined.

Lemma depth_level_writes_one_price_on_removal :
  DataCollector.clean (DataCollector.apply_level Scenarios.two_levels (100, 0))
  /\ VolumeProfile.dict_get
       (DataCollector.apply_level Scenarios.two_levels (100, 0)) 100
     = None.
Proof.
  pose proof (depth_level_writes_one_price Scenarios.two_levels 100 0
                two_levels_clean) as H.
  refine (conj (proj1 H) (proj1 (proj2 H) _)).
  reflexivity.
Defined.

Lemma depth_message_keeps_book_clean_on_update :
  DataCollector.clean
    (DataCollector.bids
       (DataCollector.on_depth_message Scenarios.book Scenarios.depth_update))
  /\ DataCollector.clean
       (DataCollector.asks
          (DataCollector.on_depth_message Scenarios.book
             Scenarios.depth_update)).
Proof.
  apply (depth_message_keeps_book_clean Scenarios.book Scenarios.depth_update).
  - exact two_levels_clean.
  - concrete_clean.
Defined.

Lemma get_closes_all_or_nothing_without_candles :
  DataCollector.get_closes ∅ "1m" 5 = [].
Proof.
  refine (proj2 (proj2 (get_closes_all_or_nothing ∅ "1m" 5 _)) _).
  - lia.
  - reflexivity.
Defined.

Lemma spread_of_an_empty_book :
  Spread._calculate_spread Scenarios.empty_book = Ok 1000.
Proof.
  apply (proj1 (spread_of_a_book Scenarios.empty_book)).
  left. reflexivity.
Defined.

Lemma divergence_report_is_bounded_on_bullish_divergence :
  exists r,
    DeltaDivergenceDetector.detect_divergence Scenarios.two_point_window
      Scenarios.falling_price_rising_delta = Ok r
    /\ DeltaDivergenceDetector.report_type r = "bullish"
    /\ (0 <= DeltaDivergenceDetector.report_strength r <= 100)%Z.
Proof.
  eexists. split; [vm_compute; reflexivity|].
  split; [reflexivity|].
  refine (proj1 (proj2 (divergence_report_is_bounded
                          Scenarios.two_point_window
                          Scenarios.falling_price_rising_delta) _ _)).
  vm_compute. reflexivity.
Defined.

Lemma divergence_raises_on_zero_first_price :
  DeltaDivergenceDetector.detect_divergence Scenarios.two_point_window
    Scenarios.zero_first_price
  = Raise ZeroDivisionError.
Proof.
  refine (proj2 (divergence_raises_on_zero_price Scenarios.two_point_window
                   Scenarios.zero_first_price _) _).
  - vm_compute. discriminate.
  - split; [vm_compute; discriminate|].
    eexists. split; [vm_compute; reflexivity | reflexivity].
Defined.

Lemma value_area_is_contiguous_and_reaches_target_on_three_bins :
  exists self',
    VolumeProfile._calculate_value_area default_config
      Scenarios.three_bin_profile = Ok self'
    /\ VolumeProfile.value_area_low self' <= 102
       <= VolumeProfile.value_area_high self'
    /\ pysum (map snd (VolumeProfile.profile Scenarios.three_bin_profile))
       * (VP_VALUE_AREA_PERCENT default_config / 100)
       <= VolumeProfile.band_volume
            (VolumeProfile.profile Scenarios.three_bin_profile)
            (VolumeProfile.value_area_low self')
            (VolumeProfile.value_area_high self').
Proof.
  destruct (value_area_is_contiguous_and_reaches_target default_config
              Scenarios.three_bin_profile)
    as (self' & i & lo & hi & Hva & _ & _ & _ & _ & _ & _ & Hpoc & _ & _
        & Hreach).
  - cbn. tauto.
  - cbn. repeat split; intros k' Hin; each_member Hin.
  - intros kv Hin. cbn in Hin.
    repeat (destruct Hin as [<- | Hin]; [reflexivity|]). destruct Hin.
  - split; vm_compute; discriminate.
  - exists self'. split; [exact Hva|]. split; [exact Hpoc | exact Hreach].
Defined.
